(** * WhatsApp meeting scheduler: a shallow embedding and its properties

    The development follows the layout of the repository:

    - Python values, exceptions and the [datetime] fragment the code uses;
    - [app/models/database.py]: the three tables and the ORM session
      discipline (one unit of work per session);
    - the collaborators behind the service modules (Google Calendar,
      Todoist, OpenAI, Qdrant, the clock) as an environment of oracles;
    - [app/services/*.py] and [app/api/webhooks.py], function by function,
      in a state-and-exception monad that also records a trace of the
      calls made to the calendar and task services;
    - the properties of the specification, stated on those functions.

    Conventions.  A text ([str]) is kept as the bytes of its UTF-8
    encoding, so the texts meant are the well-formed ones; the character
    classes of the interpreter (decimal digits, white space) are those
    of Unicode 14, the version of Python 3.11, and are read off the
    decoded characters.  A message is handled from
    start to end without interleaving ([await] is sequencing).  The
    relational store is SQLite, the default of [app/core/config.py]: a
    lookup by key answers, and a commit writes unless a value cannot be
    bound to its column.  Log lines are not modelled. *)

From Stdlib Require Import ZArith String Ascii List SpecFloat Lia.
From stdpp Require Import gmap strings list fin_maps pretty.

Local Open Scope string_scope.
Local Open Scope list_scope.
Local Open Scope Z_scope.

Set Default Proof Using "Type".
#[local] Set Warnings "-register-all".

(* ===================================================================== *)
(** * Python values and exceptions                                        *)
(* ===================================================================== *)

(** The values [json.loads] produces, which are also the values the
    handlers pass around in [dict]s. *)
Inductive pyval : Type :=
| PNone
| PBool (b : bool)
| PInt (n : Z)
| PFloat (f : spec_float)
| PStr (s : string)
| PList (l : list pyval)
| PDict (d : gmap string pyval).

Definition float_is_zero (f : spec_float) : bool :=
  match f with S754_zero _ => true | _ => false end.

(** [bool(v)], the test behind [if v:] and [not v]. *)
Definition truthy (v : pyval) : bool :=
  match v with
  | PNone => false
  | PBool b => b
  | PInt n => negb (n =? 0)
  | PFloat f => negb (float_is_zero f)
  | PStr s => negb (String.eqb s "")
  | PList l => match l with [] => false | _ :: _ => true end
  | PDict d => negb (Nat.eqb (size d) 0)
  end.

(** [d.get(k)] and [d.get(k, default)]. *)
Definition dict_get (d : gmap string pyval) (k : string) : pyval :=
  default PNone (d !! k).

Definition dict_get_default (d : gmap string pyval) (k : string) (dflt : pyval) : pyval :=
  default dflt (d !! k).

(** [v == 'literal'] for a string literal. *)
Definition py_eq_str (v : pyval) (lit : string) : bool :=
  match v with PStr s => String.eqb s lit | _ => false end.

Definition opt_truthy (o : option string) : bool :=
  match o with Some s => negb (String.eqb s "") | None => false end.

(** The name of the type of a value, as exception messages print it. *)
Definition type_name (v : pyval) : string :=
  match v with
  | PNone => "NoneType" | PBool _ => "bool" | PInt _ => "int"
  | PFloat _ => "float" | PStr _ => "str" | PList _ => "list"
  | PDict _ => "dict"
  end.

(** A computation either returns or raises; an exception is kept as the
    text [str(e)] gives, which is all the code ever reads from it. *)
Inductive outcome (A : Type) : Type :=
| Ret (a : A)
| Raise (msg : string).
Arguments Ret {A} a.
Arguments Raise {A} msg.

(** [sep.join(parts)]. *)
Fixpoint str_join (sep : string) (parts : list string) : string :=
  match parts with
  | [] => ""
  | [p] => p
  | p :: rest => p +:+ sep +:+ str_join sep rest
  end.

(** ** Characters

    The first character of a text: its code point and the number of bytes
    that encode it. The functions are total: on bytes that are the
    encoding of no text, a byte that belongs to no well-formed sequence
    is read on its own, as a code point of the surrogate range, which is
    in no character class. *)
Definition byte_of (c : ascii) : Z := Z.of_N (N_of_ascii c).

Definition is_continuation (c : ascii) : bool :=
  ((128 <=? byte_of c) && (byte_of c <? 192))%bool.

Definition utf8_head (s : string) : option (Z * nat) :=
  match s with
  | EmptyString => None
  | String c0 s1 =>
      let b0 := byte_of c0 in
      let stray := Some (56320 + b0, 1%nat) in
      if b0 <? 128 then Some (b0, 1%nat)
      else if b0 <? 194 then stray
      else if b0 <? 224 then
        match s1 with
        | String c1 _ =>
            if is_continuation c1
            then Some ((b0 - 192) * 64 + (byte_of c1 - 128), 2%nat)
            else stray
        | _ => stray
        end
      else if b0 <? 240 then
        match s1 with
        | String c1 (String c2 _) =>
            let cp := (b0 - 224) * 4096 + (byte_of c1 - 128) * 64 + (byte_of c2 - 128) in
            if (is_continuation c1 && is_continuation c2 && (2048 <=? cp)
                && negb ((55296 <=? cp) && (cp <=? 57343)))%bool
            then Some (cp, 3%nat) else stray
        | _ => stray
        end
      else if b0 <? 245 then
        match s1 with
        | String c1 (String c2 (String c3 _)) =>
            let cp := (b0 - 240) * 262144 + (byte_of c1 - 128) * 4096
                      + (byte_of c2 - 128) * 64 + (byte_of c3 - 128) in
            if (is_continuation c1 && is_continuation c2 && is_continuation c3
                && (65536 <=? cp) && (cp <=? 1114111))%bool
            then Some (cp, 4%nat) else stray
        | _ => stray
        end
      else stray
  end.

Fixpoint str_drop (n : nat) (s : string) : string :=
  match n, s with
  | S n', String _ s' => str_drop n' s'
  | _, _ => s
  end.

Fixpoint str_first (n : nat) (s : string) : string :=
  match n, s with
  | S n', String c s' => String c (str_first n' s')
  | _, _ => ""
  end.

(** The characters of a text, each with the bytes that encode it.
    [skip] counts the bytes of the character in front that are still to
    be passed. *)
Fixpoint utf8_chars_from (skip : nat) (s : string) : list (Z * string) :=
  match s with
  | EmptyString => []
  | String _ s' =>
      match skip with
      | S k => utf8_chars_from k s'
      | O =>
          match utf8_head s with
          | Some (cp, n) => (cp, str_first n s) :: utf8_chars_from (Nat.pred n) s'
          | None => []
          end
      end
  end.

Definition utf8_chars (s : string) : list (Z * string) := utf8_chars_from O s.

Definition str_of_chars (cs : list (Z * string)) : string :=
  fold_right (fun c r => snd c +:+ r) "" cs.

(** [s[:n]]: the first [n] characters. *)
Definition str_take (n : nat) (s : string) : string :=
  str_of_chars (take n (utf8_chars s)).

Fixpoint str_prefix (p s : string) : bool :=
  match p, s with
  | EmptyString, _ => true
  | String a p', String b s' => Ascii.eqb a b && str_prefix p' s'
  | String _ _, EmptyString => false
  end.

(** [s.replace(old, new)] for a non-empty [old]: occurrences are replaced
    left to right and do not overlap. [skip] counts the characters of a
    matched occurrence that are still to be dropped. *)
Fixpoint str_replace_from (skip : nat) (old new s : string) : string :=
  match s with
  | EmptyString => ""
  | String c s' =>
      match skip with
      | S k => str_replace_from k old new s'
      | O =>
          if str_prefix old s
          then new +:+ str_replace_from (Nat.pred (String.length old)) old new s'
          else String c (str_replace_from O old new s')
      end
  end.

Definition str_replace (old new s : string) : string :=
  str_replace_from O old new s.

(** [str.isspace] of a character: the 29 white-space characters of
    Unicode 14. *)
Definition is_space (cp : Z) : bool :=
  (((9 <=? cp) && (cp <=? 13)) || ((28 <=? cp) && (cp <=? 32))
   || (cp =? 133) || (cp =? 160) || (cp =? 5760)
   || ((8192 <=? cp) && (cp <=? 8202))
   || (cp =? 8232) || (cp =? 8233) || (cp =? 8239) || (cp =? 8287)
   || (cp =? 12288))%bool.

Fixpoint drop_spaces (cs : list (Z * string)) : list (Z * string) :=
  match cs with
  | [] => []
  | c :: cs' => if is_space (fst c) then drop_spaces cs' else cs
  end.

Definition lstrip (s : string) : string :=
  str_of_chars (drop_spaces (utf8_chars s)).

Definition rstrip (s : string) : string :=
  str_of_chars (rev (drop_spaces (rev (utf8_chars s)))).

(** [s.strip()]. *)
Definition str_strip (s : string) : string := rstrip (lstrip s).

(* ===================================================================== *)
(** * The [datetime] fragment                                             *)
(* ===================================================================== *)

Record date := mkdate { year : Z; month : Z; day : Z }.
Record time := mktime { hour : Z; minute : Z; second : Z; microsecond : Z }.
Record datetime := mkdatetime { dt_date : date; dt_time : time }.

Definition datetime_combine (d : date) (t : time) : datetime := mkdatetime d t.

Definition _is_leap (y : Z) : bool :=
  ((y mod 4 =? 0) && (negb (y mod 100 =? 0) || (y mod 400 =? 0)))%bool.

Definition _DAYS_IN_MONTH (m : Z) : Z :=
  match m with
  | 1 => 31 | 2 => 28 | 3 => 31 | 4 => 30 | 5 => 31 | 6 => 30
  | 7 => 31 | 8 => 31 | 9 => 30 | 10 => 31 | 11 => 30 | 12 => 31
  | _ => -1
  end.

Definition _DAYS_BEFORE_MONTH (m : Z) : Z :=
  match m with
  | 1 => 0 | 2 => 31 | 3 => 59 | 4 => 90 | 5 => 120 | 6 => 151
  | 7 => 181 | 8 => 212 | 9 => 243 | 10 => 273 | 11 => 304 | 12 => 334
  | _ => -1
  end.

Definition _days_in_month (y m : Z) : Z :=
  if ((m =? 2) && _is_leap y)%bool then 29 else _DAYS_IN_MONTH m.

Definition _days_before_year (y : Z) : Z :=
  let y1 := y - 1 in y1 * 365 + y1 / 4 - y1 / 100 + y1 / 400.

Definition _days_before_month (y m : Z) : Z :=
  _DAYS_BEFORE_MONTH m + (if ((2 <? m) && _is_leap y)%bool then 1 else 0).

Definition _ymd2ord (d : date) : Z :=
  _days_before_year (year d) + _days_before_month (year d) (month d) + day d.

Definition _ord2ymd (n0 : Z) : date :=
  let n := n0 - 1 in
  let n400 := n / 146097 in let n := n mod 146097 in
  let n100 := n / 36524 in let n := n mod 36524 in
  let n4 := n / 1461 in let n := n mod 1461 in
  let n1 := n / 365 in let n := n mod 365 in
  let y := n400 * 400 + 1 + n100 * 100 + n4 * 4 + n1 in
  if ((n1 =? 4) || (n100 =? 4))%bool then mkdate (y - 1) 12 31
  else
    let leapyear := ((n1 =? 3) && (negb (n4 =? 24) || (n100 =? 3)))%bool in
    let m := Z.shiftr (n + 50) 5 in
    let preceding :=
      _DAYS_BEFORE_MONTH m + (if ((2 <? m) && leapyear)%bool then 1 else 0) in
    if n <? preceding
    then
      let m' := m - 1 in
      let preceding' :=
        preceding - (_DAYS_IN_MONTH m' + (if ((m' =? 2) && leapyear)%bool then 1 else 0)) in
      mkdate y m' (n - preceding' + 1)
    else mkdate y m (n - preceding + 1).

Definition _MAXORDINAL : Z := 3652059.

(** [d + timedelta(days=n)]; the clock is taken to be far enough from
    [date.max] for the sum to exist. *)
Definition date_add_days (d : date) (n : Z) : date := _ord2ymd (_ymd2ord d + n).

Definition valid_date (d : date) : bool :=
  ((1 <=? year d) && (year d <=? 9999) && (1 <=? month d) && (month d <=? 12)
   && (1 <=? day d) && (day d <=? _days_in_month (year d) (month d)))%bool.

(** Microseconds since midnight. *)
Definition time_us (t : time) : Z :=
  ((hour t * 60 + minute t) * 60 + second t) * 1000000 + microsecond t.

Definition time_of_us (us : Z) : time :=
  mktime (us / 3600000000) (us / 60000000 mod 60) (us / 1000000 mod 60) (us mod 1000000).

Definition _US_PER_DAY : Z := 86400000000.

(** [dt + delta] for a delta given in microseconds. *)
Definition datetime_add_us (dt : datetime) (delta : Z) : outcome datetime :=
  let total := time_us (dt_time dt) + delta in
  let ord := _ymd2ord (dt_date dt) + total / _US_PER_DAY in
  if ((0 <? ord) && (ord <=? _MAXORDINAL))%bool
  then Ret (mkdatetime (_ord2ymd ord) (time_of_us (total mod _US_PER_DAY)))
  else Raise "date value out of range".

Fixpoint zeros (n : nat) : string :=
  match n with
  | O => ""
  | S k => "0" +:+ zeros k
  end.

(** A number written in [width] digits at least, zeros in front. *)
Definition zero_pad (width : nat) (s : string) : string :=
  zeros (width - String.length s) +:+ s.

Definition fmt (width : nat) (n : Z) : string := zero_pad width (pretty n).

(** [d.isoformat()], [dt.isoformat()] and the one [strftime] format used. *)
Definition date_isoformat (d : date) : string :=
  fmt 4 (year d) +:+ "-" +:+ fmt 2 (month d) +:+ "-" +:+ fmt 2 (day d).

Definition time_isoformat (t : time) : string :=
  fmt 2 (hour t) +:+ ":" +:+ fmt 2 (minute t) +:+ ":" +:+ fmt 2 (second t)
  +:+ (if microsecond t =? 0 then "" else "." +:+ fmt 6 (microsecond t)).

Definition datetime_isoformat (dt : datetime) : string :=
  date_isoformat (dt_date dt) +:+ "T" +:+ time_isoformat (dt_time dt).

(** [dt.strftime('%Y-%m-%d %H:%M')]. The C library formats, here glibc:
    [%Y] is the year as it is, without the padding [isoformat] gives to
    a year below 1000; the other fields take two digits. *)
Definition strftime_ymd_hm (dt : datetime) : string :=
  pretty (year (dt_date dt)) +:+ "-" +:+ fmt 2 (month (dt_date dt)) +:+ "-"
  +:+ fmt 2 (day (dt_date dt)) +:+ " "
  +:+ fmt 2 (hour (dt_time dt)) +:+ ":" +:+ fmt 2 (minute (dt_time dt)).

(** ** [datetime.strptime]

    The interpreter turns a format into a regular expression with one
    group per directive, matches it against a prefix of the text (ordered
    alternatives, backtracking) and rejects text that is left over. *)

(** The classes a directive is spelled with: a range of ASCII digits
    ([[0-5]], or one digit), [\d], which is any decimal digit of
    Unicode, and the blank. *)
Inductive cls := Digit (lo hi : Z) | AnyDigit | Blank.
Inductive item := Group (alts : list (list cls)) | Lit (c : ascii).

Definition digit_val (c : ascii) : option Z :=
  let n := byte_of c in
  if ((48 <=? n) && (n <=? 57))%bool then Some (n - 48) else None.

(** The decimal digits of Unicode 14 come in runs of ten, zero first;
    these are the zeros. *)
Definition decimal_zeros : list Z :=
  [48; 1632; 1776; 1984; 2406; 2534; 2662; 2790;
   2918; 3046; 3174; 3302; 3430; 3558; 3664; 3792;
   3872; 4160; 4240; 6112; 6160; 6470; 6608; 6784;
   6800; 6992; 7088; 7232; 7248; 42528; 43216; 43264;
   43472; 43504; 43600; 44016; 65296; 66720; 68912; 69734;
   69872; 69942; 70096; 70384; 70736; 70864; 71248; 71360;
   71472; 71904; 72016; 72784; 73040; 73120; 92768; 92864;
   93008; 120782; 120792; 120802; 120812; 120822; 123200; 123632;
   125264; 130032].

(** The value [int()] gives to a character, when it is a decimal digit. *)
Definition decimal_value (cp : Z) : option Z :=
  match List.find (fun z => ((z <=? cp) && (cp <=? z + 9))%bool) decimal_zeros with
  | Some z => Some (cp - z)
  | None => None
  end.

(** One alternative of a group against the text; [acc] is the number read
    so far ([int()] of the group's text ignores the blank). *)
Fixpoint match_alt (cs : list cls) (s : string) (acc : Z) : option (Z * string) :=
  match cs with
  | [] => Some (acc, s)
  | k :: cs' =>
      match s with
      | EmptyString => None
      | String c s' =>
          match k with
          | Blank => if Ascii.eqb c " " then match_alt cs' s' acc else None
          | Digit lo hi =>
              match digit_val c with
              | Some v =>
                  if ((lo <=? v) && (v <=? hi))%bool
                  then match_alt cs' s' (acc * 10 + v) else None
              | None => None
              end
          | AnyDigit =>
              match utf8_head s with
              | Some (cp, n) =>
                  match decimal_value cp with
                  | Some v => match_alt cs' (str_drop n s) (acc * 10 + v)
                  | None => None
                  end
              | None => None
              end
          end
      end
  end.

Fixpoint first_some {A B : Type} (f : A -> option B) (l : list A) : option B :=
  match l with
  | [] => None
  | a :: l' => match f a with Some b => Some b | None => first_some f l' end
  end.

Fixpoint match_items (items : list item) (s : string) : option (list Z * string) :=
  match items with
  | [] => Some ([], s)
  | Lit c :: rest =>
      match s with
      | String c' s' => if Ascii.eqb c c' then match_items rest s' else None
      | EmptyString => None
      end
  | Group alts :: rest =>
      first_some
        (fun alt =>
           match match_alt alt s 0 with
           | Some (v, s') =>
               match match_items rest s' with
               | Some (vs, r) => Some (v :: vs, r)
               | None => None
               end
           | None => None
           end) alts
  end.

(** [%Y], [%m], [%d], [%H] and [%M] as the interpreter's [_strptime]
    spells them. *)
Definition re_Y : item := Group [[AnyDigit; AnyDigit; AnyDigit; AnyDigit]].
Definition re_m : item := Group [[Digit 1 1; Digit 0 2]; [Digit 0 0; Digit 1 9]; [Digit 1 9]].
Definition re_d : item :=
  Group [[Digit 3 3; Digit 0 1]; [Digit 1 2; AnyDigit]; [Digit 0 0; Digit 1 9];
         [Digit 1 9]; [Blank; Digit 1 9]].
Definition re_H : item := Group [[Digit 2 2; Digit 0 3]; [Digit 0 1; AnyDigit]; [AnyDigit]].
Definition re_M : item := Group [[Digit 0 5; AnyDigit]; [AnyDigit]].

(** [datetime.strptime(s, '%Y-%m-%d').date()]; [None] stands for the
    [ValueError] of text that does not match, is followed by more text or
    names no day of the calendar. *)
Definition strptime_date (s : string) : option date :=
  match match_items [re_Y; Lit "-"; re_m; Lit "-"; re_d] s with
  | Some ([y; m; d], EmptyString) =>
      let r := mkdate y m d in if valid_date r then Some r else None
  | _ => None
  end.

(** [datetime.strptime(s, '%H:%M').time()]. *)
Definition strptime_time (s : string) : option time :=
  match match_items [re_H; Lit ":"; re_M] s with
  | Some ([h; m], EmptyString) => Some (mktime h m 0 0)
  | _ => None
  end.

(** The same on an arbitrary value: anything but a [str] is a
    [TypeError]. *)
Definition py_strptime_date (v : pyval) : option date :=
  match v with PStr s => strptime_date s | _ => None end.

Definition py_strptime_time (v : pyval) : option time :=
  match v with PStr s => strptime_time s | _ => None end.

(* ===================================================================== *)
(** * [SchedulerService._parse_datetime]                                  *)
(* ===================================================================== *)

Definition ten_am : time := mktime 10 0 0 0.

(** [now] is the value [datetime.now()] returns: a naive local time of
    the server. The first [try] parses both texts and returns from inside
    the block; whatever it raises is logged and execution falls through
    to the default, whose own [try] keeps a time that parses. *)
Definition _parse_datetime (now : datetime) (date_str time_str : pyval) : datetime :=
  let parsed :=
    if (truthy date_str && truthy time_str)%bool then
      match py_strptime_date date_str with
      | Some date_part =>
          match py_strptime_time time_str with
          | Some time_part => Some (datetime_combine date_part time_part)
          | None => None
          end
      | None => None
      end
    else None in
  match parsed with
  | Some dt => dt
  | None =>
      let tomorrow := date_add_days (dt_date now) 1 in
      let time_part :=
        if truthy time_str then
          match py_strptime_time time_str with
          | Some t => t
          | None => ten_am
          end
        else ten_am in
      datetime_combine tomorrow time_part
  end.


(* ===================================================================== *)
(** * [app/models/database.py]                                            *)
(* ===================================================================== *)

(** A row of [users]. The table is kept as a map from [phone_number],
    its unique indexed column and the only one it is ever searched by, to
    the other columns. *)
Module User.
Record t := mk {
  id : Z;
  google_refresh_token : option string;
  todoist_token : option string;
  preferences : pyval;
  timezone : string;
  created_at : datetime
}.
End User.

(** A row of [meetings]. The table is kept as a map from [id], the
    primary key, to the other columns. The text columns filled from the
    classifier's answer keep the Python value that was assigned to them. *)
Module Meeting.
Record t := mk {
  user_id : Z;
  google_event_id : option string;
  todoist_task_id : option string;
  title : pyval;
  start_time : datetime;
  end_time : datetime;
  location : pyval;
  meeting_type : pyval;
  status : string;
  created_at : datetime
}.

(** The keyword arguments of [Meeting(...)] in [create_meeting]. *)
Record kwargs := mk_kwargs {
  kw_user_id : Z;
  kw_google_event_id : string;
  kw_title : pyval;
  kw_start_time : datetime;
  kw_end_time : datetime;
  kw_location : pyval;
  kw_meeting_type : pyval
}.

(** The row an [INSERT] writes: [status] and [created_at] take their
    column defaults, the task reference is [NULL]. *)
Definition inserted (utcnow : datetime) (kw : kwargs) : t :=
  mk (kw_user_id kw) (Some (kw_google_event_id kw)) None (kw_title kw)
     (kw_start_time kw) (kw_end_time kw) (kw_location kw) (kw_meeting_type kw)
     "scheduled" utcnow.

Definition set_todoist_task_id (v : option string) (m : t) : t :=
  mk (user_id m) (google_event_id m) v (title m) (start_time m)
     (end_time m) (location m) (meeting_type m) (status m) (created_at m).

Definition set_status (s : string) (m : t) : t :=
  mk (user_id m) (google_event_id m) (todoist_task_id m) (title m)
     (start_time m) (end_time m) (location m) (meeting_type m) s (created_at m).
End Meeting.

(** ** Values in [String] columns

    The ORM hands the value assigned to a [String] column to the driver
    as it is, and SQLite keeps what a column of text affinity keeps:
    [None] as [NULL], a text as it is, an integer of 64 bits as its
    decimal text ([True] and [False] are the integers 1 and 0), a float
    as the text SQLite prints for it (or [NULL] for a NaN). A larger
    integer, a list or a dictionary cannot be bound: the statement
    raises. What is read back from the column is the text kept.

    The driver's own part is left open: the text SQLite prints for a
    float, and the text of the exception raised for an [INSERT] that
    cannot be bound. *)
Record Driver := mkDriver {
  real_text : spec_float -> option string;
  insert_error : datetime -> Meeting.kwargs -> string
}.

Definition bind_text (drv : Driver) (v : pyval) : option pyval :=
  match v with
  | PNone => Some PNone
  | PStr s => Some (PStr s)
  | PBool b => Some (PStr (if b then "1" else "0"))
  | PInt n =>
      if ((-9223372036854775808 <=? n) && (n <=? 9223372036854775807))%bool
      then Some (PStr (pretty n)) else None
  | PFloat f =>
      Some (match real_text drv f with Some s => PStr s | None => PNone end)
  | PList _ | PDict _ => None
  end.

(** The parameters of the [INSERT] of a meeting, as they are kept. *)
Definition bind_kwargs (drv : Driver) (kw : Meeting.kwargs) : option Meeting.kwargs :=
  match bind_text drv (Meeting.kw_title kw), bind_text drv (Meeting.kw_location kw),
        bind_text drv (Meeting.kw_meeting_type kw) with
  | Some title, Some location, Some meeting_type =>
      Some (Meeting.mk_kwargs (Meeting.kw_user_id kw) (Meeting.kw_google_event_id kw) title
              (Meeting.kw_start_time kw) (Meeting.kw_end_time kw) location meeting_type)
  | _, _, _ => None
  end.

(** A row of [conversations]. *)
Module Conversation.
Record t := mk {
  id : Z;
  user_phone : string;
  context : pyval;
  last_message : option string;
  updated_at : datetime
}.
End Conversation.

(** The generated primary key: one more than the largest key in use. *)
Definition next_meeting_id (tbl : gmap Z Meeting.t) : Z :=
  1 + map_fold (fun k _ acc => Z.max k acc) 0 tbl.

Definition next_user_id (tbl : gmap string User.t) : Z :=
  1 + map_fold (fun _ u acc => Z.max (User.id u) acc) 0 tbl.

(** An object of the ORM held by a session: a new object waiting for its
    [INSERT], or a loaded row, with a flag telling that an attribute was
    assigned since it was loaded. *)
Inductive orm_obj :=
| NewUser (phone : string)
| UserRow (phone : string) (u : User.t)
| NewMeeting (kw : Meeting.kwargs)
| MeetingRow (id : Z) (m : Meeting.t) (dirty : bool).

(** A Python reference to an ORM object: the session that owns it and
    its place there. *)
Definition objref : Type := nat * nat.

(* ===================================================================== *)
(** * Results of the ports and the trace of a run                         *)
(* ===================================================================== *)

(** The dictionaries the services return: [{'success': True, ...}] or
    [{'success': False, 'error': ...}]. *)
Inductive port_result (A : Type) : Type :=
| Success (a : A)
| Failure (error : string).
Arguments Success {A} a.
Arguments Failure {A} error.

(** [event_data] as [create_meeting] builds it. *)
Record EventData := mkEventData {
  ed_title : pyval;
  ed_start_time : datetime;
  ed_end_time : datetime;
  ed_location : pyval;
  ed_timezone : pyval;
  ed_attendees : pyval
}.

(** The body sent to [events().insert]. *)
Record GoogleEvent := mkGoogleEvent {
  ge_summary : pyval;
  ge_description : string;
  ge_start : string * pyval;
  ge_end : string * pyval;
  ge_location : option pyval;
  ge_attendees : option (list pyval)
}.

Record CreatedEvent := mkCreatedEvent { event_id : string; event_link : option string }.

(** [task_data] as [_create_todoist_task] builds it. *)
Record TaskData := mkTaskData {
  td_content : string;
  td_description : string;
  td_due_date : date;
  td_priority : Z;
  td_labels : list string
}.

(** The JSON payload posted to Todoist. *)
Record TaskPayload := mkTaskPayload {
  tp_content : string;
  tp_description : string;
  tp_priority : Z;
  tp_due_date : string;
  tp_labels : option (list string)
}.

Record CreatedTask := mkCreatedTask { task_id : string; task_url : option string }.

Record MeetingCreated := mkMeetingCreated { meeting_id : Z; mc_event_id : string }.

(** What a run leaves in its trace: the calls made to the calendar and
    task services with their results, and the entries into the
    orchestrator. The trace is an observation; no code reads it. *)
Inductive Event :=
| EvCreateEvent (phone : string) (data : EventData) (r : port_result CreatedEvent)
| EvDeleteEvent (phone : string) (event : string) (r : port_result unit)
| EvCreateTask (phone : string) (data : TaskData) (r : port_result CreatedTask)
| EvDeleteTask (phone : string) (task : string) (r : port_result unit)
| EvCreateMeeting (phone : string) (meeting_data : gmap string pyval)
| EvCancelMeeting (phone : string) (meeting : Z).

(** A conversation turn stored in the vector collection. *)
Record Payload := mkPayload {
  pl_phone_number : string;
  pl_message : string;
  pl_context : pyval;
  pl_timestamp : string
}.

Record Point := mkPoint { pt_id : Z; pt_vector : list spec_float; pt_payload : Payload }.

(* ===================================================================== *)
(** * The state of the world and the monad of the services                *)
(* ===================================================================== *)

Record World := mkWorld {
  users : gmap string User.t;          (* [users], by its unique phone number *)
  meetings : gmap Z Meeting.t;         (* [meetings], by primary key *)
  conversations : list Conversation.t; (* [conversations], in row order *)
  points : list Point;                 (* the Qdrant collection *)
  sessions : gmap nat (list orm_obj);  (* the open ORM sessions *)
  next_session : nat;
  tick : nat                           (* calls made to the outside so far *)
}.

Definition set_users (f : gmap string User.t -> gmap string User.t) (w : World) : World :=
  mkWorld (f (users w)) (meetings w) (conversations w) (points w) (sessions w)
          (next_session w) (tick w).
Definition set_meetings (f : gmap Z Meeting.t -> gmap Z Meeting.t) (w : World) : World :=
  mkWorld (users w) (f (meetings w)) (conversations w) (points w) (sessions w)
          (next_session w) (tick w).
Definition set_points (f : list Point -> list Point) (w : World) : World :=
  mkWorld (users w) (meetings w) (conversations w) (f (points w)) (sessions w)
          (next_session w) (tick w).
Definition set_sessions (f : gmap nat (list orm_obj) -> gmap nat (list orm_obj)) (w : World) : World :=
  mkWorld (users w) (meetings w) (conversations w) (points w) (f (sessions w))
          (next_session w) (tick w).
Definition set_next_session (n : nat) (w : World) : World :=
  mkWorld (users w) (meetings w) (conversations w) (points w) (sessions w) n (tick w).
Definition set_tick (n : nat) (w : World) : World :=
  mkWorld (users w) (meetings w) (conversations w) (points w) (sessions w)
          (next_session w) n.

(** A computation reads and changes the world, returns or raises, and
    leaves a trace. A raised exception keeps the changes made so far. *)
Definition M (A : Type) : Type := World -> outcome A * World * list Event.

Definition ret {A} (a : A) : M A := fun w => (Ret a, w, []).
Definition raise {A} (msg : string) : M A := fun w => (Raise msg, w, []).

Definition bind {A B} (m : M A) (k : A -> M B) : M B :=
  fun w =>
    match m w with
    | (Ret a, w1, l1) => let '(o, w2, l2) := k a w1 in (o, w2, l1 ++ l2)
    | (Raise e, w1, l1) => (Raise e, w1, l1)
    end.

Notation "'let*' x ':=' m 'in' k" := (bind m (fun x => k))
  (at level 10, x pattern, m at level 100, k at level 200).

(** [try: body / except Exception as e: handler e]. *)
Definition try_except {A} (body : M A) (handler : string -> M A) : M A :=
  fun w =>
    match body w with
    | (Ret a, w1, l1) => (Ret a, w1, l1)
    | (Raise e, w1, l1) => let '(o, w2, l2) := handler e w1 in (o, w2, l1 ++ l2)
    end.

(** [try: body / finally: final]. *)
Definition try_finally {A} (body : M A) (final : M unit) : M A :=
  fun w =>
    let '(o, w1, l1) := body w in
    match final w1 with
    | (Ret _, w2, l2) => (o, w2, l1 ++ l2)
    | (Raise e, w2, l2) => (Raise e, w2, l1 ++ l2)
    end.

Definition emit (e : Event) : M unit := fun w => (Ret tt, w, [e]).
Definition get_world : M World := fun w => (Ret w, w, []).
Definition modify (f : World -> World) : M unit := fun w => (Ret tt, f w, []).
Definition lift {A} (o : outcome A) : M A := fun w => (o, w, []).

(** A call to the outside: the answer may depend on when it is made. *)
Definition oracle {A} (f : nat -> A) : M A :=
  fun w => (Ret (f (tick w)), set_tick (S (tick w)) w, []).

(** Reading a clock does not count as a call. *)
Definition clock (f : nat -> datetime) : M datetime :=
  fun w => (Ret (f (tick w)), w, []).

(* ===================================================================== *)
(** * ORM sessions                                                        *)
(* ===================================================================== *)

(** [SessionLocal()]: a new session with nothing attached. *)
Definition SessionLocal : M nat :=
  fun w =>
    let sid := next_session w in
    (Ret sid, set_next_session (S sid) (set_sessions (insert sid []) w), []).

Definition session_objs (sid : nat) (w : World) : list orm_obj :=
  default [] (sessions w !! sid).

(** [db.add(obj)] for a new object; the reference to it is returned. *)
Definition session_add (sid : nat) (o : orm_obj) : M objref :=
  fun w =>
    let objs := session_objs sid w in
    (Ret (sid, length objs), set_sessions (insert sid (objs ++ [o])) w, []).

(** The flush of one object: the [INSERT] of a new one, the [UPDATE] of a
    row whose attributes were assigned. An [INSERT] whose parameters
    cannot be bound raises; the attributes the code assigns to a loaded
    row are texts. *)
Definition flush_obj (drv : Driver) (utcnow : datetime) (o : orm_obj)
    (tbls : gmap string User.t * gmap Z Meeting.t)
    : outcome (orm_obj * (gmap string User.t * gmap Z Meeting.t)) :=
  let '(us, ms) := tbls in
  match o with
  | NewUser phone =>
      let u := User.mk (next_user_id us) None None (PDict ∅) "UTC" utcnow in
      Ret (UserRow phone u, (<[phone := u]> us, ms))
  | UserRow _ _ => Ret (o, tbls)
  | NewMeeting kw =>
      match bind_kwargs drv kw with
      | Some kept =>
          let id := next_meeting_id ms in
          let m := Meeting.inserted utcnow kept in
          Ret (MeetingRow id m false, (us, <[id := m]> ms))
      | None => Raise (insert_error drv utcnow kw)
      end
  | MeetingRow id m true => Ret (MeetingRow id m false, (us, <[id := m]> ms))
  | MeetingRow _ _ false => Ret (o, tbls)
  end.

Fixpoint flush (drv : Driver) (utcnow : datetime) (objs : list orm_obj)
    (tbls : gmap string User.t * gmap Z Meeting.t)
    : outcome (list orm_obj * (gmap string User.t * gmap Z Meeting.t)) :=
  match objs with
  | [] => Ret ([], tbls)
  | o :: rest =>
      match flush_obj drv utcnow o tbls with
      | Ret (o', tbls') =>
          match flush drv utcnow rest tbls' with
          | Ret (rest', tbls'') => Ret (o' :: rest', tbls'')
          | Raise e => Raise e
          end
      | Raise e => Raise e
      end
  end.

(** [db.commit()]: the objects of THIS session are flushed and the
    transaction is committed. Objects owned by another session are not
    touched, whatever was assigned to them. When the flush raises, the
    transaction is undone: nothing is written, the objects stay as they
    were, and the exception leaves [commit]. *)
Definition session_commit (drv : Driver) (utcnow : nat -> datetime) (sid : nat) : M unit :=
  fun w =>
    match flush drv (utcnow (tick w)) (session_objs sid w) (users w, meetings w) with
    | Ret (objs, (us, ms)) =>
        (Ret tt,
         set_sessions (insert sid objs)
           (set_meetings (fun _ => ms) (set_users (fun _ => us) w)),
         [])
    | Raise e => (Raise e, w, [])
    end.

(** [db.rollback()]: what was not committed is given up; loaded rows are
    read again from the table. *)
Definition rollback_obj (w : World) (o : orm_obj) : list orm_obj :=
  match o with
  | NewUser _ | NewMeeting _ => []
  | UserRow _ _ => [o]
  | MeetingRow id _ _ =>
      match meetings w !! id with
      | Some m' => [MeetingRow id m' false]
      | None => []
      end
  end.

Definition session_rollback (sid : nat) : M unit :=
  fun w =>
    (Ret tt,
     set_sessions (insert sid (concat (map (rollback_obj w) (session_objs sid w)))) w,
     []).

(** [db.close()]: the session lets go of its objects; assignments that
    were never flushed are lost with it. *)
Definition session_close (sid : nat) : M unit :=
  modify (set_sessions (delete sid)).

(** [db.query(User).filter(User.phone_number == phone).first()]; users
    are only read after they are loaded, so the row itself is returned. *)
Definition session_query_user (sid : nat) (phone : string) : M (option User.t) :=
  fun w => (Ret (users w !! phone), w, []).

(** [db.query(Meeting).filter(Meeting.id == meeting_id).first()]: the row
    is loaded into the session. *)
Definition session_query_meeting (sid : nat) (mid : Z) : M (option objref) :=
  fun w =>
    match meetings w !! mid with
    | Some m =>
        let objs := session_objs sid w in
        (Ret (Some (sid, length objs)),
         set_sessions (insert sid (objs ++ [MeetingRow mid m false])) w, [])
    | None => (Ret None, w, [])
    end.

Definition obj_lookup (r : objref) (w : World) : option orm_obj :=
  session_objs (fst r) w !! snd r.

(** Reading the attributes of a loaded object; for a meeting, its
    primary key comes with them. *)
Definition obj_user (r : objref) : M User.t :=
  fun w =>
    match obj_lookup r w with
    | Some (UserRow _ u) => (Ret u, w, [])
    | _ => (Raise "Instance is not bound to a Session", w, [])
    end.

Definition obj_meeting (r : objref) : M (Z * Meeting.t) :=
  fun w =>
    match obj_lookup r w with
    | Some (MeetingRow id m _) => (Ret (id, m), w, [])
    | _ => (Raise "Instance is not bound to a Session", w, [])
    end.

(** [meeting.attr = v]: the object changes in memory and the session
    that owns it will write it at its next flush. *)
Definition obj_set (r : objref) (f : Meeting.t -> Meeting.t) : M unit :=
  fun w =>
    match obj_lookup r w with
    | Some (MeetingRow id m _) =>
        (Ret tt,
         set_sessions
           (insert (fst r) (<[snd r := MeetingRow id (f m) true]> (session_objs (fst r) w))) w,
         [])
    | _ => (Raise "Instance is not bound to a Session", w, [])
    end.

(** [db.refresh(obj)]: the attributes are read again from the row the
    commit has just written. *)
Definition session_refresh (r : objref) : M unit :=
  fun w =>
    match obj_lookup r w with
    | Some (UserRow phone u) =>
        match users w !! phone with
        | Some u' =>
            (Ret tt,
             set_sessions
               (insert (fst r) (<[snd r := UserRow phone u']> (session_objs (fst r) w))) w, [])
        | None => (Raise "Could not refresh instance", w, [])
        end
    | Some (MeetingRow id m _) =>
        match meetings w !! id with
        | Some m' =>
            (Ret tt,
             set_sessions
               (insert (fst r) (<[snd r := MeetingRow id m' false]> (session_objs (fst r) w))) w, [])
        | None => (Raise "Could not refresh instance", w, [])
        end
    | _ => (Raise "Instance is not persistent within this Session", w, [])
    end.

(* ===================================================================== *)
(** * The collaborators                                                   *)
(* ===================================================================== *)

(** An HTTP exchange: a response with its status, text and decoded body,
    or an exception of the client. *)
Inductive HttpOutcome (A : Type) : Type :=
| HttpResponse (status_code : Z) (text : string) (json : outcome A)
| HttpRaised (e : string).
Arguments HttpResponse {A} status_code text json.
Arguments HttpRaised {A} e.

(** The Google API client: the call succeeds, raises [HttpError] or
    raises something else. *)
Inductive GoogleOutcome (A : Type) : Type :=
| GoogleOk (a : A)
| GoogleHttpError (e : string)
| GoogleRaised (e : string).
Arguments GoogleOk {A} a.
Arguments GoogleHttpError {A} e.
Arguments GoogleRaised {A} e.

(** A chat completion: the content of the first choice (which may be
    [None]) or an exception (time-out, API error, no choice). *)
Inductive ChatOutcome :=
| ChatContent (content : option string)
| ChatRaised (e : string).

(** Everything outside the repository. The first argument of a call is
    the moment it is made, so that the same call may be answered
    differently at different times. *)
Record Env := mkEnv {
  datetime_now : nat -> datetime;
  datetime_utcnow : nat -> datetime;
  google_events_insert : nat -> string -> GoogleEvent -> GoogleOutcome CreatedEvent;
  google_events_delete : nat -> string -> string -> GoogleOutcome unit;
  todoist_post_task : nat -> string -> TaskPayload -> HttpOutcome CreatedTask;
  todoist_delete_task : nat -> string -> string -> HttpOutcome unit;
  openai_classify : nat -> string -> ChatOutcome;
  openai_generate : nat -> gmap string pyval -> ChatOutcome;
  openai_embedding : nat -> string -> outcome (list spec_float);
  json_loads : string -> outcome pyval;
  json_dumps : pyval -> string;
  py_repr : pyval -> string;
  py_hash : string -> Z;
  timedelta_float_minutes : spec_float -> outcome Z;
  qdrant_fault : nat -> option string;
  similarity : list spec_float -> list spec_float -> spec_float;
  sqlite : Driver
}.

Definition nl : string := String (ascii_of_nat 10) "".

(** The elements a [for] loop or a comprehension draws from a value (a
    dictionary gives its keys, in no modelled order). *)
Definition py_iter (v : pyval) : outcome (list pyval) :=
  match v with
  | PList l => Ret l
  | PStr s => Ret (map (fun c => PStr (snd c)) (utf8_chars s))
  | PDict d => Ret (map (fun kv => PStr (fst kv)) (map_to_list d))
  | _ => Raise ("'" +:+ type_name v +:+ "' object is not iterable")
  end.

Section Services.

Context (env : Env).

(** [str(v)], as an f-string formats a value. *)
Definition py_str (v : pyval) : string :=
  match v with
  | PStr s => s
  | PNone => "None"
  | PBool true => "True"
  | PBool false => "False"
  | PInt n => pretty n
  | _ => py_repr env v
  end.

(** [timedelta(minutes=v)] in microseconds. *)
Definition timedelta_minutes (v : pyval) : outcome Z :=
  let of_int (n : Z) :=
    let us := n * 60000000 in
    let days := us / _US_PER_DAY in
    if Z.abs days <=? 999999999 then Ret us
    else if ((-2147483648 <=? days) && (days <=? 2147483647))%bool
    then Raise ("days=" +:+ pretty days +:+ "; must have magnitude <= 999999999")
    else Raise "Python int too large to convert to C int" in
  match v with
  | PInt n => of_int n
  | PBool b => of_int (if b then 1 else 0)
  | PFloat f => timedelta_float_minutes env f
  | _ => Raise ("unsupported type for timedelta minutes component: " +:+ type_name v)
  end.

(* --------------------------------------------------------------------- *)
(** ** [app/services/calendar_service.py]                                 *)
(* --------------------------------------------------------------------- *)

(** The credentials are built from the stored refresh token; they carry
    no expiry, so [creds.expired] is false and nothing is refreshed
    here. *)
Definition get_user_credentials (phone_number : string) : M (option string) :=
  let* db := SessionLocal in
  try_finally
    (let* user := session_query_user db phone_number in
     match user with
     | Some u =>
         if opt_truthy (User.google_refresh_token u)
         then ret (User.google_refresh_token u)
         else ret None
     | None => ret None
     end)
    (session_close db).

Definition create_event (phone_number : string) (event_data : EventData)
    : M (port_result CreatedEvent) :=
  let* result :=
    try_except
      (let* creds := get_user_credentials phone_number in
       match creds with
       | None => ret (Failure "User not authenticated with Google")
       | Some token =>
           let event :=
             mkGoogleEvent
               (ed_title event_data) ""
               (datetime_isoformat (ed_start_time event_data), ed_timezone event_data)
               (datetime_isoformat (ed_end_time event_data), ed_timezone event_data)
               None None in
           let event :=
             if truthy (ed_location event_data)
             then mkGoogleEvent (ge_summary event) (ge_description event) (ge_start event)
                                (ge_end event) (Some (ed_location event_data)) None
             else event in
           let* event :=
             if truthy (ed_attendees event_data)
             then
               let* emails := lift (py_iter (ed_attendees event_data)) in
               ret (mkGoogleEvent (ge_summary event) (ge_description event) (ge_start event)
                                  (ge_end event) (ge_location event) (Some emails))
             else ret event in
           let* created := oracle (fun t => google_events_insert env t token event) in
           match created with
           | GoogleOk c => ret (Success c)
           | GoogleHttpError e => ret (Failure ("Google Calendar API error: " +:+ e))
           | GoogleRaised e => raise e
           end
       end)
      (fun e => ret (Failure ("Calendar service error: " +:+ e))) in
  let* _ := emit (EvCreateEvent phone_number event_data result) in
  ret result.

Definition delete_event (phone_number : string) (event : string)
    : M (port_result unit) :=
  let* result :=
    try_except
      (let* creds := get_user_credentials phone_number in
       match creds with
       | None => ret (Failure "User not authenticated with Google")
       | Some token =>
           let* deleted := oracle (fun t => google_events_delete env t token event) in
           match deleted with
           | GoogleOk _ => ret (Success tt)
           | GoogleHttpError e => ret (Failure ("Google Calendar API error: " +:+ e))
           | GoogleRaised e => raise e
           end
       end)
      (fun e => ret (Failure ("Calendar service error: " +:+ e))) in
  let* _ := emit (EvDeleteEvent phone_number event result) in
  ret result.

(* --------------------------------------------------------------------- *)
(** ** [app/services/todoist_service.py]                                  *)
(* --------------------------------------------------------------------- *)

Definition get_user_token (phone_number : string) : M (option string) :=
  let* db := SessionLocal in
  try_finally
    (let* user := session_query_user db phone_number in
     match user with
     | Some u => ret (User.todoist_token u)
     | None => ret None
     end)
    (session_close db).

Definition api_error (status_code : Z) (text : string) : string :=
  "Todoist API error: " +:+ pretty status_code +:+ " - " +:+ text.

Definition create_task (phone_number : string) (task_data : TaskData)
    : M (port_result CreatedTask) :=
  let* result :=
    try_except
      (let* token := get_user_token phone_number in
       if negb (opt_truthy token) then ret (Failure "User not authenticated with Todoist")
       else
         let task_payload :=
           mkTaskPayload (td_content task_data) (td_description task_data)
                         (td_priority task_data) (date_isoformat (td_due_date task_data))
                         (match td_labels task_data with
                          | [] => None
                          | l => Some l
                          end) in
         let* response :=
           oracle (fun t => todoist_post_task env t (default "" token) task_payload) in
         match response with
         | HttpResponse status_code text json =>
             if status_code =? 200 then
               let* task := lift json in ret (Success task)
             else ret (Failure (api_error status_code text))
         | HttpRaised e => raise e
         end)
      (fun e => ret (Failure ("Todoist service error: " +:+ e))) in
  let* _ := emit (EvCreateTask phone_number task_data result) in
  ret result.

Definition delete_task (phone_number : string) (task : string)
    : M (port_result unit) :=
  let* result :=
    try_except
      (let* token := get_user_token phone_number in
       if negb (opt_truthy token) then ret (Failure "User not authenticated with Todoist")
       else
         let* response :=
           oracle (fun t => todoist_delete_task env t (default "" token) task) in
         match response with
         | HttpResponse status_code text _ =>
             if status_code =? 204 then ret (Success tt)
             else ret (Failure (api_error status_code text))
         | HttpRaised e => raise e
         end)
      (fun e => ret (Failure ("Todoist service error: " +:+ e))) in
  let* _ := emit (EvDeleteTask phone_number task result) in
  ret result.

(* --------------------------------------------------------------------- *)
(** ** [app/services/scheduler.py]                                        *)
(* --------------------------------------------------------------------- *)

(** [meeting] is the object [create_meeting] holds: it belongs to the
    caller's session. The task reference is assigned to that object, and
    the commit that follows is the commit of a session opened here, to
    which the object was never added. *)
Definition _create_todoist_task (phone : string) (meeting : objref) : M unit :=
  try_except
    (let* (_, m) := obj_meeting meeting in
     let task_content := "📅 Meeting: " +:+ py_str (Meeting.title m) in
     let task_content :=
       if truthy (Meeting.location m)
       then task_content +:+ " at " +:+ py_str (Meeting.location m)
       else task_content in
     let task_description :=
       "Meeting scheduled for " +:+ strftime_ymd_hm (Meeting.start_time m) in
     let task_description :=
       if truthy (Meeting.meeting_type m)
       then task_description +:+ nl +:+ "Type: " +:+ py_str (Meeting.meeting_type m)
       else task_description in
     let task_data :=
       mkTaskData task_content task_description (dt_date (Meeting.start_time m)) 2
                  ["meeting"; "scheduled"] in
     let* result := create_task phone task_data in
     match result with
     | Success t =>
         let* db := SessionLocal in
         try_finally
           (let* _ := obj_set meeting (Meeting.set_todoist_task_id (Some (task_id t))) in
            session_commit (sqlite env) (datetime_utcnow env) db)
           (session_close db)
     | Failure _ => ret tt
     end)
    (fun _ => ret tt).

Definition create_meeting (phone : string) (meeting_data : gmap string pyval)
    : M (port_result MeetingCreated) :=
  let* _ := emit (EvCreateMeeting phone meeting_data) in
  let* db := SessionLocal in
  try_finally
    (try_except
       (let* user := session_query_user db phone in
        let* user :=
          match user with
          | Some u => ret u
          | None =>
              let* r := session_add db (NewUser phone) in
              let* _ := session_commit (sqlite env) (datetime_utcnow env) db in
              let* _ := session_refresh r in
              obj_user r
          end in
        let* now := clock (datetime_now env) in
        let start_time :=
          _parse_datetime now (dict_get meeting_data "date") (dict_get meeting_data "time") in
        let duration := dict_get_default meeting_data "duration_minutes" (PInt 30) in
        let* delta := lift (timedelta_minutes duration) in
        let* end_time := lift (datetime_add_us start_time delta) in
        let event_data :=
          mkEventData (dict_get_default meeting_data "title" (PStr "Meeting"))
                      start_time end_time
                      (dict_get meeting_data "location")
                      (dict_get_default meeting_data "timezone" (PStr "UTC"))
                      (dict_get_default meeting_data "participants" (PList [])) in
        let* calendar_result := create_event phone event_data in
        match calendar_result with
        | Failure error => ret (Failure error)
        | Success created =>
            let* meeting :=
              session_add db
                (NewMeeting
                   (Meeting.mk_kwargs
                      (User.id user) (event_id created)
                      (dict_get_default meeting_data "title" (PStr "Meeting"))
                      start_time end_time
                      (dict_get meeting_data "location")
                      (dict_get_default meeting_data "meeting_type" (PStr "in-person")))) in
            let* _ := session_commit (sqlite env) (datetime_utcnow env) db in
            let* _ := session_refresh meeting in
            let* _ := _create_todoist_task phone meeting in
            let* (id, _) := obj_meeting meeting in
            ret (Success (mkMeetingCreated id (event_id created)))
        end)
       (fun e =>
          let* _ := session_rollback db in
          ret (Failure e)))
    (session_close db).

Definition cancel_meeting (phone : string) (meeting_id : Z) : M (port_result string) :=
  let* _ := emit (EvCancelMeeting phone meeting_id) in
  let* db := SessionLocal in
  try_finally
    (try_except
       (let* meeting := session_query_meeting db meeting_id in
        match meeting with
        | None => ret (Failure "Meeting not found")
        | Some meeting =>
            let* (_, m) := obj_meeting meeting in
            let* _ :=
              if opt_truthy (Meeting.google_event_id m)
              then
                let* calendar_result :=
                  delete_event phone (default "" (Meeting.google_event_id m)) in
                ret tt
              else ret tt in
            let* _ :=
              if opt_truthy (Meeting.todoist_task_id m)
              then
                let* todoist_result :=
                  delete_task phone (default "" (Meeting.todoist_task_id m)) in
                ret tt
              else ret tt in
            let* _ := obj_set meeting (Meeting.set_status "cancelled") in
            let* _ := session_commit (sqlite env) (datetime_utcnow env) db in
            ret (Success "Meeting cancelled successfully")
        end)
       (fun e =>
          let* _ := session_rollback db in
          ret (Failure e)))
    (session_close db).

(* --------------------------------------------------------------------- *)
(** ** [app/services/ai_service.py]                                       *)
(* --------------------------------------------------------------------- *)

(** The request carries the fixed extraction prompt around [message];
    whatever goes wrong with the request or with [json.loads] ends in the
    [except] branch. The answer is returned as parsed: any JSON value. *)
Definition classify_intent (message : string) : M pyval :=
  try_except
    (let* response := oracle (fun t => openai_classify env t message) in
     match response with
     | ChatContent (Some content) => lift (json_loads env content)
     | ChatContent None =>
         raise "the JSON object must be str, bytes or bytearray, not NoneType"
     | ChatRaised e => raise e
     end)
    (fun e =>
       ret (PDict {[ "intent" := PStr "other";
                     "confidence" := PFloat (S754_zero false);
                     "error" := PStr e ]})).

(* --------------------------------------------------------------------- *)
(** ** [app/services/rag_service.py]                                      *)
(* --------------------------------------------------------------------- *)

Definition get_embedding (text : string) : M (list spec_float) :=
  try_except
    (let* response := oracle (fun t => openai_embedding env t text) in
     lift response)
    (fun _ => ret []).

Definition is_nil {A} (l : list A) : bool :=
  match l with [] => true | _ :: _ => false end.

(** [qdrant_client.upsert]: a point with the same id is replaced. *)
Fixpoint upsert_point (p : Point) (ps : list Point) : list Point :=
  match ps with
  | [] => [p]
  | q :: ps' => if pt_id q =? pt_id p then p :: ps' else q :: upsert_point p ps'
  end.

Definition qdrant_upsert (p : Point) : M unit :=
  let* fault := oracle (qdrant_fault env) in
  match fault with
  | Some e => raise e
  | None => modify (set_points (upsert_point p))
  end.

Fixpoint insert_by {A} (before : A -> A -> bool) (x : A) (l : list A) : list A :=
  match l with
  | [] => [x]
  | y :: l' => if before x y then x :: l else y :: insert_by before x l'
  end.

Definition sort_by {A} (before : A -> A -> bool) (l : list A) : list A :=
  foldr (insert_by before) [] l.

(** [qdrant_client.search] with a [must] condition on [phone_number]:
    the points whose payload matches, best score first, at most [limit]
    of them. *)
Definition qdrant_search (query_vector : list spec_float) (phone_number : string)
    (limit : nat) : M (list (Point * spec_float)) :=
  let* fault := oracle (qdrant_fault env) in
  match fault with
  | Some e => raise e
  | None =>
      let* w := get_world in
      let matching :=
        List.filter (fun p => String.eqb (pl_phone_number (pt_payload p)) phone_number)
                    (points w) in
      let scored := map (fun p => (p, similarity env query_vector (pt_vector p))) matching in
      ret (take limit (sort_by (fun a b => SFleb (snd b) (snd a)) scored))
  end.

Definition store_conversation_context (phone_number message : string) (context : pyval)
    : M unit :=
  try_except
    (let searchable_text :=
       "User: " +:+ phone_number +:+ nl +:+ "Message: " +:+ message +:+ nl
       +:+ "Context: " +:+ json_dumps env context in
     let* embedding := get_embedding searchable_text in
     if is_nil embedding then ret tt
     else
       let* now := clock (datetime_now env) in
       let point :=
         mkPoint (py_hash env (phone_number +:+ "_" +:+ datetime_isoformat now))
                 embedding
                 (mkPayload phone_number message context (datetime_isoformat now)) in
       qdrant_upsert point)
    (fun _ => ret tt).

(** An entry of the list [get_relevant_context] returns. *)
Record ContextHit := mkContextHit {
  hit_message : string;
  hit_context : pyval;
  hit_timestamp : string;
  hit_score : spec_float
}.

Definition hit_of (r : Point * spec_float) : ContextHit :=
  mkContextHit (pl_message (pt_payload (fst r))) (pl_context (pt_payload (fst r)))
               (pl_timestamp (pt_payload (fst r))) (snd r).

Definition get_relevant_context (phone_number message : string) (limit : nat)
    : M (list ContextHit) :=
  try_except
    (let* embedding := get_embedding message in
     if is_nil embedding then ret []
     else
       let* search_result := qdrant_search embedding phone_number limit in
       ret (map hit_of search_result))
    (fun _ => ret []).

(** The foreign keys [database.py] declares from [meetings] to [users]:
    none. [Meeting.user_id] is a plain indexed integer column. *)
Definition meetings_users_foreign_keys : list (string * string) := [].

(** [db.query(Meeting).join(User)] names no ON clause, so the ORM takes
    it from the one foreign key between the two tables; when there is
    none (or more than one) the query cannot be built. *)
Definition implicit_join : outcome (Meeting.t -> User.t -> bool) :=
  match meetings_users_foreign_keys with
  | [_] => Ret (fun m u => Meeting.user_id m =? User.id u)
  | _ =>
      Raise "Could not find a FROM clause to join from. Tried joining to User, but got: Can't find any foreign key relationships between 'meetings' and 'users'."
  end.

Definition datetime_key (dt : datetime) : Z :=
  _ymd2ord (dt_date dt) * _US_PER_DAY + time_us (dt_time dt).

Definition meeting_entry (m : Meeting.t) : pyval :=
  PDict {[ "title" := Meeting.title m;
           "start_time" := PStr (datetime_isoformat (Meeting.start_time m));
           "end_time" := PStr (datetime_isoformat (Meeting.end_time m));
           "location" := Meeting.location m;
           "meeting_type" := Meeting.meeting_type m;
           "status" := PStr (Meeting.status m) ]}.

Definition get_user_meeting_history (phone_number : string) (days_back : Z)
    : M (list pyval) :=
  let* db := SessionLocal in
  try_finally
    (let* now := clock (datetime_now env) in
     let* cutoff_date := lift (datetime_add_us now (- days_back * _US_PER_DAY)) in
     let* on := lift implicit_join in
     let* w := get_world in
     let rows :=
       List.filter
         (fun r =>
            match users w !! phone_number with
            | Some u =>
                (on (snd r) u
                 && (datetime_key cutoff_date <=? datetime_key (Meeting.created_at (snd r))))%bool
            | None => false
            end)
         (map_to_list (meetings w)) in
     let ordered :=
       sort_by (fun a b => datetime_key (Meeting.start_time (snd b))
                           <=? datetime_key (Meeting.start_time (snd a))) rows in
     ret (map (fun r => meeting_entry (snd r)) (take 10 ordered)))
    (session_close db).

Definition hit_entry (h : ContextHit) : pyval :=
  PDict {[ "message" := PStr (hit_message h);
           "context" := hit_context h;
           "timestamp" := PStr (hit_timestamp h);
           "score" := PFloat (hit_score h) ]}.

Definition enhance_ai_context (phone_number message : string) : M (gmap string pyval) :=
  try_except
    (let* conversation_context := get_relevant_context phone_number message 5 in
     let* meeting_history := get_user_meeting_history phone_number 30 in
     let* db := SessionLocal in
     let* current_context :=
       try_finally
         (let* w := get_world in
          let conversation :=
            List.find (fun c => String.eqb (Conversation.user_phone c) phone_number)
                      (conversations w) in
          ret (match conversation with
               | Some c => Conversation.context c
               | None => PDict ∅
               end))
         (session_close db) in
     let* now := clock (datetime_now env) in
     ret {[ "current_message" := PStr message;
            "conversation_history" := PList (map hit_entry conversation_context);
            "meeting_history" := PList meeting_history;
            "current_context" := current_context;
            "user_phone" := PStr phone_number;
            "timestamp" := PStr (datetime_isoformat now) ]})
    (fun _ =>
       ret {[ "current_message" := PStr message; "user_phone" := PStr phone_number ]}).

(** The reply is whatever the model wrote, with the white space around
    it removed; the fixed sentence is for an exception only. *)
Definition generate_contextual_response (enhanced_context : gmap string pyval) : M string :=
  try_except
    (let* _ :=
       match enhanced_context !! "current_message" with
       | Some _ => ret tt
       | None => raise "'current_message'"
       end in
     let* response := oracle (fun t => openai_generate env t enhanced_context) in
     match response with
     | ChatContent (Some content) => ret (str_strip content)
     | ChatContent None => raise "'NoneType' object has no attribute 'strip'"
     | ChatRaised e => raise e
     end)
    (fun _ => ret "I'm here to help with your scheduling needs. What would you like to do?").

(* --------------------------------------------------------------------- *)
(** ** [app/api/webhooks.py]                                              *)
(* --------------------------------------------------------------------- *)

(** [v[k]] for a string key and [v[:n]]. *)
Definition py_getitem (v : pyval) (k : string) : outcome pyval :=
  match v with
  | PDict d =>
      match d !! k with
      | Some x => Ret x
      | None => Raise ("'" +:+ k +:+ "'")
      end
  | PStr _ => Raise "string indices must be integers"
  | PList _ => Raise "list indices must be integers or slices, not str"
  | _ => Raise ("'" +:+ type_name v +:+ "' object is not subscriptable")
  end.

Definition py_slice_to (n : nat) (v : pyval) : outcome pyval :=
  match v with
  | PStr s => Ret (PStr (str_take n s))
  | PList l => Ret (PList (take n l))
  | _ => Raise ("'" +:+ type_name v +:+ "' object is not subscriptable")
  end.

Definition obind {A B} (o : outcome A) (k : A -> outcome B) : outcome B :=
  match o with Ret a => k a | Raise e => Raise e end.

Fixpoint omap {A B} (f : A -> outcome B) (l : list A) : outcome (list B) :=
  match l with
  | [] => Ret []
  | a :: l' => obind (f a) (fun b => obind (omap f l') (fun bs => Ret (b :: bs)))
  end.

Fixpoint ofilter {A} (f : A -> outcome bool) (l : list A) : outcome (list A) :=
  match l with
  | [] => Ret []
  | a :: l' =>
      obind (f a) (fun keep =>
      obind (ofilter f l') (fun rest => Ret (if keep then a :: rest else rest)))
  end.

(** [[m for m in recent_meetings if m['status'] == 'scheduled']]. *)
Definition upcoming_of (recent_meetings : pyval) : outcome (list pyval) :=
  obind (py_iter recent_meetings)
        (ofilter (fun m => obind (py_getitem m "status")
                                 (fun s => Ret (py_eq_str s "scheduled")))).

Definition required_fields : list string := ["date"; "time"].

Definition missing_fields (ai_result : gmap string pyval) : list string :=
  List.filter (fun field => negb (truthy (dict_get ai_result field))) required_fields.

Definition handle_schedule_request (phone : string) (ai_result enhanced_context : gmap string pyval)
    : M string :=
  if negb (is_nil (missing_fields ai_result)) then
    if truthy (dict_get enhanced_context "meeting_history") then
      ret ("I'd be happy to schedule that meeting! Based on your usual preferences, could you please provide the "
           +:+ str_join ", " (missing_fields ai_result) +:+ "?")
    else
      ret ("I'd be happy to schedule that meeting! Could you please provide the "
           +:+ str_join ", " (missing_fields ai_result) +:+ "?")
  else
    try_except
      (let* result := create_meeting phone ai_result in
       match result with
       | Success _ =>
           let meeting_type := dict_get_default ai_result "meeting_type" (PStr "meeting") in
           let location_text :=
             if truthy (dict_get ai_result "location")
             then " at " +:+ py_str (dict_get ai_result "location")
             else "" in
           ret ("âœ… Perfect! I've scheduled your " +:+ py_str meeting_type +:+ " for "
                +:+ py_str (dict_get ai_result "date") +:+ " at "
                +:+ py_str (dict_get ai_result "time") +:+ location_text
                +:+ ". You'll see it in Google Calendar and get a Todoist reminder on the day.")
       | Failure error => ret ("âŒ Sorry, I couldn't create the meeting: " +:+ error)
       end)
      (fun _ => ret "I encountered an issue while scheduling. Please try again.").

(** One line of the lists the cancel and reschedule replies show. *)
Definition listing_line (m : pyval) : outcome string :=
  obind (py_getitem m "title") (fun title =>
  obind (py_getitem m "start_time") (fun start =>
  obind (py_slice_to 10 start) (fun d =>
  Ret ("â€¢ " +:+ py_str title +:+ " on " +:+ py_str d)))).

Definition handle_cancel_request (phone : string) (ai_result enhanced_context : gmap string pyval)
    : M string :=
  let recent_meetings := dict_get_default enhanced_context "meeting_history" (PList []) in
  let fallback :=
    ret "I'll help you cancel a meeting. Could you tell me which meeting you'd like to cancel?" in
  if truthy recent_meetings then
    let* upcoming_meetings := lift (upcoming_of recent_meetings) in
    if negb (is_nil upcoming_meetings) then
      let* lines := lift (omap listing_line (take 3 upcoming_meetings)) in
      ret ("I can help you cancel a meeting. Here are your upcoming meetings:" +:+ nl +:+ nl
           +:+ str_join nl lines +:+ nl +:+ nl +:+ "Which one would you like to cancel?")
    else fallback
  else fallback.

Definition handle_reschedule_request (phone : string)
    (ai_result enhanced_context : gmap string pyval) : M string :=
  let recent_meetings := dict_get_default enhanced_context "meeting_history" (PList []) in
  let fallback :=
    ret "I'll help you reschedule. Which meeting would you like to move, and what's the new time?" in
  if truthy recent_meetings then
    let* upcoming_meetings := lift (upcoming_of recent_meetings) in
    if negb (is_nil upcoming_meetings) then
      let* lines := lift (omap listing_line (take 3 upcoming_meetings)) in
      ret ("I can help you reschedule a meeting. Here are your upcoming meetings:" +:+ nl +:+ nl
           +:+ str_join nl lines +:+ nl +:+ nl
           +:+ "Which one would you like to reschedule, and what's the new time?")
    else fallback
  else fallback.

Definition info_line (m : pyval) : outcome string :=
  obind (py_getitem m "title") (fun title =>
  obind (py_getitem m "start_time") (fun start =>
  obind (py_slice_to 16 start) (fun d =>
  obind (py_getitem m "location") (fun location =>
  Ret ("ğŸ“… " +:+ py_str title +:+ nl +:+ "   " +:+ py_str d +:+ " - "
       +:+ py_str (if truthy location then location else PStr "No location")))))).

Definition handle_info_request (phone : string) (ai_result enhanced_context : gmap string pyval)
    : M string :=
  let recent_meetings := dict_get_default enhanced_context "meeting_history" (PList []) in
  if truthy recent_meetings then
    let* upcoming_meetings := lift (upcoming_of recent_meetings) in
    if negb (is_nil upcoming_meetings) then
      let* lines := lift (omap info_line (take 5 upcoming_meetings)) in
      ret ("Here are your upcoming meetings:" +:+ nl +:+ nl +:+ str_join nl lines
           +:+ nl +:+ nl +:+ "Need help with any of these?")
    else
      ret "You don't have any upcoming meetings scheduled. Would you like to schedule one?"
  else
    ret "I don't see any meetings in your history yet. Would you like to schedule your first meeting?".

(** [ai_result.get]: the classifier's answer has to be a dictionary. *)
Definition as_dict (v : pyval) : outcome (gmap string pyval) :=
  match v with
  | PDict d => Ret d
  | _ => Raise ("'" +:+ type_name v +:+ "' object has no attribute 'get'")
  end.

Definition process_whatsapp_message (from_number message : string) : M string :=
  try_except
    (let phone := str_replace "whatsapp:" "" from_number in
     let* enhanced_context := enhance_ai_context phone message in
     let* ai_result := classify_intent message in
     let* _ := store_conversation_context phone message ai_result in
     let* ai_result := lift (as_dict ai_result) in
     let intent := dict_get ai_result "intent" in
     if py_eq_str intent "schedule" then
       handle_schedule_request phone ai_result enhanced_context
     else if py_eq_str intent "cancel" then
       handle_cancel_request phone ai_result enhanced_context
     else if py_eq_str intent "reschedule" then
       handle_reschedule_request phone ai_result enhanced_context
     else if py_eq_str intent "info" then
       handle_info_request phone ai_result enhanced_context
     else
       generate_contextual_response enhanced_context)
    (fun _ =>
       ret "I'm having trouble understanding that. Could you please rephrase your request?").

(** The TwiML document of a response, by the message bodies it holds. *)
Definition MessagingResponse : Type := list string.

(** [form] is what [await request.form()] gives;
    [validate_twilio_request] accepts every request. *)
Definition whatsapp_webhook (form : outcome (gmap string string)) : M MessagingResponse :=
  try_except
    (let* form_data := lift form in
     let from_number := default "" (form_data !! "From") in
     let message_body := default "" (form_data !! "Body") in
     let* response_text := process_whatsapp_message from_number message_body in
     ret [response_text])
    (fun _ => ret ["Sorry, I encountered an error. Please try again later."]).

End Services.

(* ===================================================================== *)
(** * Reasoning about computations                                        *)
(* ===================================================================== *)

(** [wp m w Q]: running [m] from [w] ends in an outcome, a world and a
    trace that satisfy [Q]. *)
Definition wp {A} (m : M A) (w : World) (Q : outcome A -> World -> list Event -> Prop) : Prop :=
  let '(o, w', l) := m w in Q o w' l.

(** What a service that only opens sessions of its own leaves alone: the
    tables, the vector collection and the sessions that were open. *)
Definition frame (w w' : World) : Prop :=
  users w' = users w /\ meetings w' = meetings w
  /\ conversations w' = conversations w /\ points w' = points w
  /\ (next_session w <= next_session w')%nat
  /\ forall s, (s < next_session w)%nat -> sessions w' !! s = sessions w !! s.

(** What the owner of session [db] knows of a world: the two tables it
    writes and the objects its session holds. *)
Definition view (w : World) (db : nat) (us : gmap string User.t) (ms : gmap Z Meeting.t)
    (objs : list orm_obj) : Prop :=
  users w = us /\ meetings w = ms /\ sessions w !! db = Some objs
  /\ (db < next_session w)%nat.

Definition is_user_row (o : orm_obj) : Prop :=
  match o with UserRow _ _ => True | _ => False end.

(** The ways a run of [create_meeting] can end. *)
Inductive create_meeting_end (phone : string) (meeting_data : gmap string pyval)
    (w : World) : outcome (port_result MeetingCreated) -> World -> list Event -> Prop :=
| StoppedEarly e w' :
    (* an exception before the calendar was called *)
    meetings w' = meetings w ->
    create_meeting_end phone meeting_data w (Ret (Failure e)) w'
      [EvCreateMeeting phone meeting_data]
| CalendarFailed ed err w' :
    meetings w' = meetings w ->
    create_meeting_end phone meeting_data w (Ret (Failure err)) w'
      [EvCreateMeeting phone meeting_data; EvCreateEvent phone ed (Failure err)]
| NotStored ed created e w' :
    (* the calendar created the event and the meeting could not be stored *)
    meetings w' = meetings w ->
    create_meeting_end phone meeting_data w (Ret (Failure e)) w'
      [EvCreateMeeting phone meeting_data; EvCreateEvent phone ed (Success created)]
| Scheduled ed created td r id m u w' :
    meetings w !! id = None ->
    meetings w' = <[id := m]> (meetings w) ->
    Meeting.status m = "scheduled" ->
    Meeting.google_event_id m = Some (event_id created) ->
    Meeting.todoist_task_id m = None ->
    users w' !! phone = Some u ->
    Meeting.user_id m = User.id u ->
    create_meeting_end phone meeting_data w
      (Ret (Success (mkMeetingCreated id (event_id created)))) w'
      [EvCreateMeeting phone meeting_data; EvCreateEvent phone ed (Success created);
       EvCreateTask phone td r].

(** The texts of the replies of [handle_schedule_request]. *)
Definition ask_reply (with_history : bool) (missing : list string) : string :=
  if with_history then
    "I'd be happy to schedule that meeting! Based on your usual preferences, could you please provide the "
    +:+ str_join ", " missing +:+ "?"
  else
    "I'd be happy to schedule that meeting! Could you please provide the "
    +:+ str_join ", " missing +:+ "?".

Definition scheduled_reply (env : Env) (ai_result : gmap string pyval) : string :=
  "âœ… Perfect! I've scheduled your "
  +:+ py_str env (dict_get_default ai_result "meeting_type" (PStr "meeting")) +:+ " for "
  +:+ py_str env (dict_get ai_result "date") +:+ " at "
  +:+ py_str env (dict_get ai_result "time")
  +:+ (if truthy (dict_get ai_result "location")
       then " at " +:+ py_str env (dict_get ai_result "location") else "")
  +:+ ". You'll see it in Google Calendar and get a Todoist reminder on the day.".

Definition failed_reply (error : string) : string :=
  "âŒ Sorry, I couldn't create the meeting: " +:+ error.

(** A required field is lacking when the classifier's answer has no
    entry for it or the entry is [None] or another false value. *)
Definition lacks (ai_result : gmap string pyval) (field : string) : bool :=
  negb (truthy (dict_get ai_result field)).

(** The names of the lacking fields, [date] before [time]. *)
Definition lacking_fields (ai_result : gmap string pyval) : list string :=
  (if lacks ai_result "date" then ["date"] else [])
  ++ (if lacks ai_result "time" then ["time"] else []).

(* ===================================================================== *)
(** * Worlds and environments of the examples                             *)
(* ===================================================================== *)

Definition noon_4_march : datetime := mkdatetime (mkdate 2025 3 4) (mktime 12 0 0 0).

(** An environment whose services always give the same answers. *)
Definition fixed_env
    (insert : GoogleOutcome CreatedEvent) (delete : GoogleOutcome unit)
    (post : HttpOutcome CreatedTask) (delete_task : HttpOutcome unit)
    (classify generate : ChatOutcome) (loads : outcome pyval) : Env :=
  mkEnv (fun _ => noon_4_march) (fun _ => noon_4_march)
        (fun _ _ _ => insert) (fun _ _ _ => delete)
        (fun _ _ _ => post) (fun _ _ _ => delete_task)
        (fun _ _ => classify) (fun _ _ => generate)
        (fun _ _ => Ret [S754_zero false])
        (fun _ => loads) (fun _ => "{}") (fun _ => "?") (fun _ => 0)
        (fun _ => Raise "cannot convert float to integer")
        (fun _ => None) (fun _ _ => S754_zero false)
        (mkDriver (fun f =>
                     match f with
                     | S754_nan => None
                     | S754_infinity false => Some "Inf"
                     | S754_infinity true => Some "-Inf"
                     | _ => Some "0.0"
                     end)
                  (fun _ _ => "Error binding parameter")).


Definition alice_phone : string := "+15550001".
Definition bob_phone : string := "+15550002".

Definition alice : User.t :=
  User.mk 1 (Some "refresh-alice") (Some "token-alice") (PDict ∅) "UTC" noon_4_march.
Definition bob : User.t :=
  User.mk 2 (Some "refresh-bob") (Some "token-bob") (PDict ∅) "UTC" noon_4_march.

(** Two users, no meeting yet. *)
Definition two_users : World :=
  mkWorld {[ alice_phone := alice; bob_phone := bob ]} ∅ [] [] ∅ 0 0.

(** Bob's meeting, booked in both services. *)
Definition bobs_meeting : Meeting.t :=
  Meeting.mk 2 (Some "evt-bob") (Some "task-bob") (PStr "Demo")
             (mkdatetime (mkdate 2025 3 10) (mktime 15 30 0 0))
             (mkdatetime (mkdate 2025 3 10) (mktime 16 0 0 0))
             PNone (PStr "virtual") "scheduled" noon_4_march.

Definition bob_has_a_meeting : World :=
  mkWorld {[ alice_phone := alice; bob_phone := bob ]} {[ 7 := bobs_meeting ]} [] [] ∅ 0 0.

(** "Let's meet on the 10th at half past three", as classified. *)
Definition schedule_intent : gmap string pyval :=
  {[ "intent" := PStr "schedule"; "date" := PStr "2025-03-10"; "time" := PStr "15:30";
     "duration_minutes" := PInt 30 ]}.

(** A schedule intent that says nothing of the day. *)
Definition dateless_intent : gmap string pyval :=
  {[ "intent" := PStr "schedule"; "date" := PNone; "time" := PStr "15:30" ]}.

Definition event_created : GoogleOutcome CreatedEvent :=
  GoogleOk (mkCreatedEvent "evt-1" None).
Definition task_created : HttpOutcome CreatedTask :=
  HttpResponse 200 "" (Ret (mkCreatedTask "task-9" None)).
Definition task_unavailable : HttpOutcome CreatedTask :=
  HttpResponse 503 "Service Unavailable" (Raise "no body").
Definition deleted : HttpOutcome unit := HttpResponse 204 "" (Ret tt).

(** Calendar and task services both work. *)
Definition all_fine : Env :=
  fixed_env event_created (GoogleOk tt) task_created deleted
            (ChatContent (Some "{}")) (ChatContent (Some "Hello!")) (Ret (PDict ∅)).

(** The calendar works, the task service is down. *)
Definition tasks_down : Env :=
  fixed_env event_created (GoogleOk tt) task_unavailable
            (HttpResponse 503 "Service Unavailable" (Ret tt))
            (ChatContent (Some "{}")) (ChatContent (Some "Hello!")) (Ret (PDict ∅)).

(** The calendar refuses everything. *)
Definition calendar_down : Env :=
  fixed_env (GoogleHttpError "quota exceeded") (GoogleHttpError "quota exceeded")
            task_created deleted
            (ChatContent (Some "{}")) (ChatContent (Some "Hello!")) (Ret (PDict ∅)).

(** The classifier times out and the generator answers with nothing. *)
Definition silent_model : Env :=
  fixed_env event_created (GoogleOk tt) task_created deleted
            (ChatRaised "Request timed out.") (ChatContent (Some "")) (Ret (PDict ∅)).

(** Deleting fails in both services. *)
Definition deletions_fail : Env :=
  fixed_env event_created (GoogleHttpError "event not found") task_created
            (HttpResponse 404 "Not Found" (Ret tt))
            (ChatContent (Some "{}")) (ChatContent (Some "Hello!")) (Ret (PDict ∅)).

(** Turns of both users in the vector collection. *)
Definition alices_turn : Point :=
  mkPoint 11 [S754_zero false]
          (mkPayload alice_phone "lunch with Carol on Friday" (PDict ∅) "2025-03-01T09:00:00").
Definition bobs_turn : Point :=
  mkPoint 12 [S754_zero false]
          (mkPayload bob_phone "dentist on Monday at nine" (PDict ∅) "2025-03-02T09:00:00").

Definition both_talked : World :=
  mkWorld {[ alice_phone := alice; bob_phone := bob ]} ∅ [] [bobs_turn; alices_turn] ∅ 0 0.

(** What a search may return for a user: a stored turn of that user. *)
Definition own_turn (w : World) (phone_number : string) (r : Point * spec_float) : Prop :=
  In (fst r) (points w) /\ pl_phone_number (pt_payload (fst r)) = phone_number.

(** The answer of [classify_intent] when the classifier failed with [e]. *)
Definition fallback_intent (e : string) : pyval :=
  PDict {[ "intent" := PStr "other"; "confidence" := PFloat (S754_zero false);
           "error" := PStr e ]}.

(** The classifier fails at time [t]: the request raises (time-out, API
    error), or its content is missing or is not JSON. *)
Definition classifier_fails (env : Env) (t : nat) (message : string) : Prop :=
  match openai_classify env t message with
  | ChatRaised _ => True
  | ChatContent None => True
  | ChatContent (Some content) => exists e, json_loads env content = Raise e
  end.

(** The generator answers at time [t] with text that is empty once the
    white space around it is removed. *)
Definition generator_is_blank (env : Env) (t : nat) (context : gmap string pyval) : Prop :=
  exists content,
    openai_generate env t context = ChatContent (Some content) /\ str_strip content = "".

(** The classifier understands a greeting; the generator answers with
    white space only. *)
Definition blank_model : Env :=
  fixed_env event_created (GoogleOk tt) task_created deleted
            (ChatContent (Some "{}")) (ChatContent (Some "  "))
            (Ret (PDict {[ "intent" := PStr "other";
                           "confidence" := PFloat (S754_zero false) ]})).

(** The form Twilio posts for Alice's greeting. *)
Definition alices_greeting : gmap string string :=
  {[ "From" := "whatsapp:+15550001"; "Body" := "hello" ]}.

(** A reply that is returned is not the empty text. *)
Definition non_empty (o : outcome string) : Prop :=
  match o with Ret reply => reply <> "" | Raise _ => True end.

(** A reply is returned, and it is empty only if the generator was asked
    and answered with blank text. *)
Definition blank_only (env : Env) (o : outcome string) : Prop :=
  exists reply, o = Ret reply
    /\ (reply = "" -> exists t context, generator_is_blank env t context).



(** The classifier answers with a JSON list instead of an object. *)
Definition list_answer : Env :=
  fixed_env event_created (GoogleOk tt) task_created deleted
            (ChatContent (Some "[]")) (ChatContent (Some "Hello!")) (Ret (PList [])).

(* ===================================================================== *)
(** * Further definitions: what the services read from [users]           *)
(* ===================================================================== *)

(** The refresh token [get_user_credentials] builds credentials from:
    the stored one, when the user exists and it is not empty. *)
Definition google_token (us : gmap string User.t) (phone : string) : option string :=
  match us !! phone with
  | Some u =>
      if opt_truthy (User.google_refresh_token u) then User.google_refresh_token u else None
  | None => None
  end.

(** The token [create_task] and [delete_task] go on with. *)
Definition todoist_token_of (us : gmap string User.t) (phone : string) : option string :=
  match us !! phone with
  | Some u => if opt_truthy (User.todoist_token u) then User.todoist_token u else None
  | None => None
  end.

(** The token column as [get_user_token] returns it, empty or not. *)
Definition stored_todoist_token (us : gmap string User.t) (phone : string) : option string :=
  match us !! phone with
  | Some u => User.todoist_token u
  | None => None
  end.

(** The body [create_event] sends to the calendar: the location and the
    attendees are there only when the request has them. *)
Definition event_body (ed : EventData) : outcome GoogleEvent :=
  let location := if truthy (ed_location ed) then Some (ed_location ed) else None in
  let start := (datetime_isoformat (ed_start_time ed), ed_timezone ed) in
  let stop := (datetime_isoformat (ed_end_time ed), ed_timezone ed) in
  if truthy (ed_attendees ed) then
    match py_iter (ed_attendees ed) with
    | Ret emails => Ret (mkGoogleEvent (ed_title ed) "" start stop location (Some emails))
    | Raise e => Raise e
    end
  else Ret (mkGoogleEvent (ed_title ed) "" start stop location None).

(** What [create_event] answers, and the number of calls made to the
    outside once it has answered, for a user whose usable refresh token
    is [token], at time [t]. *)
Definition calendar_answer (env : Env) (token : option string) (t : nat) (ed : EventData)
    : port_result CreatedEvent * nat :=
  match token with
  | None => (Failure "User not authenticated with Google", t)
  | Some tok =>
      match event_body ed with
      | Raise e => (Failure ("Calendar service error: " +:+ e), t)
      | Ret ev =>
          (match google_events_insert env t tok ev with
           | GoogleOk c => Success c
           | GoogleHttpError e => Failure ("Google Calendar API error: " +:+ e)
           | GoogleRaised e => Failure ("Calendar service error: " +:+ e)
           end, S t)
      end
  end.

Definition calendar_delete_answer (env : Env) (token : option string) (t : nat) (event : string)
    : port_result unit * nat :=
  match token with
  | None => (Failure "User not authenticated with Google", t)
  | Some tok =>
      (match google_events_delete env t tok event with
       | GoogleOk _ => Success tt
       | GoogleHttpError e => Failure ("Google Calendar API error: " +:+ e)
       | GoogleRaised e => Failure ("Calendar service error: " +:+ e)
       end, S t)
  end.

(** The JSON [create_task] posts. *)
Definition task_payload (td : TaskData) : TaskPayload :=
  mkTaskPayload (td_content td) (td_description td) (td_priority td)
                (date_isoformat (td_due_date td))
                (match td_labels td with [] => None | l => Some l end).

(** What [create_task] answers for a user whose stored token is [token]. *)
Definition task_answer (env : Env) (token : option string) (t : nat) (td : TaskData)
    : port_result CreatedTask * nat :=
  if opt_truthy token then
    (match todoist_post_task env t (default "" token) (task_payload td) with
     | HttpResponse status_code text json =>
         if status_code =? 200 then
           match json with
           | Ret task => Success task
           | Raise e => Failure ("Todoist service error: " +:+ e)
           end
         else Failure (api_error status_code text)
     | HttpRaised e => Failure ("Todoist service error: " +:+ e)
     end, S t)
  else (Failure "User not authenticated with Todoist", t).

Definition task_delete_answer (env : Env) (token : option string) (t : nat) (task : string)
    : port_result unit * nat :=
  if opt_truthy token then
    (match todoist_delete_task env t (default "" token) task with
     | HttpResponse status_code text _ =>
         if status_code =? 204 then Success tt else Failure (api_error status_code text)
     | HttpRaised e => Failure ("Todoist service error: " +:+ e)
     end, S t)
  else (Failure "User not authenticated with Todoist", t).

(* ===================================================================== *)
(** * Further definitions: [create_meeting] as a function                 *)
(* ===================================================================== *)

(** A computation that makes no call to the outside. *)
Definition quiet {A} (m : M A) : Prop :=
  forall w, tick (snd (fst (m w))) = tick w.

(** The user [create_meeting] works for: the stored one, or the one it
    inserts for a phone number seen for the first time. *)
Definition registered (env : Env) (w : World) (phone : string) : User.t :=
  match users w !! phone with
  | Some u => u
  | None =>
      User.mk (next_user_id (users w)) None None (PDict ∅) "UTC"
              (datetime_utcnow env (tick w))
  end.

Definition users_after (env : Env) (w : World) (phone : string) : gmap string User.t :=
  match users w !! phone with
  | Some _ => users w
  | None => <[phone := registered env w phone]> (users w)
  end.

(** The task [_create_todoist_task] asks for, for a stored meeting. *)
Definition reminder (env : Env) (m : Meeting.t) : TaskData :=
  let task_content := "📅 Meeting: " +:+ py_str env (Meeting.title m) in
  let task_content :=
    if truthy (Meeting.location m)
    then task_content +:+ " at " +:+ py_str env (Meeting.location m)
    else task_content in
  let task_description :=
    "Meeting scheduled for " +:+ strftime_ymd_hm (Meeting.start_time m) in
  let task_description :=
    if truthy (Meeting.meeting_type m)
    then task_description +:+ nl +:+ "Type: " +:+ py_str env (Meeting.meeting_type m)
    else task_description in
  mkTaskData task_content task_description (dt_date (Meeting.start_time m)) 2
             ["meeting"; "scheduled"].

(** Start and end of the meeting a request asks for, at time [now]. *)
Definition planned_start (now : datetime) (meeting_data : gmap string pyval) : datetime :=
  _parse_datetime now (dict_get meeting_data "date") (dict_get meeting_data "time").

Definition planned_end (env : Env) (now : datetime) (meeting_data : gmap string pyval)
    : outcome datetime :=
  obind (timedelta_minutes env (dict_get_default meeting_data "duration_minutes" (PInt 30)))
        (datetime_add_us (planned_start now meeting_data)).

Definition planned_event (start_time end_time : datetime) (meeting_data : gmap string pyval)
    : EventData :=
  mkEventData (dict_get_default meeting_data "title" (PStr "Meeting"))
              start_time end_time
              (dict_get meeting_data "location")
              (dict_get_default meeting_data "timezone" (PStr "UTC"))
              (dict_get_default meeting_data "participants" (PList [])).

(** The keyword arguments of the [Meeting] a request asks for. *)
Definition planned_kwargs (u : User.t) (created : CreatedEvent)
    (start_time end_time : datetime) (meeting_data : gmap string pyval) : Meeting.kwargs :=
  Meeting.mk_kwargs (User.id u) (event_id created)
                    (dict_get_default meeting_data "title" (PStr "Meeting"))
                    start_time end_time
                    (dict_get meeting_data "location")
                    (dict_get_default meeting_data "meeting_type" (PStr "in-person")).

(** A run of [create_meeting]: its result, the two tables, the trace and
    the number of calls made to the outside when it ends. *)
Record Booking := mkBooking {
  bk_result : port_result MeetingCreated;
  bk_users : gmap string User.t;
  bk_meetings : gmap Z Meeting.t;
  bk_trace : list Event;
  bk_tick : nat
}.

Definition booking (env : Env) (phone : string) (meeting_data : gmap string pyval)
    (w : World) : Booking :=
  let u := registered env w phone in
  let us := users_after env w phone in
  let start_time := planned_start (datetime_now env (tick w)) meeting_data in
  match planned_end env (datetime_now env (tick w)) meeting_data with
  | Raise e =>
      mkBooking (Failure e) us (meetings w) [EvCreateMeeting phone meeting_data] (tick w)
  | Ret end_time =>
      let ed := planned_event start_time end_time meeting_data in
      let calendar := calendar_answer env (google_token us phone) (tick w) ed in
      match fst calendar with
      | Failure error =>
          mkBooking (Failure error) us (meetings w)
                    [EvCreateMeeting phone meeting_data;
                     EvCreateEvent phone ed (Failure error)]
                    (snd calendar)
      | Success created =>
          let kw := planned_kwargs u created start_time end_time meeting_data in
          match bind_kwargs (sqlite env) kw with
          | None =>
              mkBooking (Failure (insert_error (sqlite env)
                                    (datetime_utcnow env (snd calendar)) kw))
                        us (meetings w)
                        [EvCreateMeeting phone meeting_data;
                         EvCreateEvent phone ed (Success created)]
                        (snd calendar)
          | Some kept =>
              let id := next_meeting_id (meetings w) in
              let m := Meeting.inserted (datetime_utcnow env (snd calendar)) kept in
              let task :=
                task_answer env (stored_todoist_token us phone) (snd calendar)
                            (reminder env m) in
              mkBooking (Success (mkMeetingCreated id (event_id created)))
                        us (<[id := m]> (meetings w))
                        [EvCreateMeeting phone meeting_data;
                         EvCreateEvent phone ed (Success created);
                         EvCreateTask phone (reminder env m) (fst task)]
                        (snd task)
          end
      end
  end.

(* ===================================================================== *)
(** * Further definitions: [cancel_meeting] as a function                 *)
(* ===================================================================== *)

(** The deletions [cancel_meeting] asks for, for the stored row [m], on
    behalf of the caller [phone]: the trace they leave and the number of
    calls made to the outside after them. *)
Definition event_deletion (env : Env) (us : gmap string User.t) (phone : string)
    (m : Meeting.t) (t : nat) : list Event * nat :=
  if opt_truthy (Meeting.google_event_id m) then
    let event := default "" (Meeting.google_event_id m) in
    let answer := calendar_delete_answer env (google_token us phone) t event in
    ([EvDeleteEvent phone event (fst answer)], snd answer)
  else ([], t).

Definition task_deletion (env : Env) (us : gmap string User.t) (phone : string)
    (m : Meeting.t) (t : nat) : list Event * nat :=
  if opt_truthy (Meeting.todoist_task_id m) then
    let task := default "" (Meeting.todoist_task_id m) in
    let answer := task_delete_answer env (stored_todoist_token us phone) t task in
    ([EvDeleteTask phone task (fst answer)], snd answer)
  else ([], t).

Record Cancellation := mkCancellation {
  cn_result : port_result string;
  cn_meetings : gmap Z Meeting.t;
  cn_trace : list Event;
  cn_tick : nat
}.

Definition cancellation (env : Env) (phone : string) (meeting_id : Z) (w : World)
    : Cancellation :=
  match meetings w !! meeting_id with
  | None =>
      mkCancellation (Failure "Meeting not found") (meetings w)
                     [EvCancelMeeting phone meeting_id] (tick w)
  | Some m =>
      let events := event_deletion env (users w) phone m (tick w) in
      let tasks := task_deletion env (users w) phone m (snd events) in
      mkCancellation (Success "Meeting cancelled successfully")
                     (<[meeting_id := Meeting.set_status "cancelled" m]> (meetings w))
                     (EvCancelMeeting phone meeting_id :: fst events ++ fst tasks)
                     (snd tasks)
  end.

(** Users of the examples: Carol has never written; Dave has written but
    has connected neither service. *)
Definition carol_phone : string := "+15550003".
Definition dave_phone : string := "+15550004".
Definition dave : User.t := User.mk 4 None None (PDict ∅) "UTC" noon_4_march.

Definition with_dave : World :=
  mkWorld {[ alice_phone := alice; dave_phone := dave ]} {[ 7 := bobs_meeting ]} [] [] ∅ 0 0.

(** Two trace entries that record the same request, whatever its
    result. *)
Definition same_request (e1 e2 : Event) : Prop :=
  match e1, e2 with
  | EvCreateEvent p d _, EvCreateEvent p' d' _ => p = p' /\ d = d'
  | EvDeleteEvent p e _, EvDeleteEvent p' e' _ => p = p' /\ e = e'
  | EvCreateTask p d _, EvCreateTask p' d' _ => p = p' /\ d = d'
  | EvDeleteTask p t _, EvDeleteTask p' t' _ => p = p' /\ t = t'
  | EvCreateMeeting p d, EvCreateMeeting p' d' => p = p' /\ d = d'
  | EvCancelMeeting p m, EvCancelMeeting p' m' => p = p' /\ m = m'
  | _, _ => False
  end.

(* ===================================================================== *)
(** * Further definitions: the conversation memory                        *)
(* ===================================================================== *)

(** What [get_embedding] returns at time [t]: the vector, or the empty
    list when the request fails. *)
Definition embedding_of (env : Env) (t : nat) (text : string) : list spec_float :=
  match openai_embedding env t text with
  | Ret v => v
  | Raise _ => []
  end.

(** The text [store_conversation_context] has embedded. *)
Definition searchable_text (env : Env) (phone_number message : string) (context : pyval)
    : string :=
  "User: " +:+ phone_number +:+ nl +:+ "Message: " +:+ message +:+ nl
  +:+ "Context: " +:+ json_dumps env context.

(** The turns of a user among the stored points. *)
Definition turns_of (phone_number : string) (ps : list Point) : list Point :=
  List.filter (fun p => String.eqb (pl_phone_number (pt_payload p)) phone_number) ps.

(** What a search gives on the stored points [ps]. *)
Definition search_hits (env : Env) (query_vector : list spec_float) (phone_number : string)
    (limit : nat) (ps : list Point) : list (Point * spec_float) :=
  take limit
    (sort_by (fun a b => SFleb (snd b) (snd a))
       (map (fun p => (p, similarity env query_vector (pt_vector p)))
            (turns_of phone_number ps))).

(** The embedding service is out of quota; everything else works. *)
Definition no_embeddings : Env :=
  mkEnv (datetime_now all_fine) (datetime_utcnow all_fine)
        (google_events_insert all_fine) (google_events_delete all_fine)
        (todoist_post_task all_fine) (todoist_delete_task all_fine)
        (openai_classify all_fine) (openai_generate all_fine)
        (fun _ _ => Raise "insufficient_quota")
        (json_loads all_fine) (json_dumps all_fine) (py_repr all_fine) (py_hash all_fine)
        (timedelta_float_minutes all_fine) (qdrant_fault all_fine) (similarity all_fine)
        (sqlite all_fine).

(* ===================================================================== *)
(** * Further definitions: the message handler                            *)
(* ===================================================================== *)

(** A trace entry of a booking: the entry into [create_meeting] or one of
    the two creations it asks for. *)
Definition is_booking (e : Event) : Prop :=
  match e with
  | EvCreateMeeting _ _ | EvCreateEvent _ _ _ | EvCreateTask _ _ _ => True
  | EvDeleteEvent _ _ _ | EvDeleteTask _ _ _ | EvCancelMeeting _ _ => False
  end.

(** What the handlers of [cancel], [reschedule] and [info] answer when
    the context has no meeting history. *)
Definition no_history_reply (intent : string) : option string :=
  if String.eqb intent "cancel" then
    Some "I'll help you cancel a meeting. Could you tell me which meeting you'd like to cancel?"
  else if String.eqb intent "reschedule" then
    Some "I'll help you reschedule. Which meeting would you like to move, and what's the new time?"
  else if String.eqb intent "info" then
    Some "I don't see any meetings in your history yet. Would you like to schedule your first meeting?"
  else None.

(** The classifier finds a request for the list of meetings. *)
Definition info_model : Env :=
  fixed_env event_created (GoogleOk tt) task_created deleted
            (ChatContent (Some "{}")) (ChatContent (Some "Hello!"))
            (Ret (PDict {[ "intent" := PStr "info" ]})).

(* ===================================================================== *)
(** * [app/api/auth.py]                                                   *)
(* ===================================================================== *)

(** What an endpoint answers: the JSON body with its message, or the
    [HTTPException] that leaves the function. *)
Inductive Response :=
| JsonMessage (message : string)
| HTTPException (status_code : Z) (detail : string).

Record AuthStatus := mkAuthStatus {
  google_connected : bool;
  todoist_connected : bool;
  status_message : string
}.

(** The two exchanges of a code for a token: [flow.fetch_token] followed
    by the reading of [flow.credentials.refresh_token], which may be
    [None], and the POST to Todoist's [access_token] endpoint, whose
    decoded body gives the [access_token]. *)
Record AuthEnv := mkAuthEnv {
  google_fetch_token : nat -> string -> outcome (option string);
  todoist_access_token : nat -> string -> HttpOutcome string
}.

Definition set_google_refresh_token (v : option string) (u : User.t) : User.t :=
  User.mk (User.id u) v (User.todoist_token u) (User.preferences u) (User.timezone u)
          (User.created_at u).

Definition set_todoist_token (v : option string) (u : User.t) : User.t :=
  User.mk (User.id u) (User.google_refresh_token u) v (User.preferences u) (User.timezone u)
          (User.created_at u).

(** The user object a callback holds, [user] if the query found one and
    a new [User(phone_number=phone)] otherwise, gets a column assigned
    and the session is committed: the row is updated, or inserted with
    the assigned column and the defaults of the others. *)
Definition commit_user (utcnow : nat -> datetime) (phone : string) (user : option User.t)
    (assign : User.t -> User.t) : M unit :=
  fun w =>
    let u :=
      match user with
      | Some u => u
      | None => User.mk (next_user_id (users w)) None None (PDict ∅) "UTC" (utcnow (tick w))
      end in
    (Ret tt, set_users (insert phone (assign u)) w, []).

Section Auth.

Context (env : Env) (auth : AuthEnv).

(** Whatever is raised inside, the [HTTPException] with status 500 is
    what leaves the function. *)
Definition google_auth_callback (code state : string) : M Response :=
  try_except
    (let phone := state in
     let* fetched := oracle (fun t => google_fetch_token auth t code) in
     let* refresh_token := lift fetched in
     let* db := SessionLocal in
     try_finally
       (let* user := session_query_user db phone in
        let* _ :=
          commit_user (datetime_utcnow env) phone user
                      (set_google_refresh_token refresh_token) in
        ret (JsonMessage
               "Google Calendar connected successfully! You can now schedule meetings."))
       (session_close db))
    (fun _ => ret (HTTPException 500 "Failed to complete Google authentication")).

(** The [HTTPException] with status 400 is raised inside the [try], and
    [except Exception] catches it with everything else. *)
Definition todoist_auth_callback (code state : string) : M Response :=
  try_except
    (let phone := state in
     let* response := oracle (fun t => todoist_access_token auth t code) in
     match response with
     | HttpResponse status_code text json =>
         if status_code =? 200 then
           let* access_token := lift json in
           let* db := SessionLocal in
           try_finally
             (let* user := session_query_user db phone in
              let* _ :=
                commit_user (datetime_utcnow env) phone user
                            (set_todoist_token (Some access_token)) in
              ret (JsonMessage
                     "Todoist connected successfully! You'll now get task reminders for your meetings."))
             (session_close db)
         else raise "400: Failed to get Todoist access token"
     | HttpRaised e => raise e
     end)
    (fun _ => ret (HTTPException 500 "Failed to complete Todoist authentication")).

Definition auth_status (phone : string) : M AuthStatus :=
  let* db := SessionLocal in
  try_finally
    (let* user := session_query_user db phone in
     match user with
     | None => ret (mkAuthStatus false false "User not found")
     | Some u =>
         ret (mkAuthStatus (opt_truthy (User.google_refresh_token u))
                           (opt_truthy (User.todoist_token u))
                           "Authentication status retrieved")
     end)
    (session_close db).

End Auth.

(** Exchanges of the examples. *)
Definition tokens_granted : AuthEnv :=
  mkAuthEnv (fun _ _ => Ret (Some "refresh-new"))
            (fun _ _ => HttpResponse 200 "" (Ret "token-new")).

Definition consent_seen_before : AuthEnv :=
  mkAuthEnv (fun _ _ => Ret None)
            (fun _ _ => HttpResponse 400 "bad code" (Raise "no body")).

(* ===================================================================== *)
(** * Checks of the text and [datetime] fragment                          *)
(* ===================================================================== *)

Example ymd2ord_epoch : _ymd2ord (mkdate 1970 1 1) = 719163.
Proof. reflexivity. Qed.

Example ord2ymd_leap_day : _ord2ymd (_ymd2ord (mkdate 2024 2 28) + 1) = mkdate 2024 2 29.
Proof. reflexivity. Qed.

Example ord2ymd_year_end : date_add_days (mkdate 2023 12 31) 1 = mkdate 2024 1 1.
Proof. reflexivity. Qed.

Example strptime_date_ok : strptime_date "2025-03-04" = Some (mkdate 2025 3 4).
Proof. reflexivity. Qed.

Example strptime_date_short : strptime_date "2025-3-4" = Some (mkdate 2025 3 4).
Proof. reflexivity. Qed.

Example strptime_date_no_such_day : strptime_date "2025-02-30" = None.
Proof. reflexivity. Qed.

Example strptime_date_trailing : strptime_date "2025-03-04T10" = None.
Proof. reflexivity. Qed.

Example strptime_time_ok : strptime_time "15:30" = Some (mktime 15 30 0 0).
Proof. reflexivity. Qed.

Example strptime_time_backtracks : strptime_time "2:05" = Some (mktime 2 5 0 0).
Proof. reflexivity. Qed.

Example strptime_time_words : strptime_time "3pm" = None.
Proof. reflexivity. Qed.

Example strptime_time_24 : strptime_time "24:00" = None.
Proof. reflexivity. Qed.

(** [\d] takes the decimal digits of any script, the ranges [[0-1]] and
    [[0-5]] only those of ASCII. *)
Example strptime_time_fullwidth : strptime_time "1５:30" = Some (mktime 15 30 0 0).
Proof. reflexivity. Qed.

Example strptime_time_arabic : strptime_time "١٥:٣٠" = None.
Proof. reflexivity. Qed.

Example strptime_date_fullwidth_year :
  strptime_date "２０２５-03-10" = Some (mkdate 2025 3 10).
Proof. reflexivity. Qed.

Example strftime_short_year :
  strftime_ymd_hm (mkdatetime (mkdate 999 1 2) (mktime 3 4 0 0)) = "999-01-02 03:04"
  /\ datetime_isoformat (mkdatetime (mkdate 999 1 2) (mktime 3 4 0 0))
     = "0999-01-02T03:04:00".
Proof. split; reflexivity. Qed.

Example isoformat_example :
  datetime_isoformat (mkdatetime (mkdate 2025 3 4) (mktime 9 5 0 0)) = "2025-03-04T09:05:00".
Proof. reflexivity. Qed.

Example strip_example : str_strip "  hi there
 " = "hi there".
Proof. reflexivity. Qed.

(** An ideographic space in front, a no-break space behind. *)
Example strip_unicode_blanks : str_strip "　hi there " = "hi there".
Proof. reflexivity. Qed.

Example take_counts_characters : str_take 2 "é５x" = "é５".
Proof. reflexivity. Qed.

Example replace_example : str_replace "whatsapp:" "" "whatsapp:+212600" = "+212600".
Proof. reflexivity. Qed.

Example parse_datetime_both :
  _parse_datetime (mkdatetime (mkdate 2025 3 4) (mktime 12 0 0 0))
                  (PStr "2025-03-10") (PStr "15:30")
  = mkdatetime (mkdate 2025 3 10) (mktime 15 30 0 0).
Proof. reflexivity. Qed.

(** A time written with a full-width digit is a time. *)
Example parse_datetime_fullwidth_time :
  _parse_datetime (mkdatetime (mkdate 2025 3 4) (mktime 12 0 0 0))
                  (PStr "next tuesday") (PStr "1５:30")
  = mkdatetime (mkdate 2025 3 5) (mktime 15 30 0 0).
Proof. reflexivity. Qed.

Example parse_datetime_bad_time :
  _parse_datetime (mkdatetime (mkdate 2025 3 4) (mktime 12 0 0 0))
                  (PStr "2025-03-10") (PStr "3pm")
  = mkdatetime (mkdate 2025 3 5) (mktime 10 0 0 0).
Proof. reflexivity. Qed.

(* ===================================================================== *)
(** * Start-time resolution                                               *)
(* ===================================================================== *)

Lemma strptime_time_nonempty (s : string) (t : time) :
  strptime_time s = Some t -> s <> "".
Proof. intros H ->. discriminate H. Qed.

Lemma py_strptime_time_truthy (v : pyval) (t : time) :
  py_strptime_time v = Some t -> truthy v = true.
Proof.
  destruct v as [| | | |s| |]; simpl; try discriminate.
  intros H. apply strptime_time_nonempty in H.
  destruct s; [congruence | reflexivity].
Qed.





(** When both texts parse the resolved start is the one they name. *)
Lemma parse_datetime_parsed (now : datetime) (date_str time_str : pyval) (d : date) (t : time) :
  truthy date_str = true ->
  py_strptime_date date_str = Some d -> py_strptime_time time_str = Some t ->
  _parse_datetime now date_str time_str = datetime_combine d t.
Proof.
  intros Hd Ed Et. unfold _parse_datetime.
  rewrite Hd, (py_strptime_time_truthy _ _ Et), Ed, Et. reflexivity.
Qed.

(* ===================================================================== *)
(** * Rules for [wp]                                                      *)
(* ===================================================================== *)

Section Rules.

Context {A B : Type}.
Implicit Types (w : World) (l : list Event).

Lemma wp_run (m : M A) w Q o w' l : m w = (o, w', l) -> wp m w Q -> Q o w' l.
Proof. unfold wp. intros ->. auto. Qed.

Lemma wp_conseq (m : M A) w (Q Q' : outcome A -> World -> list Event -> Prop) :
  wp m w Q -> (forall o w' l, Q o w' l -> Q' o w' l) -> wp m w Q'.
Proof. unfold wp. destruct (m w) as [[o w'] l]. auto. Qed.

Lemma wp_and (m : M A) w (Q1 Q2 : outcome A -> World -> list Event -> Prop) :
  wp m w Q1 -> wp m w Q2 -> wp m w (fun o w' l => Q1 o w' l /\ Q2 o w' l).
Proof. unfold wp. destruct (m w) as [[o w'] l]. auto. Qed.

Lemma wp_ret (a : A) w Q : Q (Ret a) w [] -> wp (ret a) w Q.
Proof. auto. Qed.

Lemma wp_raise (e : string) w (Q : outcome A -> World -> list Event -> Prop) :
  Q (Raise e) w [] -> wp (raise e) w Q.
Proof. auto. Qed.

Lemma wp_lift (o : outcome A) w Q : Q o w [] -> wp (lift o) w Q.
Proof. auto. Qed.

Lemma wp_bind (m : M A) (k : A -> M B) w Q :
  wp m w (fun o w1 l1 =>
            match o with
            | Ret a => wp (k a) w1 (fun o2 w2 l2 => Q o2 w2 (l1 ++ l2))
            | Raise e => Q (Raise e) w1 l1
            end) ->
  wp (bind m k) w Q.
Proof.
  unfold wp, bind. destruct (m w) as [[[a|e] w1] l1]; [| auto].
  destruct (k a w1) as [[o2 w2] l2]. auto.
Qed.

Lemma wp_try_except (body : M A) (handler : string -> M A) w Q :
  wp body w (fun o w1 l1 =>
               match o with
               | Ret a => Q (Ret a) w1 l1
               | Raise e => wp (handler e) w1 (fun o2 w2 l2 => Q o2 w2 (l1 ++ l2))
               end) ->
  wp (try_except body handler) w Q.
Proof.
  unfold wp, try_except. destruct (body w) as [[[a|e] w1] l1]; [auto |].
  destruct (handler e w1) as [[o2 w2] l2]. auto.
Qed.

Lemma wp_try_finally (body : M A) (final : M unit) w Q :
  wp body w (fun o w1 l1 =>
               wp final w1 (fun o2 w2 l2 =>
                              match o2 with
                              | Ret _ => Q o w2 (l1 ++ l2)
                              | Raise e => Q (Raise e) w2 (l1 ++ l2)
                              end)) ->
  wp (try_finally body final) w Q.
Proof.
  unfold wp, try_finally. destruct (body w) as [[o w1] l1].
  destruct (final w1) as [[[u|e] w2] l2]; auto.
Qed.

Lemma wp_emit (e : Event) w Q : Q (Ret tt) w [e] -> wp (emit e) w Q.
Proof. auto. Qed.

Lemma wp_oracle (f : nat -> A) w Q :
  Q (Ret (f (tick w))) (set_tick (S (tick w)) w) [] -> wp (oracle f) w Q.
Proof. auto. Qed.

Lemma wp_clock (f : nat -> datetime) w Q : Q (Ret (f (tick w))) w [] -> wp (clock f) w Q.
Proof. auto. Qed.

Lemma wp_get_world w Q : Q (Ret w) w [] -> wp get_world w Q.
Proof. auto. Qed.

Lemma wp_modify (f : World -> World) w Q : Q (Ret tt) (f w) [] -> wp (modify f) w Q.
Proof. auto. Qed.

End Rules.

(** One step of symbolic execution. *)
Ltac wp_step :=
  lazymatch goal with
  | |- wp (bind _ _) _ _ => apply wp_bind
  | |- wp (try_except _ _) _ _ => apply wp_try_except
  | |- wp (try_finally _ _) _ _ => apply wp_try_finally
  | |- wp (ret _) _ _ => apply wp_ret
  | |- wp (raise _) _ _ => apply wp_raise
  | |- wp (lift _) _ _ => apply wp_lift
  | |- wp (emit _) _ _ => apply wp_emit
  | |- wp (oracle _) _ _ => apply wp_oracle
  | |- wp (clock _) _ _ => apply wp_clock
  | |- wp get_world _ _ => apply wp_get_world
  | |- wp (modify _) _ _ => apply wp_modify
  | |- wp (let x := ?v in @?b x) ?w ?Q =>
      let y := fresh x in pose (y := v); change (wp (b y) w Q)
  end;
  cbv beta iota.

Ltac wp_steps := repeat wp_step.

(** Use a proved specification for the computation in front. *)
Ltac wp_use H :=
  eapply wp_conseq; [apply H |]; cbv beta.

Ltac wp_red := cbv beta iota.

Lemma frame_trans w1 w2 w3 : frame w1 w2 -> frame w2 w3 -> frame w1 w3.
Proof.
  intros (U1 & M1 & C1 & P1 & N1 & S1) (U2 & M2 & C2 & P2 & N2 & S2).
  repeat split; try congruence; [lia |].
  intros s Hs. rewrite S2 by lia. auto.
Qed.

Lemma frame_tick w n : frame w (set_tick n w).
Proof. repeat split; auto. Qed.

(** Opening a session and closing it again. *)
Lemma frame_session w :
  frame w (set_sessions (delete (next_session w))
             (set_next_session (S (next_session w))
                (set_sessions (insert (next_session w) []) w))).
Proof.
  repeat split; simpl; auto. intros s Hs.
  rewrite lookup_delete_ne, lookup_insert_ne by lia. reflexivity.
Qed.

Section ServiceFacts.

Context (env : Env).

Lemma get_user_credentials_wp phone w :
  wp (get_user_credentials phone) w
     (fun o w' l => (exists c, o = Ret c) /\ l = [] /\ frame w w').
Proof.
  unfold wp, get_user_credentials, bind, try_finally, SessionLocal, session_query_user,
    session_close, modify, ret. simpl.
  destruct (users w !! phone) as [u|]; [destruct (opt_truthy _) |];
    simpl; (split; [eauto | split; [reflexivity | apply frame_session]]).
Qed.

Lemma create_event_wp phone ed w :
  wp (create_event env phone ed) w
     (fun o w' l => exists r, o = Ret r /\ l = [EvCreateEvent phone ed r] /\ frame w w').
Proof.
  unfold create_event.
  wp_steps. wp_use get_user_credentials_wp.
  intros o w1 l1 ((c & ->) & -> & F1). wp_red.
  assert (Hfin : forall r w2, frame w w2 ->
            wp (let* _ := emit (EvCreateEvent phone ed r) in ret r) w2
               (fun o2 w3 l2 => exists r0, o2 = Ret r0
                  /\ [] ++ l2 = [EvCreateEvent phone ed r0] /\ frame w w3)).
  { intros r w2 F. wp_steps. exists r. auto. }
  destruct c as [token|]; wp_red.
  2:{ wp_steps. apply Hfin, F1. }
  wp_step.
  destruct (truthy (ed_attendees ed)).
  - wp_steps.
    destruct (py_iter (ed_attendees ed)) as [emails|e]; wp_red.
    + wp_steps.
      destruct (google_events_insert env _ _ _); wp_steps;
        apply Hfin; eapply frame_trans; eauto using frame_tick.
    + wp_steps. apply Hfin, F1.
  - wp_steps.
    destruct (google_events_insert env _ _ _); wp_steps;
      apply Hfin; eapply frame_trans; eauto using frame_tick.
Qed.

Lemma delete_event_wp phone ev w :
  wp (delete_event env phone ev) w
     (fun o w' l => exists r, o = Ret r /\ l = [EvDeleteEvent phone ev r] /\ frame w w').
Proof.
  unfold delete_event.
  wp_steps. wp_use get_user_credentials_wp.
  intros o w1 l1 ((c & ->) & -> & F1). wp_red.
  assert (Hfin : forall r w2, frame w w2 ->
            wp (let* _ := emit (EvDeleteEvent phone ev r) in ret r) w2
               (fun o2 w3 l2 => exists r0, o2 = Ret r0
                  /\ [] ++ l2 = [EvDeleteEvent phone ev r0] /\ frame w w3)).
  { intros r w2 F. wp_steps. exists r. auto. }
  destruct c as [token|]; wp_red.
  2:{ wp_steps. apply Hfin, F1. }
  wp_steps.
  destruct (google_events_delete env _ _ _); wp_steps;
    apply Hfin; eapply frame_trans; eauto using frame_tick.
Qed.

Lemma get_user_token_wp phone w :
  wp (get_user_token phone) w
     (fun o w' l => (exists c, o = Ret c) /\ l = [] /\ frame w w').
Proof.
  unfold wp, get_user_token, bind, try_finally, SessionLocal, session_query_user,
    session_close, modify, ret. simpl.
  destruct (users w !! phone) as [u|];
    simpl; (split; [eauto | split; [reflexivity | apply frame_session]]).
Qed.

Lemma create_task_wp phone td w :
  wp (create_task env phone td) w
     (fun o w' l => exists r, o = Ret r /\ l = [EvCreateTask phone td r] /\ frame w w').
Proof.
  unfold create_task.
  wp_steps. wp_use get_user_token_wp.
  intros o w1 l1 ((c & ->) & -> & F1). wp_red.
  assert (Hfin : forall r w2, frame w w2 ->
            wp (let* _ := emit (EvCreateTask phone td r) in ret r) w2
               (fun o2 w3 l2 => exists r0, o2 = Ret r0
                  /\ [] ++ l2 = [EvCreateTask phone td r0] /\ frame w w3)).
  { intros r w2 F. wp_steps. exists r. auto. }
  destruct (negb (opt_truthy c)).
  { wp_steps. apply Hfin, F1. }
  wp_steps.
  assert (F2 : frame w (set_tick (S (tick w1)) w1))
    by (eapply frame_trans; eauto using frame_tick).
  destruct (todoist_post_task env _ _ _) as [code text json|e]; wp_red.
  - destruct (code =? 200).
    + wp_steps. destruct json; wp_steps; apply Hfin, F2.
    + wp_steps. apply Hfin, F2.
  - wp_steps. apply Hfin, F2.
Qed.

Lemma delete_task_wp phone task w :
  wp (delete_task env phone task) w
     (fun o w' l => exists r, o = Ret r /\ l = [EvDeleteTask phone task r] /\ frame w w').
Proof.
  unfold delete_task.
  wp_steps. wp_use get_user_token_wp.
  intros o w1 l1 ((c & ->) & -> & F1). wp_red.
  assert (Hfin : forall r w2, frame w w2 ->
            wp (let* _ := emit (EvDeleteTask phone task r) in ret r) w2
               (fun o2 w3 l2 => exists r0, o2 = Ret r0
                  /\ [] ++ l2 = [EvDeleteTask phone task r0] /\ frame w w3)).
  { intros r w2 F. wp_steps. exists r. auto. }
  destruct (negb (opt_truthy c)).
  { wp_steps. apply Hfin, F1. }
  wp_steps.
  assert (F2 : frame w (set_tick (S (tick w1)) w1))
    by (eapply frame_trans; eauto using frame_tick).
  destruct (todoist_delete_task env _ _ _) as [code text json|e]; wp_red.
  - destruct (code =? 204); wp_steps; apply Hfin, F2.
  - wp_steps. apply Hfin, F2.
Qed.

End ServiceFacts.

(* ===================================================================== *)
(** * Sessions                                                            *)
(* ===================================================================== *)

Lemma view_frame w w' db us ms objs :
  frame w w' -> view w db us ms objs -> view w' db us ms objs.
Proof.
  intros (U & Mt & _ & _ & N & S) (Hu & Hm & Hs & Hn).
  repeat split; try congruence; [rewrite S by lia; auto | lia].
Qed.

Lemma view_objs w db us ms objs : view w db us ms objs -> session_objs db w = objs.
Proof. intros (_ & _ & Hs & _). unfold session_objs. rewrite Hs. reflexivity. Qed.

Lemma SessionLocal_wp w :
  wp SessionLocal w
     (fun o w' l =>
        o = Ret (next_session w) /\ l = [] /\ frame w w'
        /\ view w' (next_session w) (users w) (meetings w) []).
Proof.
  unfold wp, SessionLocal. simpl. repeat split; simpl; auto.
  - intros s Hs. rewrite lookup_insert_ne by lia. reflexivity.
  - apply lookup_insert_eq.
Qed.

Lemma session_add_wp w db us ms objs o :
  view w db us ms objs ->
  wp (session_add db o) w
     (fun r w' l => r = Ret (db, length objs) /\ l = [] /\ view w' db us ms (objs ++ [o])).
Proof.
  intros V. unfold wp, session_add. rewrite (view_objs _ _ _ _ _ V).
  destruct V as (Hu & Hm & Hs & Hn).
  repeat split; simpl; auto. apply lookup_insert_eq.
Qed.

(** A commit writes what the flush of its session gives, or raises what
    the flush raises and leaves the world as it was. *)
Lemma session_commit_wp drv utc w db us ms objs :
  view w db us ms objs ->
  wp (session_commit drv utc db) w
     (fun r w' l =>
        l = []
        /\ match flush drv (utc (tick w)) objs (us, ms) with
           | Ret (objs', (us', ms')) => r = Ret tt /\ view w' db us' ms' objs'
           | Raise e => r = Raise e /\ w' = w
           end).
Proof.
  intros V. unfold wp, session_commit. rewrite (view_objs _ _ _ _ _ V).
  destruct V as (Hu & Hm & Hs & Hn). rewrite Hu, Hm.
  destruct (flush _ _ _ _) as [[objs' [us' ms']]|e]; [| auto].
  repeat split; simpl; auto. apply lookup_insert_eq.
Qed.

Lemma obj_meeting_wp w db us ms objs i id m d :
  view w db us ms objs -> objs !! i = Some (MeetingRow id m d) ->
  wp (obj_meeting (db, i)) w (fun r w' l => r = Ret (id, m) /\ l = [] /\ w' = w).
Proof.
  intros V Hi. unfold wp, obj_meeting, obj_lookup. simpl.
  rewrite (view_objs _ _ _ _ _ V), Hi. auto.
Qed.

Lemma obj_user_wp w db us ms objs i phone u :
  view w db us ms objs -> objs !! i = Some (UserRow phone u) ->
  wp (obj_user (db, i)) w (fun r w' l => r = Ret u /\ l = [] /\ w' = w).
Proof.
  intros V Hi. unfold wp, obj_user, obj_lookup. simpl.
  rewrite (view_objs _ _ _ _ _ V), Hi. auto.
Qed.

Lemma obj_set_wp w db us ms objs i id m d f :
  view w db us ms objs -> objs !! i = Some (MeetingRow id m d) ->
  wp (obj_set (db, i) f) w
     (fun r w' l =>
        r = Ret tt /\ l = [] /\ view w' db us ms (<[i := MeetingRow id (f m) true]> objs)).
Proof.
  intros V Hi. unfold wp, obj_set, obj_lookup. simpl.
  rewrite (view_objs _ _ _ _ _ V), Hi.
  destruct V as (Hu & Hm & Hs & Hn).
  repeat split; simpl; auto. apply lookup_insert_eq.
Qed.

Lemma session_refresh_meeting_wp w db us ms objs i id m d m' :
  view w db us ms objs -> objs !! i = Some (MeetingRow id m d) -> ms !! id = Some m' ->
  wp (session_refresh (db, i)) w
     (fun r w' l =>
        r = Ret tt /\ l = [] /\ view w' db us ms (<[i := MeetingRow id m' false]> objs)).
Proof.
  intros V Hi Hm'. unfold wp, session_refresh, obj_lookup. simpl.
  rewrite (view_objs _ _ _ _ _ V), Hi.
  destruct V as (Hu & Hm & Hs & Hn). rewrite Hm, Hm'.
  repeat split; simpl; auto. apply lookup_insert_eq.
Qed.

Lemma session_refresh_user_wp w db us ms objs i phone u u' :
  view w db us ms objs -> objs !! i = Some (UserRow phone u) -> us !! phone = Some u' ->
  wp (session_refresh (db, i)) w
     (fun r w' l =>
        r = Ret tt /\ l = [] /\ view w' db us ms (<[i := UserRow phone u']> objs)).
Proof.
  intros V Hi Hu'. unfold wp, session_refresh, obj_lookup. simpl.
  rewrite (view_objs _ _ _ _ _ V), Hi.
  destruct V as (Hu & Hm & Hs & Hn). rewrite Hu, Hu'.
  repeat split; simpl; auto. apply lookup_insert_eq.
Qed.

Lemma session_query_user_wp w db phone :
  wp (session_query_user db phone) w
     (fun r w' l => r = Ret (users w !! phone) /\ l = [] /\ w' = w).
Proof. unfold wp, session_query_user. auto. Qed.

Lemma session_query_meeting_wp w db us ms objs mid :
  view w db us ms objs ->
  wp (session_query_meeting db mid) w
     (fun r w' l =>
        l = []
        /\ match ms !! mid with
           | Some m => r = Ret (Some (db, length objs))
                       /\ view w' db us ms (objs ++ [MeetingRow mid m false])
           | None => r = Ret None /\ w' = w
           end).
Proof.
  intros V. unfold wp, session_query_meeting. rewrite (view_objs _ _ _ _ _ V).
  destruct V as (Hu & Hm & Hs & Hn). rewrite Hm.
  destruct (ms !! mid); repeat split; simpl; auto. apply lookup_insert_eq.
Qed.

(** Closing (or rolling back) a session writes nothing. *)
Lemma session_close_wp w db :
  wp (session_close db) w
     (fun r w' l => r = Ret tt /\ l = [] /\ users w' = users w /\ meetings w' = meetings w
                    /\ points w' = points w).
Proof. unfold wp, session_close, modify. simpl. auto. Qed.

Lemma session_rollback_wp w db :
  wp (session_rollback db) w
     (fun r w' l => r = Ret tt /\ l = [] /\ users w' = users w /\ meetings w' = meetings w
                    /\ points w' = points w).
Proof. unfold wp, session_rollback. simpl. auto. Qed.

(** What is done to one session leaves the objects of another alone. *)
Lemma obj_set_other w r f db us ms objs :
  fst r <> db -> view w db us ms objs ->
  wp (obj_set r f) w (fun _ w' _ => view w' db (users w') (meetings w') objs
                                    /\ users w' = us /\ meetings w' = ms).
Proof.
  intros Hne (Hu & Hm & Hs & Hn). unfold wp, obj_set.
  destruct (obj_lookup r w) as [[| | |id m d]|]; simpl; repeat split; auto.
  simpl. rewrite lookup_insert_ne by auto. auto.
Qed.

Lemma session_close_other w db2 db us ms objs :
  db2 <> db -> view w db us ms objs ->
  wp (session_close db2) w (fun r w' l => r = Ret tt /\ l = [] /\ view w' db us ms objs).
Proof.
  intros Hne (Hu & Hm & Hs & Hn). unfold wp, session_close, modify. simpl.
  repeat split; simpl; auto. rewrite lookup_delete_ne by auto. auto.
Qed.

(** The commit of a session that holds nothing writes nothing. *)
Lemma session_commit_empty w drv utc db2 db us ms objs :
  db2 <> db -> sessions w !! db2 = Some [] -> view w db us ms objs ->
  wp (session_commit drv utc db2) w
     (fun r w' l => r = Ret tt /\ l = [] /\ view w' db us ms objs).
Proof.
  intros Hne H2 (Hu & Hm & Hs & Hn). unfold wp, session_commit, session_objs.
  rewrite H2. simpl. repeat split; simpl; auto.
  rewrite lookup_insert_ne by auto. auto.
Qed.

(** The generated key is not in use. *)
Lemma next_meeting_id_fresh (ms : gmap Z Meeting.t) : ms !! next_meeting_id ms = None.
Proof.
  unfold next_meeting_id.
  assert (H : forall k, is_Some (ms !! k) -> k <= map_fold (fun k _ acc => Z.max k acc) 0 ms).
  { apply (map_fold_weak_ind
             (fun r (m : gmap Z Meeting.t) => forall k, is_Some (m !! k) -> k <= r)).
    - intros k [x Hx]. rewrite lookup_empty in Hx. discriminate.
    - intros i x m r Hi IH k Hk.
      destruct (decide (i = k)) as [->|Hne]; [lia |].
      rewrite lookup_insert_ne in Hk by auto. specialize (IH k Hk). lia. }
  destruct (ms !! (1 + _)) eqn:E; [| reflexivity].
  specialize (H _ (mk_is_Some _ _ E)). lia.
Qed.

(** What is kept of the parameters of an [INSERT]: the three texts as
    the columns keep them, the rest as given. *)
Lemma bind_kwargs_keeps drv kw kept :
  bind_kwargs drv kw = Some kept ->
  Meeting.kw_user_id kept = Meeting.kw_user_id kw
  /\ Meeting.kw_google_event_id kept = Meeting.kw_google_event_id kw
  /\ Meeting.kw_start_time kept = Meeting.kw_start_time kw
  /\ Meeting.kw_end_time kept = Meeting.kw_end_time kw
  /\ bind_text drv (Meeting.kw_title kw) = Some (Meeting.kw_title kept)
  /\ bind_text drv (Meeting.kw_location kw) = Some (Meeting.kw_location kept)
  /\ bind_text drv (Meeting.kw_meeting_type kw) = Some (Meeting.kw_meeting_type kept).
Proof.
  unfold bind_kwargs.
  destruct (bind_text drv (Meeting.kw_title kw)) as [title|]; [| discriminate].
  destruct (bind_text drv (Meeting.kw_location kw)) as [location|]; [| discriminate].
  destruct (bind_text drv (Meeting.kw_meeting_type kw)) as [meeting_type|]; [| discriminate].
  intros [= <-]. repeat split.
Qed.

(** Flushing a session that holds loaded users and one new meeting. *)
Lemma flush_new_meeting drv utcnow objs kw us ms :
  Forall is_user_row objs ->
  flush drv utcnow (objs ++ [NewMeeting kw]) (us, ms)
  = match bind_kwargs drv kw with
    | Some kept =>
        Ret (objs ++ [MeetingRow (next_meeting_id ms) (Meeting.inserted utcnow kept) false],
             (us, <[next_meeting_id ms := Meeting.inserted utcnow kept]> ms))
    | None => Raise (insert_error drv utcnow kw)
    end.
Proof.
  induction 1 as [|o objs Ho _ IH].
  - simpl. destruct (bind_kwargs drv kw); reflexivity.
  - destruct o; try contradiction. simpl in *. rewrite IH.
    destruct (bind_kwargs drv kw); reflexivity.
Qed.

Section SchedulerFacts.

Context (env : Env).

(** [_create_todoist_task] never raises, calls the task service once and
    writes nothing to the tables: the object it assigns to stays in the
    caller's session, waiting for a flush of that session. *)
Lemma _create_todoist_task_wp phone db i w us ms objs id m d :
  view w db us ms objs -> objs !! i = Some (MeetingRow id m d) ->
  wp (_create_todoist_task env phone (db, i)) w
     (fun o w' l =>
        o = Ret tt
        /\ (exists td r, l = [EvCreateTask phone td r])
        /\ exists objs' m' d', view w' db us ms objs'
                               /\ objs' !! i = Some (MeetingRow id m' d')).
Proof.
  intros V Hi. unfold _create_todoist_task.
  wp_steps. wp_use (obj_meeting_wp _ _ _ _ _ _ _ _ _ V Hi).
  intros o w1 l1 (-> & -> & ->). wp_red.
  wp_step. wp_use create_task_wp.
  intros o w2 l2 (r & -> & -> & F2). wp_red.
  pose proof (view_frame _ _ _ _ _ _ F2 V) as V2.
  destruct r as [t|err]; wp_red.
  2:{ wp_steps. split; [reflexivity |]. split; [eauto |]. eauto 6. }
  wp_step. wp_use SessionLocal_wp.
  intros o w3 l3 (-> & -> & F3 & V3'). wp_red.
  pose proof (view_frame _ _ _ _ _ _ F3 V2) as V3.
  assert (Hne : db <> next_session w2) by (destruct V2 as (_ & _ & _ & ?); lia).
  wp_steps.
  eapply wp_conseq.
  { apply wp_and; [apply (obj_set_wp _ _ _ _ _ _ _ _ _ _ V3 Hi) |].
    apply (obj_set_other _ (db, i) _ (next_session w2) _ _ _ Hne V3'). }
  cbv beta. intros o w4 l4 ((-> & -> & V4) & (V4' & _ & _)). wp_red.
  destruct V4' as (_ & _ & Hs4 & _).
  wp_use (session_commit_empty _ (sqlite env) (datetime_utcnow env) _ _ _ _ _
            (not_eq_sym Hne) Hs4 V4).
  intros o w5 l5 (-> & -> & V5).
  wp_use (session_close_other _ _ _ _ _ _ (not_eq_sym Hne) V5).
  intros o w6 l6 (-> & -> & V6). wp_red.
  split; [reflexivity |]. split; [eauto |].
  eexists _, _, _. split; [exact V6 |].
  apply list_lookup_insert_eq. eapply lookup_lt_Some; eauto.
Qed.

(** The user of the request, looked up or inserted. *)
Lemma user_block_wp phone db w us ms :
  view w db us ms [] ->
  wp (match us !! phone with
      | Some u => ret u
      | None =>
          let* r := session_add db (NewUser phone) in
          let* _ := session_commit (sqlite env) (datetime_utcnow env) db in
          let* _ := session_refresh r in
          obj_user r
      end) w
     (fun o w' l =>
        l = [] /\ exists u us' objs',
          o = Ret u /\ view w' db us' ms objs' /\ us' !! phone = Some u
          /\ Forall is_user_row objs').
Proof.
  intros V. destruct (us !! phone) as [u|] eqn:E.
  - wp_steps. split; [reflexivity |]. exists u, us, []. auto.
  - wp_step. wp_use (session_add_wp _ _ _ _ _ (NewUser phone) V).
    intros o w1 l1 (-> & -> & V1). wp_red.
    wp_step. wp_use (session_commit_wp (sqlite env) (datetime_utcnow env) _ _ _ _ _ V1).
    simpl. intros o w2 l2 (-> & -> & V2). wp_red.
    set (u := User.mk _ _ _ _ _ _) in V2.
    wp_step.
    wp_use (session_refresh_user_wp _ _ _ _ _ 0%nat phone u u V2 eq_refl
              (lookup_insert_eq _ _ _)).
    intros o w3 l3 (-> & -> & V3). wp_red. simpl in V3.
    wp_use (obj_user_wp _ _ _ _ _ 0%nat phone u V3 eq_refl).
    intros o w4 l4 (-> & -> & ->).
    split; [reflexivity |]. exists u, (<[phone := u]> us), [UserRow phone u].
    split; [reflexivity |]. split; [exact V3 |].
    split; [apply lookup_insert_eq | repeat constructor].
Qed.

(** Every run of [create_meeting] ends in one of the four ways. *)
Lemma create_meeting_wp phone data w :
  wp (create_meeting env phone data) w (create_meeting_end phone data w).
Proof.
  unfold create_meeting.
  wp_steps. wp_use SessionLocal_wp.
  intros o w1 l1 (-> & -> & F1 & V1). wp_red.
  set (db := next_session w) in *.
  wp_steps. wp_use session_query_user_wp.
  intros o w2 l2 (-> & -> & ->). wp_red.
  wp_step.
  destruct V1 as (U1 & V1'). rewrite U1. pose proof (conj U1 V1') as V1. clear V1'.
  wp_use (user_block_wp phone db w1 _ _ V1).
  intros o w3 l3 (-> & u & us3 & objs3 & -> & V3 & Hu3 & Hobjs3). wp_red.
  wp_steps.
  set (start_time := _parse_datetime _ _ _).
  assert (Hstop : forall e w', meetings w' = meetings w ->
     wp (let* _ := session_rollback db in ret (Failure e)) w'
        (fun o2 w2 l2 =>
           wp (session_close db) w2
              (fun o3 w4 l4 =>
                 match o3 with
                 | Ret _ => create_meeting_end phone data w o2 w4
                              ([EvCreateMeeting phone data] ++ [] ++ (([] ++ [] ++ []) ++ l2) ++ l4)
                 | Raise e0 => create_meeting_end phone data w (Raise e0) w4
                              ([EvCreateMeeting phone data] ++ [] ++ (([] ++ [] ++ []) ++ l2) ++ l4)
                 end))).
  { intros e w' Hw'. wp_step. wp_use session_rollback_wp.
    intros o w4 l4 (-> & -> & _ & M4 & _). wp_red. wp_step.
    wp_use session_close_wp. intros o w5 l5 (-> & -> & _ & M5 & _).
    simpl. constructor. congruence. }
  destruct (timedelta_minutes env _) as [delta|e]; wp_red.
  2:{ apply Hstop. destruct V3 as (_ & ? & _). auto. }
  wp_steps.
  destruct (datetime_add_us start_time delta) as [end_time|e]; wp_red.
  2:{ apply Hstop. destruct V3 as (_ & ? & _). auto. }
  clear Hstop.
  wp_step. wp_use create_event_wp.
  intros o w4 l4 (r & -> & -> & F4). wp_red.
  pose proof (view_frame _ _ _ _ _ _ F4 V3) as V4.
  destruct r as [created|err]; wp_red.
  2:{ wp_steps. wp_use session_close_wp. intros o w5 l5 (-> & -> & _ & M5 & _).
      simpl. constructor. destruct V4 as (_ & ? & _). congruence. }
  wp_step.
  match goal with |- wp (session_add _ ?o) _ _ =>
    wp_use (session_add_wp _ _ _ _ _ o V4) end.
  intros o w5 l5 (-> & -> & V5). wp_red.
  wp_step. wp_use (session_commit_wp (sqlite env) (datetime_utcnow env) _ _ _ _ _ V5).
  rewrite (flush_new_meeting _ _ _ _ _ _ Hobjs3).
  destruct (bind_kwargs _ _) as [kept|] eqn:Ekept.
  2:{ intros o w6 l6 (-> & -> & ->). wp_red.
      wp_step. wp_use session_rollback_wp.
      intros o w6 l6 (-> & -> & _ & M6 & _). wp_red. wp_step.
      wp_use session_close_wp. intros o w7 l7 (-> & -> & _ & M7 & _).
      simpl. econstructor. destruct V5 as (_ & ? & _). congruence. }
  intros o w6 l6 (-> & -> & V6). wp_red.
  set (id := next_meeting_id (meetings w)) in *.
  set (m := Meeting.inserted _ _) in *.
  assert (Hi : (objs3 ++ [MeetingRow id m false]) !! length objs3
               = Some (MeetingRow id m false)).
  { rewrite lookup_app_r by lia. rewrite Nat.sub_diag. reflexivity. }
  wp_step.
  wp_use (session_refresh_meeting_wp _ _ _ _ _ _ _ _ _ m V6 Hi (lookup_insert_eq _ _ _)).
  intros o w7 l7 (-> & -> & V7). wp_red.
  rewrite list_insert_id in V7 by exact Hi.
  wp_step. wp_use (_create_todoist_task_wp phone _ _ _ _ _ _ _ _ _ V7 Hi).
  intros o w8 l8 (-> & (td & r & ->) & objs8 & m8 & d8 & V8 & Hi8). wp_red.
  wp_step. wp_use (obj_meeting_wp _ _ _ _ _ _ _ _ _ V8 Hi8).
  intros o w9 l9 (-> & -> & ->). wp_red.
  wp_step.
  wp_use session_close_wp. intros o w10 l10 (-> & -> & U10 & M10 & _).
  simpl.
  destruct V8 as (U8 & M8 & _).
  destruct (bind_kwargs_keeps _ _ _ Ekept) as (Kuser & Kevent & _).
  eapply (Scheduled phone data w _ created td r id m u);
    [apply next_meeting_id_fresh | congruence | reflexivity
    | simpl; rewrite Kevent; reflexivity | reflexivity | congruence
    | simpl; rewrite Kuser; reflexivity].
Qed.

Lemma missing_fields_lacking ai_result : missing_fields ai_result = lacking_fields ai_result.
Proof.
  unfold missing_fields, lacking_fields, lacks, required_fields. simpl.
  destruct (truthy (dict_get ai_result "date")), (truthy (dict_get ai_result "time"));
    reflexivity.
Qed.

(** [handle_schedule_request]: either fields are lacking and nothing is
    done but asking for them, or the orchestrator runs and its result
    decides the reply. *)
Lemma handle_schedule_request_wp phone ai_result enhanced_context w :
  wp (handle_schedule_request env phone ai_result enhanced_context) w
     (fun o w' l =>
        (lacking_fields ai_result <> [] /\ w' = w /\ l = []
         /\ o = Ret (ask_reply (truthy (dict_get enhanced_context "meeting_history"))
                               (lacking_fields ai_result)))
        \/ (lacking_fields ai_result = []
            /\ exists r, create_meeting_end phone ai_result w (Ret r) w' l
                 /\ o = Ret (match r with
                             | Success _ => scheduled_reply env ai_result
                             | Failure error => failed_reply error
                             end))).
Proof.
  unfold handle_schedule_request. rewrite missing_fields_lacking.
  destruct (lacking_fields ai_result) as [|f fs] eqn:E; simpl negb; cbv iota.
  - (* the orchestrator runs *)
    wp_steps. wp_use create_meeting_wp.
    intros o w1 l1 H. destruct H; wp_red; wp_steps; right;
      (split; [reflexivity |]);
      (eexists; split; [rewrite ?app_nil_r; econstructor; eauto | reflexivity]).
  - unfold ask_reply.
    destruct (truthy (dict_get enhanced_context "meeting_history")); wp_steps; left;
      (split; [discriminate | auto]).
Qed.

Lemma maybe_delete_event_wp (c : bool) phone ev w db us ms objs :
  view w db us ms objs ->
  wp (if c then let* _ := delete_event env phone ev in ret tt else ret tt) w
     (fun o w' l =>
        o = Ret tt /\ view w' db us ms objs
        /\ if c then exists r, l = [EvDeleteEvent phone ev r] else l = []).
Proof.
  intros V. destruct c; [| wp_steps; auto].
  wp_step. wp_use delete_event_wp. intros o w1 l1 (r & -> & -> & F). wp_red.
  wp_steps. split; [reflexivity |]. split; [eapply view_frame; eauto | eauto].
Qed.

Lemma maybe_delete_task_wp (c : bool) phone task w db us ms objs :
  view w db us ms objs ->
  wp (if c then let* _ := delete_task env phone task in ret tt else ret tt) w
     (fun o w' l =>
        o = Ret tt /\ view w' db us ms objs
        /\ if c then exists r, l = [EvDeleteTask phone task r] else l = []).
Proof.
  intros V. destruct c; [| wp_steps; auto].
  wp_step. wp_use delete_task_wp. intros o w1 l1 (r & -> & -> & F). wp_red.
  wp_steps. split; [reflexivity |]. split; [eapply view_frame; eauto | eauto].
Qed.

(** [cancel_meeting]: the row is found by its key alone; the deletions
    are asked of the services under the caller's phone number, and their
    results do not matter. *)
Lemma cancel_meeting_wp phone mid w :
  wp (cancel_meeting env phone mid) w
     (fun o w' l =>
        users w' = users w
        /\ match meetings w !! mid with
           | None =>
               o = Ret (Failure "Meeting not found") /\ meetings w' = meetings w
               /\ l = [EvCancelMeeting phone mid]
           | Some m =>
               o = Ret (Success "Meeting cancelled successfully")
               /\ meetings w' = <[mid := Meeting.set_status "cancelled" m]> (meetings w)
               /\ exists l1 l2,
                    l = EvCancelMeeting phone mid :: l1 ++ l2
                    /\ (if opt_truthy (Meeting.google_event_id m)
                        then exists r,
                            l1 = [EvDeleteEvent phone (default "" (Meeting.google_event_id m)) r]
                        else l1 = [])
                    /\ (if opt_truthy (Meeting.todoist_task_id m)
                        then exists r,
                            l2 = [EvDeleteTask phone (default "" (Meeting.todoist_task_id m)) r]
                        else l2 = [])
           end).
Proof.
  unfold cancel_meeting.
  wp_steps. wp_use SessionLocal_wp.
  intros o w1 l1 (-> & -> & F1 & V1). wp_red.
  set (db := next_session w) in *.
  wp_steps. wp_use (session_query_meeting_wp _ _ _ _ _ mid V1).
  intros o w2 l2 (-> & H2).
  destruct (meetings w !! mid) as [m|] eqn:Em.
  2:{ destruct H2 as (-> & ->). wp_red. wp_steps.
      wp_use session_close_wp. intros o w3 l3 (-> & -> & U3 & M3 & _).
      destruct V1 as (U1 & M1 & _). simpl. repeat split; congruence. }
  destruct H2 as (-> & V2). wp_red. simpl in V2.
  assert (Hi : [MeetingRow mid m false] !! 0%nat = Some (MeetingRow mid m false))
    by reflexivity.
  wp_step. wp_use (obj_meeting_wp _ _ _ _ _ _ _ _ _ V2 Hi).
  intros o w3 l3 (-> & -> & ->). wp_red.
  wp_step. wp_use (maybe_delete_event_wp (opt_truthy (Meeting.google_event_id m)) phone
                     (default "" (Meeting.google_event_id m)) _ _ _ _ _ V2).
  intros o w4 l4 (-> & V4 & Hl4). wp_red.
  wp_step. wp_use (maybe_delete_task_wp (opt_truthy (Meeting.todoist_task_id m)) phone
                     (default "" (Meeting.todoist_task_id m)) _ _ _ _ _ V4).
  intros o w5 l5 (-> & V5 & Hl5). wp_red.
  wp_step. wp_use (obj_set_wp _ _ _ _ _ _ _ _ _ (Meeting.set_status "cancelled") V5 Hi).
  intros o w6 l6 (-> & -> & V6). wp_red. simpl in V6.
  wp_step. wp_use (session_commit_wp (sqlite env) (datetime_utcnow env) _ _ _ _ _ V6).
  simpl. intros o w7 l7 (-> & -> & V7). wp_red.
  wp_steps. wp_use session_close_wp. intros o w8 l8 (-> & -> & U8 & M8 & _).
  destruct V7 as (U7 & M7 & _).
  split; [congruence |]. split; [reflexivity |]. split; [congruence |].
  exists l4, l5. split; [| auto].
  simpl. rewrite !app_nil_r. reflexivity.
Qed.

End SchedulerFacts.

(* ===================================================================== *)
(** * Creating a meeting                                                  *)
(* ===================================================================== *)

(** The three components of a run. *)
Lemma run_eta {A} (m : M A) (w : World) :
  m w = (fst (fst (m w)), snd (fst (m w)), snd (m w)).
Proof. destruct (m w) as [[o w'] l]. reflexivity. Qed.

(** C1. When the calendar service created the event and the task service
    then failed, the run has stored exactly one new meeting: its status
    is [scheduled], its calendar reference is the one the calendar
    returned and its task reference is [NULL]; the reply is the
    confirmation of the booking. *)
Theorem task_failure_keeps_meeting_scheduled
    env phone ai_result enhanced_context w o w' l p ed created p' td err :
  handle_schedule_request env phone ai_result enhanced_context w = (o, w', l) ->
  In (EvCreateEvent p ed (Success created)) l ->
  In (EvCreateTask p' td (Failure err)) l ->
  exists id m,
    meetings w !! id = None /\ meetings w' = <[id := m]> (meetings w)
    /\ Meeting.status m = "scheduled"
    /\ Meeting.google_event_id m = Some (event_id created)
    /\ Meeting.todoist_task_id m = None
    /\ o = Ret (scheduled_reply env ai_result).
Proof.
  intros Hrun Hcal Htask.
  pose proof (wp_run _ _ _ _ _ _ Hrun
                (handle_schedule_request_wp env phone ai_result enhanced_context w)) as H.
  destruct H as [(_ & _ & -> & _) | (_ & r & Hend & ->)]; [destruct Hcal |].
  inversion Hend; subst; simpl in Hcal, Htask.
  - destruct Hcal as [Hc | []]. discriminate Hc.
  - destruct Hcal as [Hc | [Hc | []]]; discriminate Hc.
  - destruct Htask as [Hc | [Hc | []]]; discriminate Hc.
  - destruct Hcal as [Hc | [Hc | [Hc | []]]]; try discriminate Hc.
    injection Hc as _ _ <-.
    exists id, m. repeat split; assumption.
Qed.

Lemma task_failure_keeps_meeting_scheduled_witness :
  let run := handle_schedule_request tasks_down alice_phone schedule_intent ∅ two_users in
  exists id m,
    meetings two_users !! id = None
    /\ meetings (snd (fst run)) = <[id := m]> (meetings two_users)
    /\ Meeting.status m = "scheduled"
    /\ Meeting.google_event_id m = Some "evt-1"
    /\ Meeting.todoist_task_id m = None
    /\ fst (fst run) = Ret (scheduled_reply tasks_down schedule_intent).
Proof.
  intros run.
  refine (task_failure_keeps_meeting_scheduled tasks_down alice_phone schedule_intent ∅
            two_users _ _ _ alice_phone
            (mkEventData (PStr "Meeting")
               (mkdatetime (mkdate 2025 3 10) (mktime 15 30 0 0))
               (mkdatetime (mkdate 2025 3 10) (mktime 16 0 0 0))
               PNone (PStr "UTC") (PList []))
            (mkCreatedEvent "evt-1" None) alice_phone
            (mkTaskData "📅 Meeting: Meeting"
               ("Meeting scheduled for 2025-03-10 15:30" +:+ nl +:+ "Type: in-person")
               (mkdate 2025 3 10) 2 ["meeting"; "scheduled"])
            "Todoist API error: 503 - Service Unavailable"
            (run_eta _ _) _ _).
  - vm_compute. right. left. reflexivity.
  - vm_compute. right. right. left. reflexivity.
Defined.

(** C2. When the calendar service failed, no meeting is stored and the
    reply gives the reason the calendar service gave. *)
Theorem calendar_failure_is_terminal
    env phone ai_result enhanced_context w o w' l p ed err :
  handle_schedule_request env phone ai_result enhanced_context w = (o, w', l) ->
  In (EvCreateEvent p ed (Failure err)) l ->
  meetings w' = meetings w /\ o = Ret (failed_reply err).
Proof.
  intros Hrun Hcal.
  pose proof (wp_run _ _ _ _ _ _ Hrun
                (handle_schedule_request_wp env phone ai_result enhanced_context w)) as H.
  destruct H as [(_ & _ & -> & _) | (_ & r & Hend & ->)]; [destruct Hcal |].
  inversion Hend; subst; simpl in Hcal.
  - destruct Hcal as [Hc | []]. discriminate Hc.
  - destruct Hcal as [Hc | [Hc | []]]; try discriminate Hc.
    injection Hc as _ _ <-. auto.
  - destruct Hcal as [Hc | [Hc | []]]; discriminate Hc.
  - destruct Hcal as [Hc | [Hc | [Hc | []]]]; discriminate Hc.
Qed.

Lemma calendar_failure_is_terminal_witness :
  let run := handle_schedule_request calendar_down alice_phone schedule_intent ∅ two_users in
  meetings (snd (fst run)) = meetings two_users
  /\ fst (fst run) = Ret (failed_reply "Google Calendar API error: quota exceeded").
Proof.
  intros run.
  refine (calendar_failure_is_terminal calendar_down alice_phone schedule_intent ∅
            two_users _ _ _ alice_phone
            (mkEventData (PStr "Meeting")
               (mkdatetime (mkdate 2025 3 10) (mktime 15 30 0 0))
               (mkdatetime (mkdate 2025 3 10) (mktime 16 0 0 0))
               PNone (PStr "UTC") (PList []))
            "Google Calendar API error: quota exceeded"
            (run_eta _ _) _).
  vm_compute. right. left. reflexivity.
Defined.

(** When both services succeeded the stored meeting still has no task
    reference: the assignment made by [_create_todoist_task] is committed
    through a session that does not hold the object, and the session that
    holds it is closed without another commit. *)
Lemma created_task_reference_is_not_stored
    env phone ai_result enhanced_context w o w' l p ed created p' td task :
  handle_schedule_request env phone ai_result enhanced_context w = (o, w', l) ->
  In (EvCreateEvent p ed (Success created)) l ->
  In (EvCreateTask p' td (Success task)) l ->
  exists id m,
    meetings w !! id = None /\ meetings w' = <[id := m]> (meetings w)
    /\ Meeting.todoist_task_id m = None.
Proof.
  intros Hrun Hcal Htask.
  pose proof (wp_run _ _ _ _ _ _ Hrun
                (handle_schedule_request_wp env phone ai_result enhanced_context w)) as H.
  destruct H as [(_ & _ & -> & _) | (_ & r & Hend & ->)]; [destruct Hcal |].
  inversion Hend; subst; simpl in Hcal, Htask.
  - destruct Hcal as [Hc | []]. discriminate Hc.
  - destruct Hcal as [Hc | [Hc | []]]; discriminate Hc.
  - destruct Htask as [Hc | [Hc | []]]; discriminate Hc.
  - exists id, m. auto.
Qed.

(** C8 fails on the code. Alice asks for a meeting; the calendar creates
    [evt-1] and Todoist creates [task-9]; the reply confirms the booking;
    the row stored for the meeting has the calendar reference and no task
    reference. *)
Theorem task_reference_is_lost :
  let run := handle_schedule_request all_fine alice_phone schedule_intent ∅ two_users in
  fst (fst run) = Ret (scheduled_reply all_fine schedule_intent)
  /\ (exists td, snd run
        = [EvCreateMeeting alice_phone schedule_intent;
           EvCreateEvent alice_phone
             (mkEventData (PStr "Meeting")
                (mkdatetime (mkdate 2025 3 10) (mktime 15 30 0 0))
                (mkdatetime (mkdate 2025 3 10) (mktime 16 0 0 0))
                PNone (PStr "UTC") (PList []))
             (Success (mkCreatedEvent "evt-1" None));
           EvCreateTask alice_phone td (Success (mkCreatedTask "task-9" None))])
  /\ exists m, meetings (snd (fst run)) = {[ 1 := m ]}
               /\ Meeting.status m = "scheduled"
               /\ Meeting.google_event_id m = Some "evt-1"
               /\ Meeting.todoist_task_id m = None.
Proof.
  intros run. split; [vm_compute; reflexivity |].
  split; [eexists; vm_compute; reflexivity |].
  eexists. split; [vm_compute; reflexivity |]. repeat split.
Qed.

(** A [null] duration stops the run before the calendar is asked: the
    default of 30 minutes is for an absent entry only. *)
Example null_duration_stops_early :
  handle_schedule_request all_fine alice_phone
    (<["duration_minutes" := PNone]> schedule_intent) ∅ two_users
  = (Ret (failed_reply "unsupported type for timedelta minutes component: NoneType"),
     snd (fst (handle_schedule_request all_fine alice_phone
                 (<["duration_minutes" := PNone]> schedule_intent) ∅ two_users)),
     [EvCreateMeeting alice_phone (<["duration_minutes" := PNone]> schedule_intent)]).
Proof. vm_compute. reflexivity. Qed.

(* ===================================================================== *)
(** * Asking for the lacking fields                                       *)
(* ===================================================================== *)

(** C4. When the date, the time or both are lacking, the reply names
    exactly the lacking fields, [date] before [time], joined by a comma;
    the world is unchanged and the trace is empty: the orchestrator was
    not entered and no service was called. *)
Theorem lacking_fields_are_asked_for env phone ai_result enhanced_context w :
  lacks ai_result "date" = true \/ lacks ai_result "time" = true ->
  handle_schedule_request env phone ai_result enhanced_context w
  = (Ret (ask_reply (truthy (dict_get enhanced_context "meeting_history"))
                    (lacking_fields ai_result)), w, [])
  /\ str_join ", " (lacking_fields ai_result)
     = match lacks ai_result "date", lacks ai_result "time" with
       | true, true => "date, time"
       | true, false => "date"
       | false, true => "time"
       | false, false => ""
       end.
Proof.
  intros Hlack. split.
  - pose proof (handle_schedule_request_wp env phone ai_result enhanced_context w) as H.
    unfold wp in H.
    destruct (handle_schedule_request env phone ai_result enhanced_context w) as [[o w'] l].
    destruct H as [(_ & -> & -> & ->) | (Hnone & _)]; [reflexivity |].
    exfalso. unfold lacking_fields in Hnone.
    destruct Hlack as [E | E]; rewrite E in Hnone;
      [discriminate | destruct (lacks ai_result "date"); discriminate].
  - unfold lacking_fields.
    destruct (lacks ai_result "date"), (lacks ai_result "time"); reflexivity.
Qed.

Lemma lacking_fields_are_asked_for_witness :
  handle_schedule_request all_fine alice_phone dateless_intent ∅ two_users
  = (Ret "I'd be happy to schedule that meeting! Could you please provide the date?",
     two_users, []).
Proof.
  exact (proj1 (lacking_fields_are_asked_for all_fine alice_phone dateless_intent ∅
                  two_users (or_introl eq_refl))).
Defined.

(** An absent entry and a [None] entry are both lacking. *)
Lemma absent_or_null_lacks (ai_result : gmap string pyval) (field : string) :
  ai_result !! field = None \/ ai_result !! field = Some PNone ->
  lacks ai_result field = true.
Proof. unfold lacks, dict_get. intros [-> | ->]; reflexivity. Qed.

(* ===================================================================== *)
(** * Cancelling a meeting                                                *)
(* ===================================================================== *)

Lemma set_status_twice (s : string) (m : Meeting.t) :
  Meeting.set_status s (Meeting.set_status s m) = Meeting.set_status s m.
Proof. reflexivity. Qed.

(** C5. Cancelling a stored meeting succeeds and leaves it [cancelled],
    in every environment, that is whatever the calendar and the task
    service answer to the deletions; cancelling it again succeeds and
    changes nothing. *)
Theorem cancel_is_idempotent_and_never_blocked
    env phone meeting_id w m o w' l phone2 o2 w'' l2 :
  meetings w !! meeting_id = Some m ->
  cancel_meeting env phone meeting_id w = (o, w', l) ->
  cancel_meeting env phone2 meeting_id w' = (o2, w'', l2) ->
  o = Ret (Success "Meeting cancelled successfully")
  /\ meetings w' = <[meeting_id := Meeting.set_status "cancelled" m]> (meetings w)
  /\ Meeting.status (Meeting.set_status "cancelled" m) = "cancelled"
  /\ o2 = Ret (Success "Meeting cancelled successfully")
  /\ meetings w'' = meetings w'.
Proof.
  intros Hm Hrun1 Hrun2.
  pose proof (wp_run _ _ _ _ _ _ Hrun1 (cancel_meeting_wp env phone meeting_id w)) as H1.
  rewrite Hm in H1. destruct H1 as (_ & -> & Hw' & _).
  pose proof (wp_run _ _ _ _ _ _ Hrun2 (cancel_meeting_wp env phone2 meeting_id w')) as H2.
  rewrite Hw', lookup_insert_eq in H2. destruct H2 as (_ & -> & Hw'' & _).
  repeat split; auto.
  rewrite Hw'', Hw', set_status_twice. apply insert_insert_eq.
Qed.

Lemma cancel_is_idempotent_and_never_blocked_witness :
  let first := cancel_meeting deletions_fail bob_phone 7 bob_has_a_meeting in
  let again := cancel_meeting deletions_fail bob_phone 7 (snd (fst first)) in
  fst (fst first) = Ret (Success "Meeting cancelled successfully")
  /\ meetings (snd (fst first))
     = <[7 := Meeting.set_status "cancelled" bobs_meeting]> (meetings bob_has_a_meeting)
  /\ Meeting.status (Meeting.set_status "cancelled" bobs_meeting) = "cancelled"
  /\ fst (fst again) = Ret (Success "Meeting cancelled successfully")
  /\ meetings (snd (fst again)) = meetings (snd (fst first)).
Proof.
  intros first again.
  exact (cancel_is_idempotent_and_never_blocked deletions_fail bob_phone 7
           bob_has_a_meeting bobs_meeting _ _ _ bob_phone _ _ _
           eq_refl (run_eta _ _) (run_eta _ _)).
Defined.

(** In that run both deletions were tried, and both failed. *)
Example cancel_with_failing_deletions :
  snd (cancel_meeting deletions_fail bob_phone 7 bob_has_a_meeting)
  = [EvCancelMeeting bob_phone 7;
     EvDeleteEvent bob_phone "evt-bob"
       (Failure "Google Calendar API error: event not found");
     EvDeleteTask bob_phone "task-bob" (Failure "Todoist API error: 404 - Not Found")].
Proof. vm_compute. reflexivity. Qed.

(** C10 fails on the code. Alice cancels meeting 7, which is Bob's: the
    row is found by its key alone, it is set to [cancelled], and the
    deletions of Bob's event and task are asked under Alice's number. *)
Theorem cancel_reaches_another_users_meeting :
  let run := cancel_meeting all_fine alice_phone 7 bob_has_a_meeting in
  users bob_has_a_meeting !! alice_phone = Some alice
  /\ meetings bob_has_a_meeting !! 7 = Some bobs_meeting
  /\ Meeting.user_id bobs_meeting <> User.id alice
  /\ fst (fst run) = Ret (Success "Meeting cancelled successfully")
  /\ meetings (snd (fst run)) !! 7 = Some (Meeting.set_status "cancelled" bobs_meeting)
  /\ snd run = [EvCancelMeeting alice_phone 7;
                EvDeleteEvent alice_phone "evt-bob" (Success tt);
                EvDeleteTask alice_phone "task-bob" (Success tt)].
Proof.
  intros run. repeat split; try (vm_compute; reflexivity). discriminate.
Qed.

(** The same for every world: the owner of the meeting plays no part in
    what [cancel_meeting] does. *)
Lemma cancel_does_not_check_the_owner env phone meeting_id w m o w' l :
  meetings w !! meeting_id = Some m ->
  cancel_meeting env phone meeting_id w = (o, w', l) ->
  o = Ret (Success "Meeting cancelled successfully")
  /\ meetings w' !! meeting_id = Some (Meeting.set_status "cancelled" m).
Proof.
  intros Hm Hrun.
  pose proof (wp_run _ _ _ _ _ _ Hrun (cancel_meeting_wp env phone meeting_id w)) as H.
  rewrite Hm in H. destruct H as (_ & -> & -> & _).
  split; [reflexivity | apply lookup_insert_eq].
Qed.

(* ===================================================================== *)
(** * Retrieving the context of a user                                    *)
(* ===================================================================== *)

Lemma Forall_insert_by {A} (P : A -> Prop) (before : A -> A -> bool) (x : A) (l : list A) :
  P x -> Forall P l -> Forall P (insert_by before x l).
Proof.
  intros Hx. induction 1 as [|y l Hy Hl IH]; simpl.
  - repeat constructor. exact Hx.
  - destruct (before x y); repeat constructor; auto.
Qed.

Lemma Forall_sort_by {A} (P : A -> Prop) (before : A -> A -> bool) (l : list A) :
  Forall P l -> Forall P (sort_by before l).
Proof.
  unfold sort_by. induction 1 as [|y l Hy Hl IH]; simpl; [constructor |].
  apply Forall_insert_by; assumption.
Qed.

Section RagFacts.

Context (env : Env).

(** What a search returns was stored, and was stored for this user. *)
Lemma qdrant_search_wp query_vector phone_number limit w :
  wp (qdrant_search env query_vector phone_number limit) w
     (fun o w' l =>
        l = [] /\ points w' = points w
        /\ match o with
           | Ret rs => Forall (own_turn w phone_number) rs
           | Raise _ => True
           end).
Proof.
  unfold qdrant_search. wp_steps.
  destruct (qdrant_fault env (tick w)); wp_steps; [auto |].
  split; [reflexivity |]. split; [reflexivity |].
  apply Forall_take, Forall_sort_by, Forall_forall.
  intros [p s] Hin. apply list_elem_of_In, in_map_iff in Hin.
  destruct Hin as (q & [= <- <-] & Hq). apply filter_In in Hq as [Hq Hphone].
  split; [exact Hq | apply String.eqb_eq, Hphone].
Qed.

Lemma get_embedding_wp text w :
  wp (get_embedding env text) w
     (fun o w' l => l = [] /\ points w' = points w /\ exists v, o = Ret v).
Proof.
  unfold get_embedding. wp_steps.
  destruct (openai_embedding env (tick w) text); wp_steps; eauto.
Qed.

Lemma get_relevant_context_wp phone_number message limit w :
  wp (get_relevant_context env phone_number message limit) w
     (fun o w' l =>
        l = [] /\ points w' = points w
        /\ exists rs, o = Ret (map hit_of rs) /\ Forall (own_turn w phone_number) rs).
Proof.
  unfold get_relevant_context. wp_steps. wp_use get_embedding_wp.
  intros o w1 l1 (-> & P1 & v & ->). wp_red.
  destruct (is_nil v).
  { wp_steps. split; [reflexivity |]. split; [exact P1 |]. exists []. auto. }
  wp_step. wp_use qdrant_search_wp.
  intros o w2 l2 (-> & P2 & H). unfold own_turn in H. rewrite P1 in H.
  destruct o as [rs|e]; wp_red; wp_steps.
  - split; [reflexivity |]. split; [congruence |]. exists rs. auto.
  - split; [reflexivity |]. split; [congruence |]. exists []. auto.
Qed.

End RagFacts.

(** C6. Every entry [get_relevant_context] returns comes from a stored
    turn whose payload carries the phone number asked for: no turn of
    another user is returned, whatever turns are stored. *)
Theorem context_is_the_users_own env phone_number message limit w o w' l :
  get_relevant_context env phone_number message limit w = (o, w', l) ->
  exists rs,
    o = Ret (map hit_of rs)
    /\ Forall (fun r => In (fst r) (points w)
                        /\ pl_phone_number (pt_payload (fst r)) = phone_number) rs.
Proof.
  intros Hrun.
  pose proof (wp_run _ _ _ _ _ _ Hrun
                (get_relevant_context_wp env phone_number message limit w)) as H.
  destruct H as (_ & _ & rs & -> & Hrs). exists rs. split; [reflexivity | exact Hrs].
Qed.

Lemma context_is_the_users_own_witness :
  exists rs,
    fst (fst (get_relevant_context all_fine alice_phone "when is lunch?" 5 both_talked))
    = Ret (map hit_of rs)
    /\ Forall (fun r => In (fst r) (points both_talked)
                        /\ pl_phone_number (pt_payload (fst r)) = alice_phone) rs.
Proof.
  exact (context_is_the_users_own all_fine alice_phone "when is lunch?" 5 both_talked
           _ _ _ (run_eta _ _)).
Defined.

(** With turns of both users stored, Alice gets her own turn only. *)
Example alice_gets_her_turn_only :
  fst (fst (get_relevant_context all_fine alice_phone "when is lunch?" 5 both_talked))
  = Ret [mkContextHit "lunch with Carol on Friday" (PDict ∅) "2025-03-01T09:00:00"
                      (S754_zero false)].
Proof. vm_compute. reflexivity. Qed.

(* ===================================================================== *)
(** * Handling a message                                                  *)
(* ===================================================================== *)

Section MessageFacts.

Context (env : Env).

(** [classify_intent] never raises; when the classifier fails it answers
    [intent = other] with confidence 0.0. *)
Lemma classify_intent_wp message w :
  wp (classify_intent env message) w
     (fun o w' l =>
        l = [] /\ users w' = users w /\ meetings w' = meetings w
        /\ (exists v, o = Ret v)
        /\ (classifier_fails env (tick w) message -> exists e, o = Ret (fallback_intent e))).
Proof.
  unfold classify_intent, classifier_fails, fallback_intent. wp_steps.
  destruct (openai_classify env (tick w) message) as [[content|]|e]; wp_red.
  - wp_steps. destruct (json_loads env content) as [v|e]; wp_red; wp_steps.
    + repeat split; eauto. intros [e He]. discriminate He.
    + repeat split; eauto.
  - wp_steps. repeat split; eauto.
  - wp_steps. repeat split; eauto.
Qed.

(** The history query writes nothing, whether it can be built or not. *)
Lemma get_user_meeting_history_wp phone days w :
  wp (get_user_meeting_history env phone days) w
     (fun o w' l => l = [] /\ users w' = users w /\ meetings w' = meetings w).
Proof.
  unfold get_user_meeting_history. wp_steps. wp_use SessionLocal_wp.
  intros o w1 l1 (-> & -> & (U1 & M1 & _) & _). wp_red.
  wp_steps.
  destruct (datetime_add_us _ _) as [cutoff|e]; wp_red.
  - wp_steps. destruct implicit_join as [on|e]; wp_red; wp_steps;
      wp_use session_close_wp; intros o w2 l2 (-> & -> & U2 & M2 & P2);
      repeat split; congruence.
  - wp_use session_close_wp. intros o w2 l2 (-> & -> & U2 & M2 & P2).
    repeat split; congruence.
Qed.

(** As no foreign key is declared it cannot be built: it raises. *)
Lemma get_user_meeting_history_raises phone days w :
  exists e, fst (fst (get_user_meeting_history env phone days w)) = Raise e.
Proof.
  unfold get_user_meeting_history, bind, try_finally, SessionLocal, clock, lift,
    session_close, modify. simpl.
  destruct (datetime_add_us _ _); simpl; eauto.
Qed.

Lemma get_embedding_quiet text w :
  wp (get_embedding env text) w
     (fun o w' l => l = [] /\ users w' = users w /\ meetings w' = meetings w
                    /\ exists v, o = Ret v).
Proof.
  unfold get_embedding. wp_steps.
  destruct (openai_embedding env (tick w) text); wp_steps; eauto.
Qed.

Lemma get_relevant_context_quiet phone message limit w :
  wp (get_relevant_context env phone message limit) w
     (fun o w' l => l = [] /\ users w' = users w /\ meetings w' = meetings w
                    /\ exists hits, o = Ret hits).
Proof.
  unfold get_relevant_context. wp_steps. wp_use get_embedding_quiet.
  intros o w1 l1 (-> & U1 & M1 & v & ->). wp_red.
  destruct (is_nil v); [wp_steps; eauto |].
  unfold qdrant_search. wp_steps.
  destruct (qdrant_fault env (tick w1)); wp_steps; simpl; eauto 6.
Qed.

(** [enhance_ai_context] never raises and writes nothing. *)
Lemma enhance_ai_context_wp phone message w :
  wp (enhance_ai_context env phone message) w
     (fun o w' l => l = [] /\ users w' = users w /\ meetings w' = meetings w
                    /\ exists context, o = Ret context).
Proof.
  unfold enhance_ai_context. wp_steps. wp_use get_relevant_context_quiet.
  intros o w1 l1 (-> & U1 & M1 & hits & ->). wp_red.
  wp_step. wp_use get_user_meeting_history_wp.
  intros o w2 l2 (-> & U2 & M2).
  destruct o as [history|e]; wp_red.
  - wp_step. wp_use SessionLocal_wp.
    intros o w3 l3 (-> & -> & (U3 & M3 & _) & _). wp_red.
    wp_steps. wp_use session_close_wp.
    intros o w4 l4 (-> & -> & U4 & M4 & _). wp_red.
    wp_steps. repeat split; try congruence. eauto.
  - wp_steps. repeat split; try congruence. eauto.
Qed.

(** With the history query raising, the enhanced context is the short
    one of the [except] branch. *)
Example enhanced_context_is_short :
  fst (fst (enhance_ai_context all_fine alice_phone "hello" bob_has_a_meeting))
  = Ret {[ "current_message" := PStr "hello"; "user_phone" := PStr alice_phone ]}.
Proof. vm_compute. reflexivity. Qed.

Lemma store_conversation_context_wp phone message context w :
  wp (store_conversation_context env phone message context) w
     (fun o w' l => l = [] /\ users w' = users w /\ meetings w' = meetings w
                    /\ o = Ret tt).
Proof.
  unfold store_conversation_context. wp_steps. wp_use get_embedding_quiet.
  intros o w1 l1 (-> & U1 & M1 & v & ->). wp_red.
  destruct (is_nil v); [wp_steps; auto |].
  wp_steps. unfold qdrant_upsert. wp_steps.
  destruct (qdrant_fault env (tick w1)); wp_steps; simpl; auto.
Qed.

(** [generate_contextual_response] never raises; its reply is empty only
    when the generator's text is blank. *)
Lemma generate_contextual_response_wp context w :
  wp (generate_contextual_response env context) w
     (fun o w' l =>
        l = [] /\ users w' = users w /\ meetings w' = meetings w
        /\ exists reply, o = Ret reply
             /\ (reply = "" -> generator_is_blank env (tick w) context)).
Proof.
  unfold generate_contextual_response, generator_is_blank. wp_steps.
  destruct (context !! "current_message"); wp_steps.
  2:{ repeat split; auto. eexists. split; [reflexivity | discriminate]. }
  destruct (openai_generate env (tick w) context) as [[content|]|e]; wp_steps; simpl;
    repeat split; auto; eexists; (split; [reflexivity |]); try discriminate.
  intros E. exists content. auto.
Qed.

Lemma fallback_intent_is_other e :
  as_dict (fallback_intent e)
  = Ret {[ "intent" := PStr "other"; "confidence" := PFloat (S754_zero false);
           "error" := PStr e ]}
  /\ dict_get {[ "intent" := PStr "other"; "confidence" := PFloat (S754_zero false);
                "error" := PStr e ]} "intent" = PStr "other".
Proof. split; reflexivity. Qed.

(** A message on which the classifier fails: no meeting is created, no
    service of the orchestrator is called, a reply is returned, and the
    reply is empty only when the generator's text is blank. *)
Lemma classifier_failure_wp from_number message w :
  (forall t, classifier_fails env t message) ->
  wp (process_whatsapp_message env from_number message) w
     (fun o w' l =>
        l = [] /\ users w' = users w /\ meetings w' = meetings w
        /\ exists reply, o = Ret reply
             /\ (reply = "" -> exists t context, generator_is_blank env t context)).
Proof.
  intros Hfail. unfold process_whatsapp_message.
  wp_steps. wp_use enhance_ai_context_wp.
  intros o w1 l1 (-> & U1 & M1 & context & ->). wp_red.
  wp_step. wp_use classify_intent_wp.
  intros o w2 l2 (-> & U2 & M2 & _ & H). destruct (H (Hfail _)) as [e ->]. wp_red.
  wp_step. wp_use store_conversation_context_wp.
  intros o w3 l3 (-> & U3 & M3 & ->). wp_red.
  wp_step. destruct (fallback_intent_is_other e) as [-> Hintent]. wp_red.
  wp_step. rewrite Hintent. simpl py_eq_str. cbv iota.
  wp_use generate_contextual_response_wp.
  intros o w4 l4 (-> & U4 & M4 & reply & -> & Hblank).
  repeat split; try congruence. exists reply. split; [reflexivity |]. eauto.
Qed.

(** The replies of the four handlers are never empty. *)
Lemma handle_cancel_request_wp phone ai ctx w :
  wp (handle_cancel_request env phone ai ctx) w
     (fun o w' l => l = [] /\ w' = w /\ non_empty o).
Proof.
  unfold handle_cancel_request.
  destruct (truthy _); [| wp_steps; repeat split; discriminate].
  wp_steps. destruct (upcoming_of _) as [up|e]; wp_red; [| simpl; auto].
  destruct (negb (is_nil up)); [| wp_steps; repeat split; discriminate].
  wp_steps. destruct (omap _ _) as [lines|e]; wp_red; [| simpl; auto].
  wp_steps. repeat split; discriminate.
Qed.

Lemma handle_reschedule_request_wp phone ai ctx w :
  wp (handle_reschedule_request env phone ai ctx) w
     (fun o w' l => l = [] /\ w' = w /\ non_empty o).
Proof.
  unfold handle_reschedule_request.
  destruct (truthy _); [| wp_steps; repeat split; discriminate].
  wp_steps. destruct (upcoming_of _) as [up|e]; wp_red; [| simpl; auto].
  destruct (negb (is_nil up)); [| wp_steps; repeat split; discriminate].
  wp_steps. destruct (omap _ _) as [lines|e]; wp_red; [| simpl; auto].
  wp_steps. repeat split; discriminate.
Qed.

Lemma handle_info_request_wp phone ai ctx w :
  wp (handle_info_request env phone ai ctx) w
     (fun o w' l => l = [] /\ w' = w /\ non_empty o).
Proof.
  unfold handle_info_request.
  destruct (truthy _); [| wp_steps; repeat split; discriminate].
  wp_steps. destruct (upcoming_of _) as [up|e]; wp_red; [| simpl; auto].
  destruct (negb (is_nil up)); [| wp_steps; repeat split; discriminate].
  wp_steps. destruct (omap _ _) as [lines|e]; wp_red; [| simpl; auto].
  wp_steps. repeat split; discriminate.
Qed.

Lemma handle_schedule_request_non_empty phone ai ctx w :
  wp (handle_schedule_request env phone ai ctx) w (fun o w' l => non_empty o).
Proof.
  wp_use handle_schedule_request_wp.
  intros o w' l [(_ & _ & _ & ->) | (_ & r & _ & ->)].
  - unfold ask_reply. destruct (truthy _); discriminate.
  - destruct r; discriminate.
Qed.

(** Every message gets a reply and nothing is raised; the reply is empty
    only on the path through the generator, when its text is blank. *)
Lemma process_whatsapp_message_wp from_number message w :
  wp (process_whatsapp_message env from_number message) w
     (fun o w' l => blank_only env o).
Proof.
  unfold process_whatsapp_message.
  assert (Hfix : blank_only env
            (Ret "I'm having trouble understanding that. Could you please rephrase your request?")).
  { eexists. split; [reflexivity | discriminate]. }
  assert (Hne : forall (m : M string) w1 (l0 : list Event),
            wp m w1 (fun o _ _ => non_empty o) ->
            wp m w1 (fun o w2 l2 =>
              match o with
              | Ret a => blank_only env (Ret a)
              | Raise e =>
                  wp (ret "I'm having trouble understanding that. Could you please rephrase your request?")
                     w2 (fun o2 w3 l3 => blank_only env o2)
              end)).
  { intros m w1 _ H. eapply wp_conseq; [exact H |]. intros [a|e] w2 l2 Ha; simpl in *.
    - exists a. split; [reflexivity | congruence].
    - apply Hfix. }
  wp_steps. wp_use enhance_ai_context_wp.
  intros o w1 l1 (-> & _ & _ & context & ->). wp_red.
  wp_step. wp_use classify_intent_wp.
  intros o w2 l2 (-> & _ & _ & (v & ->) & _). wp_red.
  wp_step. wp_use store_conversation_context_wp.
  intros o w3 l3 (-> & _ & _ & ->). wp_red.
  wp_step. destruct (as_dict v) as [d|e]; wp_red; [| wp_steps; apply Hfix].
  wp_step.
  destruct (py_eq_str _ "schedule").
  { apply (Hne _ _ []), handle_schedule_request_non_empty. }
  destruct (py_eq_str _ "cancel").
  { apply (Hne _ _ []). wp_use handle_cancel_request_wp. intros ? ? ? (_ & _ & ?); auto. }
  destruct (py_eq_str _ "reschedule").
  { apply (Hne _ _ []). wp_use handle_reschedule_request_wp. intros ? ? ? (_ & _ & ?); auto. }
  destruct (py_eq_str _ "info").
  { apply (Hne _ _ []). wp_use handle_info_request_wp. intros ? ? ? (_ & _ & ?); auto. }
  wp_use generate_contextual_response_wp.
  intros o w4 l4 (_ & _ & _ & reply & -> & Hblank). wp_red.
  exists reply. split; [reflexivity |]. eauto.
Qed.

End MessageFacts.

(** Whatever happens inside, [process_whatsapp_message] and the webhook
    return; nothing is raised past them. *)
Lemma process_whatsapp_message_returns env from_number message w :
  exists reply, fst (fst (process_whatsapp_message env from_number message w)) = Ret reply.
Proof.
  unfold process_whatsapp_message, try_except.
  match goal with |- context [bind ?m ?k w] => destruct (bind m k w) as [[[reply|e] w1] l1] end;
    simpl; eauto.
Qed.

Lemma whatsapp_webhook_returns env form w :
  exists response, fst (fst (whatsapp_webhook env form w)) = Ret response.
Proof.
  unfold whatsapp_webhook, try_except.
  match goal with |- context [bind ?m ?k w] => destruct (bind m k w) as [[[reply|e] w1] l1] end;
    simpl; eauto.
Qed.

(** C3 fails on the code, in two ways. When the classifier's output is
    JSON of another shape than an intent (here the list [[]]),
    [classify_intent] hands it on as it is instead of answering
    [intent = other] with confidence 0.0; the handler then replies with
    its fixed sentence and creates no meeting. And when the classifier
    times out on Alice's greeting, [classify_intent] answers
    [intent = other] with confidence 0.0 and raises nothing, no meeting
    is created and no calendar or task service is called, as claimed;
    but the generator then answers with nothing, and the reply the
    handler returns is the empty text. *)
Theorem failed_classification_is_not_contained :
  ((forall t, openai_classify list_answer t "hello" = ChatContent (Some "[]"))
   /\ json_loads list_answer "[]" = Ret (PList [])
   /\ fst (fst (classify_intent list_answer "hello" two_users)) = Ret (PList [])
   /\ exists w',
        process_whatsapp_message list_answer "whatsapp:+15550001" "hello" two_users
        = (Ret "I'm having trouble understanding that. Could you please rephrase your request?",
           w', [])
        /\ meetings w' = meetings two_users)
  /\ ((forall t, openai_classify silent_model t "hello" = ChatRaised "Request timed out.")
      /\ (forall t context, openai_generate silent_model t context = ChatContent (Some ""))
      /\ fst (fst (classify_intent silent_model "hello" two_users))
         = Ret (PDict {[ "intent" := PStr "other"; "confidence" := PFloat (S754_zero false);
                         "error" := PStr "Request timed out." ]})
      /\ exists w',
           process_whatsapp_message silent_model "whatsapp:+15550001" "hello" two_users
           = (Ret "", w', [])
           /\ meetings w' = meetings two_users).
Proof.
  split.
  - split; [reflexivity |]. split; [reflexivity |]. split; [vm_compute; reflexivity |].
    eexists. split; [vm_compute; reflexivity | reflexivity].
  - split; [reflexivity |]. split; [reflexivity |]. split; [vm_compute; reflexivity |].
    eexists. split; [vm_compute; reflexivity | reflexivity].
Qed.

(** Whatever the classifier answers, [classify_intent] returns; content
    that parses is returned as parsed. *)
Lemma classify_intent_returns env message w :
  exists v, fst (fst (classify_intent env message w)) = Ret v.
Proof.
  pose proof (classify_intent_wp env message w) as H. unfold wp in H.
  destruct (classify_intent env message w) as [[o w'] l].
  destruct H as (_ & _ & _ & H & _). exact H.
Qed.

Lemma classify_intent_passes_json_through env message w content v :
  openai_classify env (tick w) message = ChatContent (Some content) ->
  json_loads env content = Ret v ->
  fst (fst (classify_intent env message w)) = Ret v.
Proof.
  intros Hc Hj. unfold classify_intent, try_except, bind, oracle, lift. simpl.
  rewrite Hc. simpl. rewrite Hj. reflexivity.
Qed.

(** C9 fails on the code in its first part. Alice greets; the classifier
    finds no scheduling intent; the generator answers with white space
    only, which [strip] reduces to nothing: the entry point returns
    without raising, and the reply it returns is the empty text. *)
Theorem empty_reply_leaves_the_boundary :
  fst (fst (process_whatsapp_message blank_model "whatsapp:+15550001" "hello" two_users))
  = Ret ""
  /\ fst (fst (whatsapp_webhook blank_model (Ret alices_greeting) two_users)) = Ret [""].
Proof. split; vm_compute; reflexivity. Qed.

(* ===================================================================== *)
(** * Further properties: the calendar and task services                  *)
(* ===================================================================== *)

(** What is left of a world once a session was opened and closed. *)
Lemma tick_session w :
  tick (set_sessions (delete (next_session w))
          (set_next_session (S (next_session w))
             (set_sessions (insert (next_session w) []) w))) = tick w.
Proof. reflexivity. Qed.

Lemma get_user_credentials_run phone w :
  exists w', get_user_credentials phone w = (Ret (google_token (users w) phone), w', [])
             /\ frame w w' /\ tick w' = tick w.
Proof.
  unfold get_user_credentials, google_token, bind, try_finally, SessionLocal,
    session_query_user, session_close, modify, ret. simpl.
  destruct (users w !! phone) as [u|]; [destruct (opt_truthy _) |]; simpl;
    eexists; (split; [reflexivity | split; [apply frame_session | reflexivity]]).
Qed.

Lemma get_user_token_run phone w :
  exists w', get_user_token phone w = (Ret (stored_todoist_token (users w) phone), w', [])
             /\ frame w w' /\ tick w' = tick w.
Proof.
  unfold get_user_token, stored_todoist_token, bind, try_finally, SessionLocal,
    session_query_user, session_close, modify, ret. simpl.
  destruct (users w !! phone) as [u|]; simpl;
    eexists; (split; [reflexivity | split; [apply frame_session | reflexivity]]).
Qed.

Lemma frame_tick_r w w' n : frame w w' -> frame w (set_tick n w').
Proof. intros F. eapply frame_trans; [exact F | apply frame_tick]. Qed.

Section ServiceRuns.

Context (env : Env).

(** [create_event] as a function of the user's token and of the time. *)
Lemma create_event_run phone ed w :
  exists w',
    create_event env phone ed w
    = (Ret (fst (calendar_answer env (google_token (users w) phone) (tick w) ed)), w',
       [EvCreateEvent phone ed
          (fst (calendar_answer env (google_token (users w) phone) (tick w) ed))])
    /\ frame w w'
    /\ tick w' = snd (calendar_answer env (google_token (users w) phone) (tick w) ed).
Proof.
  destruct (get_user_credentials_run phone w) as (w1 & E & F & T).
  unfold create_event, calendar_answer, event_body, bind, try_except. rewrite E.
  destruct (google_token (users w) phone) as [tok|]; simpl.
  2:{ eexists. split; [reflexivity | auto]. }
  destruct (truthy (ed_location ed)), (truthy (ed_attendees ed)); simpl.
  all: unfold bind, lift, oracle; rewrite ?T.
  all: try destruct (py_iter (ed_attendees ed)) as [emails|e]; simpl; rewrite ?T.
  all: try (destruct (google_events_insert env _ _ _); simpl).
  all: eexists;
    (split; [reflexivity
            | split; [first [exact F | apply frame_tick_r, F] | first [exact T | reflexivity]]]).
Qed.

Lemma delete_event_run phone ev w :
  exists w',
    delete_event env phone ev w
    = (Ret (fst (calendar_delete_answer env (google_token (users w) phone) (tick w) ev)), w',
       [EvDeleteEvent phone ev
          (fst (calendar_delete_answer env (google_token (users w) phone) (tick w) ev))])
    /\ frame w w'
    /\ tick w' = snd (calendar_delete_answer env (google_token (users w) phone) (tick w) ev).
Proof.
  destruct (get_user_credentials_run phone w) as (w1 & E & F & T).
  unfold delete_event, calendar_delete_answer, bind, try_except. rewrite E.
  destruct (google_token (users w) phone) as [tok|]; simpl.
  2:{ eexists. split; [reflexivity | auto]. }
  unfold oracle. rewrite T.
  destruct (google_events_delete env _ _ _); simpl;
    (eexists; split; [reflexivity | split; [apply frame_tick_r, F | reflexivity]]).
Qed.

Lemma create_task_run phone td w :
  exists w',
    create_task env phone td w
    = (Ret (fst (task_answer env (stored_todoist_token (users w) phone) (tick w) td)), w',
       [EvCreateTask phone td
          (fst (task_answer env (stored_todoist_token (users w) phone) (tick w) td))])
    /\ frame w w'
    /\ tick w' = snd (task_answer env (stored_todoist_token (users w) phone) (tick w) td).
Proof.
  destruct (get_user_token_run phone w) as (w1 & E & F & T).
  unfold create_task, task_answer, task_payload, bind, try_except. rewrite E.
  destruct (opt_truthy (stored_todoist_token (users w) phone)); simpl.
  2:{ eexists. split; [reflexivity | auto]. }
  unfold oracle. rewrite T.
  destruct (todoist_post_task env _ _ _) as [code text json|e]; simpl.
  - destruct (code =? 200); simpl.
    + unfold bind, lift. destruct json; simpl;
        (eexists; split; [reflexivity | split; [apply frame_tick_r, F | reflexivity]]).
    + eexists; split; [reflexivity | split; [apply frame_tick_r, F | reflexivity]].
  - eexists; split; [reflexivity | split; [apply frame_tick_r, F | reflexivity]].
Qed.

Lemma delete_task_run phone task w :
  exists w',
    delete_task env phone task w
    = (Ret (fst (task_delete_answer env (stored_todoist_token (users w) phone) (tick w) task)),
       w',
       [EvDeleteTask phone task
          (fst (task_delete_answer env (stored_todoist_token (users w) phone) (tick w) task))])
    /\ frame w w'
    /\ tick w'
       = snd (task_delete_answer env (stored_todoist_token (users w) phone) (tick w) task).
Proof.
  destruct (get_user_token_run phone w) as (w1 & E & F & T).
  unfold delete_task, task_delete_answer, bind, try_except. rewrite E.
  destruct (opt_truthy (stored_todoist_token (users w) phone)); simpl.
  2:{ eexists. split; [reflexivity | auto]. }
  unfold oracle. rewrite T.
  destruct (todoist_delete_task env _ _ _) as [code text json|e]; simpl.
  - destruct (code =? 204); simpl;
      (eexists; split; [reflexivity | split; [apply frame_tick_r, F | reflexivity]]).
  - eexists; split; [reflexivity | split; [apply frame_tick_r, F | reflexivity]].
Qed.

End ServiceRuns.

(* ===================================================================== *)
(** * Further properties: [create_meeting] as a function                  *)
(* ===================================================================== *)

Lemma wp_quiet {A} (m : M A) w (Q : outcome A -> World -> list Event -> Prop) :
  quiet m -> wp m w Q -> wp m w (fun o w' l => Q o w' l /\ tick w' = tick w).
Proof.
  unfold quiet, wp. intros H. specialize (H w). destruct (m w) as [[o w'] l]. auto.
Qed.

Ltac quiet_tac :=
  let w := fresh "w" in
  intros w;
  unfold SessionLocal, session_add, session_commit, session_rollback, session_close,
    session_query_user, session_query_meeting, obj_user, obj_meeting, obj_set,
    session_refresh, modify;
  repeat match goal with |- context [match ?x with _ => _ end] => destruct x end;
  reflexivity.

Lemma quiet_SessionLocal : quiet SessionLocal.
Proof. quiet_tac. Qed.
Lemma quiet_session_add db o : quiet (session_add db o).
Proof. quiet_tac. Qed.
Lemma quiet_session_commit drv utc db : quiet (session_commit drv utc db).
Proof. quiet_tac. Qed.
Lemma quiet_session_rollback db : quiet (session_rollback db).
Proof. quiet_tac. Qed.
Lemma quiet_session_close db : quiet (session_close db).
Proof. quiet_tac. Qed.
Lemma quiet_session_query_user db phone : quiet (session_query_user db phone).
Proof. quiet_tac. Qed.
Lemma quiet_session_query_meeting db mid : quiet (session_query_meeting db mid).
Proof. quiet_tac. Qed.
Lemma quiet_obj_user r : quiet (obj_user r).
Proof. quiet_tac. Qed.
Lemma quiet_obj_meeting r : quiet (obj_meeting r).
Proof. quiet_tac. Qed.
Lemma quiet_obj_set r f : quiet (obj_set r f).
Proof. quiet_tac. Qed.
Lemma quiet_session_refresh r : quiet (session_refresh r).
Proof. quiet_tac. Qed.

Create HintDb quiet.

#[local] Hint Resolve quiet_SessionLocal quiet_session_add quiet_session_commit
  quiet_session_rollback quiet_session_close quiet_session_query_user
  quiet_session_query_meeting quiet_obj_user quiet_obj_meeting quiet_obj_set
  quiet_session_refresh : quiet.

(** Use a specification of a computation that makes no outside call,
    keeping track of the time. *)
Ltac wp_useq H :=
  eapply wp_conseq; [apply wp_quiet; [auto with quiet | apply H] |]; cbv beta.

Section BookingFacts.

Context (env : Env).

Lemma create_event_spec phone ed w :
  wp (create_event env phone ed) w
     (fun o w' l =>
        o = Ret (fst (calendar_answer env (google_token (users w) phone) (tick w) ed))
        /\ l = [EvCreateEvent phone ed
                  (fst (calendar_answer env (google_token (users w) phone) (tick w) ed))]
        /\ frame w w'
        /\ tick w' = snd (calendar_answer env (google_token (users w) phone) (tick w) ed)).
Proof.
  unfold wp. destruct (create_event_run env phone ed w) as (w' & -> & F & T). auto.
Qed.

Lemma create_task_spec phone td w :
  wp (create_task env phone td) w
     (fun o w' l =>
        o = Ret (fst (task_answer env (stored_todoist_token (users w) phone) (tick w) td))
        /\ l = [EvCreateTask phone td
                  (fst (task_answer env (stored_todoist_token (users w) phone) (tick w) td))]
        /\ frame w w'
        /\ tick w' = snd (task_answer env (stored_todoist_token (users w) phone) (tick w) td)).
Proof.
  unfold wp. destruct (create_task_run env phone td w) as (w' & -> & F & T). auto.
Qed.

Lemma _create_todoist_task_spec phone db i w us ms objs id m d :
  view w db us ms objs -> objs !! i = Some (MeetingRow id m d) ->
  wp (_create_todoist_task env phone (db, i)) w
     (fun o w' l =>
        o = Ret tt
        /\ l = [EvCreateTask phone (reminder env m)
                  (fst (task_answer env (stored_todoist_token us phone) (tick w)
                          (reminder env m)))]
        /\ tick w' = snd (task_answer env (stored_todoist_token us phone) (tick w)
                            (reminder env m))
        /\ exists objs' m' d', view w' db us ms objs'
                               /\ objs' !! i = Some (MeetingRow id m' d')).
Proof.
  intros V Hi. unfold _create_todoist_task.
  wp_steps. wp_use (obj_meeting_wp _ _ _ _ _ _ _ _ _ V Hi).
  intros o w1 l1 (-> & -> & ->). wp_red.
  wp_step. wp_use create_task_spec.
  intros o w2 l2 (-> & -> & F2 & T2). wp_red.
  pose proof (view_frame _ _ _ _ _ _ F2 V) as V2.
  destruct V as (<- & _).
  change (mkTaskData _ _ _ _ _) with (reminder env m) in *.
  destruct (fst (task_answer _ _ _ _)) as [t|err]; wp_red.
  2:{ wp_steps. split; [reflexivity |]. split; [reflexivity |]. split; [exact T2 |]. eauto 6. }
  wp_step. wp_useq SessionLocal_wp.
  intros o w3 l3 ((-> & -> & F3 & V3') & T3). wp_red.
  pose proof (view_frame _ _ _ _ _ _ F3 V2) as V3.
  assert (Hne : db <> next_session w2) by (destruct V2 as (_ & _ & _ & ?); lia).
  wp_steps.
  eapply wp_conseq.
  { apply wp_quiet; [auto with quiet |].
    apply wp_and; [apply (obj_set_wp _ _ _ _ _ _ _ _ _ _ V3 Hi) |].
    apply (obj_set_other _ (db, i) _ (next_session w2) _ _ _ Hne V3'). }
  cbv beta. intros o w4 l4 (((-> & -> & V4) & (V4' & _ & _)) & T4). wp_red.
  destruct V4' as (_ & _ & Hs4 & _).
  wp_useq (session_commit_empty _ (sqlite env) (datetime_utcnow env) _ _ _ _ _
            (not_eq_sym Hne) Hs4 V4).
  intros o w5 l5 ((-> & -> & V5) & T5).
  wp_useq (session_close_other _ _ _ _ _ _ (not_eq_sym Hne) V5).
  intros o w6 l6 ((-> & -> & V6) & T6). wp_red.
  split; [reflexivity |]. split; [reflexivity |]. split; [congruence |].
  eexists _, _, _. split; [exact V6 |].
  apply list_lookup_insert_eq. eapply lookup_lt_Some; eauto.
Qed.

Lemma registered_after phone w :
  users_after env w phone !! phone = Some (registered env w phone).
Proof.
  unfold users_after, registered. destruct (users w !! phone) eqn:E; [exact E |].
  apply lookup_insert_eq.
Qed.

(** The user of the request, looked up or inserted, with the time. *)
Lemma user_block_spec phone db w :
  view w db (users w) (meetings w) [] ->
  wp (match users w !! phone with
      | Some u => ret u
      | None =>
          let* r := session_add db (NewUser phone) in
          let* _ := session_commit (sqlite env) (datetime_utcnow env) db in
          let* _ := session_refresh r in
          obj_user r
      end) w
     (fun o w' l =>
        l = [] /\ o = Ret (registered env w phone) /\ tick w' = tick w
        /\ exists objs', view w' db (users_after env w phone) (meetings w) objs'
                         /\ Forall is_user_row objs').
Proof.
  intros V. unfold users_after, registered. destruct (users w !! phone) as [u|] eqn:E.
  - wp_steps. split; [reflexivity |]. split; [reflexivity |]. split; [reflexivity |].
    exists []. auto.
  - wp_step. wp_useq (session_add_wp _ _ _ _ _ (NewUser phone) V).
    intros o w1 l1 ((-> & -> & V1) & T1). wp_red.
    wp_step. wp_useq (session_commit_wp (sqlite env) (datetime_utcnow env) _ _ _ _ _ V1).
    simpl. intros o w2 l2 ((-> & -> & V2) & T2). wp_red. rewrite T1 in V2.
    set (u := User.mk _ _ _ _ _ _) in *.
    wp_step.
    wp_useq (session_refresh_user_wp _ _ _ _ _ 0%nat phone u u V2 eq_refl
              (lookup_insert_eq _ _ _)).
    intros o w3 l3 ((-> & -> & V3) & T3). wp_red. simpl in V3.
    wp_useq (obj_user_wp _ _ _ _ _ 0%nat phone u V3 eq_refl).
    intros o w4 l4 ((-> & -> & ->) & _).
    split; [reflexivity |]. split; [reflexivity |]. split; [congruence |].
    exists [UserRow phone u]. split; [exact V3 | repeat constructor].
Qed.

(** [create_meeting] does what [booking] says. *)
Lemma create_meeting_books phone data w :
  wp (create_meeting env phone data) w
     (fun o w' l =>
        o = Ret (bk_result (booking env phone data w))
        /\ l = bk_trace (booking env phone data w)
        /\ users w' = bk_users (booking env phone data w)
        /\ meetings w' = bk_meetings (booking env phone data w)
        /\ tick w' = bk_tick (booking env phone data w)).
Proof.
  unfold create_meeting.
  wp_steps. wp_useq SessionLocal_wp.
  intros o w1 l1 ((-> & -> & F1 & V1) & T1). wp_red.
  set (db := next_session w) in *.
  wp_steps. wp_use session_query_user_wp.
  intros o w2 l2 (-> & -> & ->). wp_red.
  wp_step.
  assert (U1 : users w1 = users w) by (destruct V1; auto).
  assert (M1 : meetings w1 = meetings w) by (destruct V1 as (_ & ? & _); auto).
  rewrite <- U1, <- M1 in V1.
  wp_use (user_block_spec phone db w1 V1).
  intros o w3 l3 (-> & -> & T3 & objs3 & V3 & Hobjs3). wp_red.
  replace (registered env w1 phone) with (registered env w phone)
    by (unfold registered; rewrite U1, T1; reflexivity).
  replace (users_after env w1 phone) with (users_after env w phone) in V3
    by (unfold users_after, registered; rewrite U1, T1; reflexivity).
  rewrite M1 in V3.
  wp_steps. rewrite T3, T1.
  unfold booking, planned_end, planned_start.
  set (start_time := _parse_datetime _ _ _).
  assert (Hstop : forall e w', users w' = users_after env w phone ->
            meetings w' = meetings w -> tick w' = tick w ->
     wp (let* _ := session_rollback db in ret (Failure e)) w'
        (fun o2 w2 l2 =>
           wp (session_close db) w2
              (fun o3 w4 l4 =>
                 let b := mkBooking (Failure e) (users_after env w phone) (meetings w)
                            [EvCreateMeeting phone data] (tick w) in
                 match o3 with
                 | Ret _ => o2 = Ret (bk_result b)
                     /\ [EvCreateMeeting phone data] ++ [] ++ (([] ++ [] ++ []) ++ l2) ++ l4
                        = bk_trace b
                     /\ users w4 = bk_users b /\ meetings w4 = bk_meetings b
                     /\ tick w4 = bk_tick b
                 | Raise e0 => False
                 end))).
  { intros e w' Uw' Mw' Tw'. wp_step. wp_useq session_rollback_wp.
    intros o w4 l4 ((-> & -> & U4 & M4 & _) & T4). wp_red. wp_step.
    wp_useq session_close_wp. intros o w5 l5 ((-> & -> & U5 & M5 & _) & T5).
    simpl. repeat split; congruence. }
  destruct V3 as (U3 & M3 & S3 & N3). pose proof (conj U3 (conj M3 (conj S3 N3))) as V3.
  destruct (timedelta_minutes env _) as [delta|e]; simpl obind; wp_red.
  2:{ eapply wp_conseq; [apply (Hstop e w3); congruence |]. cbv beta.
      intros o w4 l4 H. eapply wp_conseq; [exact H |]. cbv beta.
      intros [u|e0] w5 l5 H5; [exact H5 | contradiction]. }
  wp_steps.
  destruct (datetime_add_us start_time delta) as [end_time|e]; wp_red.
  2:{ eapply wp_conseq; [apply (Hstop e w3); congruence |]. cbv beta.
      intros o w4 l4 H. eapply wp_conseq; [exact H |]. cbv beta.
      intros [u|e0] w5 l5 H5; [exact H5 | contradiction]. }
  clear Hstop.
  change (mkEventData _ _ _ _ _ _) with (planned_event start_time end_time data).
  set (ed := planned_event start_time end_time data).
  wp_step. wp_use create_event_spec.
  intros o w4 l4 (-> & -> & F4 & T4). wp_red.
  pose proof (view_frame _ _ _ _ _ _ F4 V3) as V4.
  rewrite U3, T3, T1 in T4 |- *.
  set (cal := calendar_answer env _ _ _) in *.
  destruct (fst cal) as [created|err]; wp_red.
  2:{ wp_steps. wp_useq session_close_wp. intros o w5 l5 ((-> & -> & U5 & M5 & _) & T5).
      simpl. destruct V4 as (U4 & M4 & _). repeat split; congruence. }
  wp_step.
  match goal with |- wp (session_add _ ?o) _ _ =>
    wp_useq (session_add_wp _ _ _ _ _ o V4) end.
  intros o w5 l5 ((-> & -> & V5) & T5). wp_red.
  wp_step. wp_useq (session_commit_wp (sqlite env) (datetime_utcnow env) _ _ _ _ _ V5).
  rewrite (flush_new_meeting _ _ _ _ _ _ Hobjs3). rewrite T5, T4.
  change (Meeting.mk_kwargs _ _ _ _ _ _ _)
    with (planned_kwargs (registered env w phone) created start_time end_time data).
  destruct (bind_kwargs _ _) as [kept|].
  2:{ intros o w6 l6 ((-> & -> & ->) & _). wp_red.
      wp_step. wp_useq session_rollback_wp.
      intros o w6 l6 ((-> & -> & U6 & M6 & _) & T6). wp_red. wp_step.
      wp_useq session_close_wp. intros o w7 l7 ((-> & -> & U7 & M7 & _) & T7).
      simpl. destruct V5 as (U5 & M5 & _). repeat split; congruence. }
  intros o w6 l6 ((-> & -> & V6) & T6). wp_red.
  set (id := next_meeting_id (meetings w)) in *.
  set (m := Meeting.inserted _ _) in *.
  assert (Hi : (objs3 ++ [MeetingRow id m false]) !! length objs3
               = Some (MeetingRow id m false)).
  { rewrite lookup_app_r by lia. rewrite Nat.sub_diag. reflexivity. }
  wp_step.
  wp_useq (session_refresh_meeting_wp _ _ _ _ _ _ _ _ _ m V6 Hi (lookup_insert_eq _ _ _)).
  intros o w7 l7 ((-> & -> & V7) & T7). wp_red.
  rewrite list_insert_id in V7 by exact Hi.
  wp_step. wp_use (_create_todoist_task_spec phone _ _ _ _ _ _ _ _ _ V7 Hi).
  intros o w8 l8 (-> & -> & T8 & objs8 & m8 & d8 & V8 & Hi8). wp_red.
  rewrite ?T7, ?T6, ?T5, ?T4 in T8. rewrite ?T7, ?T6, ?T5, ?T4.
  wp_step. wp_useq (obj_meeting_wp _ _ _ _ _ _ _ _ _ V8 Hi8).
  intros o w9 l9 ((-> & -> & ->) & _). wp_red.
  wp_step.
  wp_useq session_close_wp. intros o w10 l10 ((-> & -> & U10 & M10 & _) & T10).
  simpl.
  destruct V8 as (U8 & M8 & _).
  repeat split; congruence.
Qed.

End BookingFacts.

(* ===================================================================== *)
(** * Further properties: [cancel_meeting] as a function                  *)
(* ===================================================================== *)

Section CancellationFacts.

Context (env : Env).

Lemma delete_event_spec phone ev w :
  wp (delete_event env phone ev) w
     (fun o w' l =>
        o = Ret (fst (calendar_delete_answer env (google_token (users w) phone) (tick w) ev))
        /\ l = [EvDeleteEvent phone ev
                  (fst (calendar_delete_answer env (google_token (users w) phone) (tick w) ev))]
        /\ frame w w'
        /\ tick w'
           = snd (calendar_delete_answer env (google_token (users w) phone) (tick w) ev)).
Proof.
  unfold wp. destruct (delete_event_run env phone ev w) as (w' & -> & F & T). auto.
Qed.

Lemma delete_task_spec phone task w :
  wp (delete_task env phone task) w
     (fun o w' l =>
        o = Ret (fst (task_delete_answer env (stored_todoist_token (users w) phone)
                        (tick w) task))
        /\ l = [EvDeleteTask phone task
                  (fst (task_delete_answer env (stored_todoist_token (users w) phone)
                          (tick w) task))]
        /\ frame w w'
        /\ tick w' = snd (task_delete_answer env (stored_todoist_token (users w) phone)
                            (tick w) task)).
Proof.
  unfold wp. destruct (delete_task_run env phone task w) as (w' & -> & F & T). auto.
Qed.

Lemma event_deletion_spec phone m w db us ms objs :
  view w db us ms objs ->
  wp (if opt_truthy (Meeting.google_event_id m)
      then let* _ := delete_event env phone (default "" (Meeting.google_event_id m)) in ret tt
      else ret tt) w
     (fun o w' l =>
        o = Ret tt /\ view w' db us ms objs
        /\ l = fst (event_deletion env us phone m (tick w))
        /\ tick w' = snd (event_deletion env us phone m (tick w))).
Proof.
  intros V. unfold event_deletion. destruct (opt_truthy _); [| wp_steps; auto].
  wp_step. wp_use delete_event_spec. intros o w1 l1 (-> & -> & F & T). wp_red.
  wp_steps. destruct V as (<- & V). pose proof (conj (eq_refl (users w)) V) as V'.
  split; [reflexivity |]. split; [eapply view_frame; eauto |]. simpl. auto.
Qed.

Lemma task_deletion_spec phone m w db us ms objs :
  view w db us ms objs ->
  wp (if opt_truthy (Meeting.todoist_task_id m)
      then let* _ := delete_task env phone (default "" (Meeting.todoist_task_id m)) in ret tt
      else ret tt) w
     (fun o w' l =>
        o = Ret tt /\ view w' db us ms objs
        /\ l = fst (task_deletion env us phone m (tick w))
        /\ tick w' = snd (task_deletion env us phone m (tick w))).
Proof.
  intros V. unfold task_deletion. destruct (opt_truthy _); [| wp_steps; auto].
  wp_step. wp_use delete_task_spec. intros o w1 l1 (-> & -> & F & T). wp_red.
  wp_steps. destruct V as (<- & V). pose proof (conj (eq_refl (users w)) V) as V'.
  split; [reflexivity |]. split; [eapply view_frame; eauto |]. simpl. auto.
Qed.

(** [cancel_meeting] does what [cancellation] says. *)
Lemma cancel_meeting_cancels phone mid w :
  wp (cancel_meeting env phone mid) w
     (fun o w' l =>
        o = Ret (cn_result (cancellation env phone mid w))
        /\ l = cn_trace (cancellation env phone mid w)
        /\ users w' = users w
        /\ meetings w' = cn_meetings (cancellation env phone mid w)
        /\ tick w' = cn_tick (cancellation env phone mid w)).
Proof.
  unfold cancel_meeting, cancellation.
  wp_steps. wp_useq SessionLocal_wp.
  intros o w1 l1 ((-> & -> & F1 & V1) & T1). wp_red.
  set (db := next_session w) in *.
  wp_steps. wp_useq (session_query_meeting_wp _ _ _ _ _ mid V1).
  intros o w2 l2 ((-> & H2) & T2).
  destruct (meetings w !! mid) as [m|] eqn:Em.
  2:{ destruct H2 as (-> & ->). wp_red. wp_steps.
      wp_useq session_close_wp. intros o w3 l3 ((-> & -> & U3 & M3 & _) & T3).
      destruct V1 as (U1 & M1 & _). simpl. repeat split; congruence. }
  destruct H2 as (-> & V2). wp_red. simpl in V2.
  assert (Hi : [MeetingRow mid m false] !! 0%nat = Some (MeetingRow mid m false))
    by reflexivity.
  wp_step. wp_use (obj_meeting_wp _ _ _ _ _ _ _ _ _ V2 Hi).
  intros o w3 l3 (-> & -> & ->). wp_red.
  wp_step. wp_use (event_deletion_spec phone m _ _ _ _ _ V2).
  intros o w4 l4 (-> & V4 & -> & T4). wp_red.
  wp_step. wp_use (task_deletion_spec phone m _ _ _ _ _ V4).
  intros o w5 l5 (-> & V5 & -> & T5). wp_red.
  rewrite T4, T2, T1 in *.
  wp_step. wp_useq (obj_set_wp _ _ _ _ _ _ _ _ _ (Meeting.set_status "cancelled") V5 Hi).
  intros o w6 l6 ((-> & -> & V6) & T6). wp_red. simpl in V6.
  wp_step. wp_useq (session_commit_wp (sqlite env) (datetime_utcnow env) _ _ _ _ _ V6).
  simpl. intros o w7 l7 ((-> & -> & V7) & T7). wp_red.
  wp_steps. wp_useq session_close_wp. intros o w8 l8 ((-> & -> & U8 & M8 & _) & T8).
  destruct V7 as (U7 & M7 & _).
  split; [reflexivity |]. split; [simpl; rewrite !app_nil_r; reflexivity |].
  split; [congruence |]. split; [simpl; congruence |]. simpl. congruence.
Qed.

End CancellationFacts.

(* ===================================================================== *)
(** * The calendar service                                                *)
(* ===================================================================== *)

(** When [create_event] reports success, Google was asked once, with the
    refresh token stored for that very phone number, to insert an event
    with the title, the start and the end of the request, and accepted:
    the event returned is the one Google created. *)
Theorem created_event_comes_from_google env phone ed w created w' l :
  create_event env phone ed w = (Ret (Success created), w', l) ->
  exists u token event,
    users w !! phone = Some u
    /\ User.google_refresh_token u = Some token /\ token <> ""
    /\ google_events_insert env (tick w) token event = GoogleOk created
    /\ ge_summary event = ed_title ed
    /\ ge_start event = (datetime_isoformat (ed_start_time ed), ed_timezone ed)
    /\ ge_end event = (datetime_isoformat (ed_end_time ed), ed_timezone ed)
    /\ tick w' = S (tick w).
Proof.
  intros H. destruct (create_event_run env phone ed w) as (w0 & E & F & T).
  rewrite E in H. injection H as Hr <- _. clear E.
  unfold calendar_answer, google_token in *.
  destruct (users w !! phone) as [u|]; [| discriminate Hr].
  destruct (User.google_refresh_token u) as [token|] eqn:Et; [| discriminate Hr].
  destruct token as [|c token]; [discriminate Hr |]. simpl in Hr, T.
  destruct (event_body ed) as [event|e] eqn:Eb; [| discriminate Hr]. simpl in Hr, T.
  destruct (google_events_insert env _ _ _) eqn:Eg; try discriminate Hr.
  injection Hr as ->.
  exists u, (String c token), event.
  split; [reflexivity |]. split; [exact Et |]. split; [discriminate |].
  split; [exact Eg |].
  unfold event_body in Eb.
  destruct (truthy (ed_attendees ed)); [destruct (py_iter _); [| discriminate Eb] |];
    injection Eb as <-; auto.
Qed.

Lemma created_event_comes_from_google_witness :
  exists u token event,
    users two_users !! alice_phone = Some u
    /\ User.google_refresh_token u = Some token /\ token <> ""
    /\ google_events_insert all_fine (tick two_users) token event
       = GoogleOk (mkCreatedEvent "evt-1" None)
    /\ ge_summary event = PStr "Demo"
    /\ ge_start event = ("2025-03-04T12:00:00", PStr "UTC")
    /\ ge_end event = ("2025-03-04T12:00:00", PStr "UTC")
    /\ tick (snd (fst (create_event all_fine alice_phone
                         (mkEventData (PStr "Demo") noon_4_march noon_4_march PNone
                            (PStr "UTC") (PList [])) two_users)))
       = S (tick two_users).
Proof.
  refine (created_event_comes_from_google all_fine alice_phone
            (mkEventData (PStr "Demo") noon_4_march noon_4_march PNone (PStr "UTC") (PList []))
            two_users (mkCreatedEvent "evt-1" None) _
            [EvCreateEvent alice_phone
               (mkEventData (PStr "Demo") noon_4_march noon_4_march PNone (PStr "UTC")
                  (PList []))
               (Success (mkCreatedEvent "evt-1" None))] _).
  vm_compute. reflexivity.
Defined.

(** Whatever goes wrong, [create_event] and [delete_event] return an
    answer and never raise: a failure is the missing authentication, the
    error Google gave, or an exception met on the way; the tables are
    left alone and Google is called once at most. For a phone number
    with no usable refresh token (no such user, no token stored, or an
    empty one) the answer is that the user is not authenticated with
    Google, and Google is not called at all. *)
Theorem calendar_failures_are_answers env phone ed ev w :
  (exists r w',
      create_event env phone ed w = (Ret r, w', [EvCreateEvent phone ed r])
      /\ users w' = users w /\ meetings w' = meetings w
      /\ (tick w <= tick w' <= S (tick w))%nat
      /\ match r with
         | Success _ => True
         | Failure e =>
             e = "User not authenticated with Google"
             \/ (exists d, e = "Google Calendar API error: " +:+ d)
             \/ (exists d, e = "Calendar service error: " +:+ d)
         end
      /\ (google_token (users w) phone = None ->
          r = Failure "User not authenticated with Google" /\ tick w' = tick w))
  /\ (exists r w',
         delete_event env phone ev w = (Ret r, w', [EvDeleteEvent phone ev r])
         /\ users w' = users w /\ meetings w' = meetings w
         /\ (tick w <= tick w' <= S (tick w))%nat
         /\ match r with
            | Success _ => True
            | Failure e =>
                e = "User not authenticated with Google"
                \/ (exists d, e = "Google Calendar API error: " +:+ d)
                \/ (exists d, e = "Calendar service error: " +:+ d)
            end
         /\ (google_token (users w) phone = None ->
             r = Failure "User not authenticated with Google" /\ tick w' = tick w)).
Proof.
  split.
  - destruct (create_event_run env phone ed w) as (w' & E & (U & Mt & _) & T).
    eexists _, w'. split; [exact E |]. split; [exact U |]. split; [exact Mt |].
    rewrite T. clear E T. unfold calendar_answer.
    destruct (google_token _ _) as [tok|]; simpl; [| split; [lia | auto]].
    destruct (event_body ed) as [event|e]; simpl;
      [| split; [lia | split; [eauto | discriminate]]].
    split; [lia |]. split; [| discriminate].
    destruct (google_events_insert env _ _ _); eauto.
  - destruct (delete_event_run env phone ev w) as (w' & E & (U & Mt & _) & T).
    eexists _, w'. split; [exact E |]. split; [exact U |]. split; [exact Mt |].
    rewrite T. clear E T. unfold calendar_delete_answer.
    destruct (google_token _ _) as [tok|]; simpl; [| split; [lia | auto]].
    split; [lia |]. split; [| discriminate].
    destruct (google_events_delete env _ _ _); eauto.
Qed.

Lemma calendar_failures_are_answers_witness :
  let ed := mkEventData (PStr "Demo") noon_4_march noon_4_march PNone (PStr "UTC") (PList []) in
  exists r w',
    delete_event all_fine dave_phone "evt-bob" with_dave
    = (Ret r, w', [EvDeleteEvent dave_phone "evt-bob" r])
    /\ users w' = users with_dave /\ meetings w' = meetings with_dave
    /\ (tick with_dave <= tick w' <= S (tick with_dave))%nat
    /\ match r with
       | Success _ => True
       | Failure e =>
           e = "User not authenticated with Google"
           \/ (exists d, e = "Google Calendar API error: " +:+ d)
           \/ (exists d, e = "Calendar service error: " +:+ d)
       end
    /\ (google_token (users with_dave) dave_phone = None ->
        r = Failure "User not authenticated with Google" /\ tick w' = tick with_dave).
Proof.
  intros ed.
  exact (proj2 (calendar_failures_are_answers all_fine dave_phone ed "evt-bob" with_dave)).
Defined.

(* ===================================================================== *)
(** * The task service                                                    *)
(* ===================================================================== *)

(** [create_task] and [delete_task] for a phone number with no Todoist
    token (no such user, no token stored, or an empty one) answer that
    the user is not authenticated with Todoist, without a request to
    Todoist and without a change to the tables. *)
Theorem todoist_needs_a_token env phone td task w :
  opt_truthy (stored_todoist_token (users w) phone) = false ->
  (exists w', create_task env phone td w
              = (Ret (Failure "User not authenticated with Todoist"), w',
                 [EvCreateTask phone td (Failure "User not authenticated with Todoist")])
              /\ tick w' = tick w /\ users w' = users w /\ meetings w' = meetings w)
  /\ (exists w', delete_task env phone task w
                 = (Ret (Failure "User not authenticated with Todoist"), w',
                    [EvDeleteTask phone task (Failure "User not authenticated with Todoist")])
                 /\ tick w' = tick w /\ users w' = users w /\ meetings w' = meetings w).
Proof.
  intros H. split.
  - destruct (create_task_run env phone td w) as (w' & E & F & T).
    unfold task_answer in E, T. rewrite H in E, T. simpl in E, T.
    destruct F as (U & Mt & _). eauto 6.
  - destruct (delete_task_run env phone task w) as (w' & E & F & T).
    unfold task_delete_answer in E, T. rewrite H in E, T. simpl in E, T.
    destruct F as (U & Mt & _). eauto 6.
Qed.

Lemma todoist_needs_a_token_witness :
  let td := mkTaskData "Call Carol" "" (mkdate 2025 3 10) 2 [] in
  (exists w', create_task all_fine dave_phone td with_dave
              = (Ret (Failure "User not authenticated with Todoist"), w',
                 [EvCreateTask dave_phone td (Failure "User not authenticated with Todoist")])
              /\ tick w' = tick with_dave /\ users w' = users with_dave
              /\ meetings w' = meetings with_dave)
  /\ (exists w', delete_task all_fine dave_phone "task-bob" with_dave
                 = (Ret (Failure "User not authenticated with Todoist"), w',
                    [EvDeleteTask dave_phone "task-bob"
                       (Failure "User not authenticated with Todoist")])
                 /\ tick w' = tick with_dave /\ users w' = users with_dave
                 /\ meetings w' = meetings with_dave).
Proof.
  intros td.
  apply (todoist_needs_a_token all_fine dave_phone td "task-bob" with_dave).
  vm_compute. reflexivity.
Defined.

(** [create_task] reports success exactly when Todoist answered the one
    request with status 200 and a body that could be decoded; the task
    returned is that body. The request carries the user's own token, the
    content, the description and the priority of the task, its due date
    in ISO format, and its labels unless there are none. A response with
    another status gives the error text with that status and the
    response text. *)
Theorem create_task_follows_the_response env phone td w token status_code text json :
  stored_todoist_token (users w) phone = Some token -> token <> "" ->
  todoist_post_task env (tick w) token
    (mkTaskPayload (td_content td) (td_description td) (td_priority td)
       (date_isoformat (td_due_date td))
       (match td_labels td with [] => None | l => Some l end))
  = HttpResponse status_code text json ->
  exists w',
    create_task env phone td w
    = (Ret (if status_code =? 200 then
              match json with
              | Ret task => Success task
              | Raise e => Failure ("Todoist service error: " +:+ e)
              end
            else Failure (api_error status_code text)),
       w',
       [EvCreateTask phone td
          (if status_code =? 200 then
             match json with
             | Ret task => Success task
             | Raise e => Failure ("Todoist service error: " +:+ e)
             end
           else Failure (api_error status_code text))])
    /\ tick w' = S (tick w) /\ users w' = users w /\ meetings w' = meetings w.
Proof.
  intros Ht Hne Hr.
  destruct (create_task_run env phone td w) as (w' & E & (U & Mt & _) & T).
  unfold task_answer, task_payload in E, T. rewrite Ht in E, T.
  destruct token as [|c token]; [contradiction Hne; reflexivity |].
  simpl in E, T. rewrite Hr in E. eauto 6.
Qed.

Lemma create_task_follows_the_response_witness :
  let td := mkTaskData "Call Carol" "" (mkdate 2025 3 10) 2 [] in
  exists w',
    create_task tasks_down alice_phone td two_users
    = (Ret (Failure "Todoist API error: 503 - Service Unavailable"), w',
       [EvCreateTask alice_phone td (Failure "Todoist API error: 503 - Service Unavailable")])
    /\ tick w' = S (tick two_users) /\ users w' = users two_users
    /\ meetings w' = meetings two_users.
Proof.
  intros td.
  refine (create_task_follows_the_response tasks_down alice_phone td two_users
            "token-alice" 503 "Service Unavailable" (Raise "no body") _ _ _).
  - vm_compute. reflexivity.
  - discriminate.
  - reflexivity.
Defined.

(* ===================================================================== *)
(** * Booking                                                             *)
(* ===================================================================== *)

Lemma create_meeting_run env phone data w o w' l :
  create_meeting env phone data w = (o, w', l) ->
  o = Ret (bk_result (booking env phone data w))
  /\ l = bk_trace (booking env phone data w)
  /\ users w' = bk_users (booking env phone data w)
  /\ meetings w' = bk_meetings (booking env phone data w)
  /\ tick w' = bk_tick (booking env phone data w).
Proof. intros E. exact (wp_run _ _ _ _ _ _ E (create_meeting_books env phone data w)). Qed.

Lemma google_token_after env w phone :
  google_token (users w) phone = None ->
  google_token (users_after env w phone) phone = None.
Proof.
  unfold users_after, registered, google_token.
  destruct (users w !! phone) as [u|] eqn:E; [rewrite E; auto |].
  rewrite lookup_insert_eq. reflexivity.
Qed.

(** The generated user id is above every id in use. *)
Lemma next_user_id_above (us : gmap string User.t) p u :
  us !! p = Some u -> User.id u < next_user_id us.
Proof.
  unfold next_user_id.
  assert (H : forall p u, us !! p = Some u ->
                User.id u <= map_fold (fun _ u acc => Z.max (User.id u) acc) 0 us).
  { apply (map_fold_weak_ind
             (fun r (m : gmap string User.t) =>
                forall p u, m !! p = Some u -> User.id u <= r)).
    - intros q v Hq. rewrite lookup_empty in Hq. discriminate.
    - intros i x m r Hi IH q v Hq.
      destruct (decide (i = q)) as [->|Hne].
      + rewrite lookup_insert_eq in Hq. injection Hq as ->. lia.
      + rewrite lookup_insert_ne in Hq by auto. specialize (IH q v Hq). lia. }
  intros Hp. specialize (H p u Hp). lia.
Qed.

Lemma booking_bk_users env phone meeting_data w :
  bk_users (booking env phone meeting_data w) = users_after env w phone.
Proof.
  unfold booking. destruct (planned_end _ _ _); [| reflexivity].
  destruct (fst (calendar_answer _ _ _ _)); [| reflexivity].
  destruct (bind_kwargs _ _); reflexivity.
Qed.

Lemma booking_refused env phone meeting_data w :
  google_token (users w) phone = None ->
  (exists e, bk_result (booking env phone meeting_data w) = Failure e
     /\ (forall delta end_time,
            timedelta_minutes env (dict_get_default meeting_data "duration_minutes" (PInt 30))
            = Ret delta ->
            datetime_add_us
              (_parse_datetime (datetime_now env (tick w)) (dict_get meeting_data "date")
                 (dict_get meeting_data "time")) delta = Ret end_time ->
            e = "User not authenticated with Google"))
  /\ bk_meetings (booking env phone meeting_data w) = meetings w
  /\ bk_tick (booking env phone meeting_data w) = tick w.
Proof.
  intros Hg.
  unfold booking, planned_end, planned_start.
  rewrite (google_token_after env w phone Hg).
  destruct (timedelta_minutes env _) as [delta|e]; simpl.
  2:{ split; [| auto]. eexists. split; [reflexivity |]. intros ? ? [=]. }
  destruct (datetime_add_us _ delta) as [end_time|e] eqn:Ee; simpl.
  2:{ split; [| auto]. eexists. split; [reflexivity |].
      intros ? ? [= <-] H. rewrite Ee in H. discriminate H. }
  split; [| auto]. eexists. split; [reflexivity | auto].
Qed.

(** [create_meeting] for a sender with no usable Google refresh token
    (unknown, never connected, or with an empty token) stores no meeting
    and makes no call to the outside; unless the times asked for could
    not be computed, the reason given is that the user is not
    authenticated with Google. *)
Theorem booking_needs_a_google_token env phone meeting_data w o w' l :
  google_token (users w) phone = None ->
  create_meeting env phone meeting_data w = (o, w', l) ->
  (exists e, o = Ret (Failure e)
     /\ (forall delta end_time,
            timedelta_minutes env (dict_get_default meeting_data "duration_minutes" (PInt 30))
            = Ret delta ->
            datetime_add_us
              (_parse_datetime (datetime_now env (tick w)) (dict_get meeting_data "date")
                 (dict_get meeting_data "time")) delta = Ret end_time ->
            e = "User not authenticated with Google"))
  /\ meetings w' = meetings w /\ tick w' = tick w.
Proof.
  intros Hg Hrun.
  destruct (create_meeting_run _ _ _ _ _ _ _ Hrun) as (-> & _ & _ & -> & ->).
  destruct (booking_refused env phone meeting_data w Hg) as ((e & -> & He) & -> & ->).
  eauto.
Qed.

Lemma booking_needs_a_google_token_witness :
  let run := create_meeting all_fine dave_phone schedule_intent with_dave in
  (exists e, fst (fst run) = Ret (Failure e)
     /\ (forall delta end_time,
            timedelta_minutes all_fine
              (dict_get_default schedule_intent "duration_minutes" (PInt 30)) = Ret delta ->
            datetime_add_us
              (_parse_datetime (datetime_now all_fine (tick with_dave))
                 (dict_get schedule_intent "date") (dict_get schedule_intent "time")) delta
            = Ret end_time ->
            e = "User not authenticated with Google"))
  /\ meetings (snd (fst run)) = meetings with_dave
  /\ tick (snd (fst run)) = tick with_dave.
Proof.
  intros run.
  apply (booking_needs_a_google_token all_fine dave_phone schedule_intent with_dave _ _
           (snd run)).
  - vm_compute. reflexivity.
  - apply run_eta.
Defined.

(** A phone number seen for the first time is registered by
    [create_meeting] before anything else: the new user has no token of
    either service and an id above every id in use, the other users are
    as they were, and the user stays registered although the booking
    itself is refused and no meeting is stored. *)
Theorem unknown_sender_is_registered env phone meeting_data w o w' l :
  users w !! phone = None ->
  create_meeting env phone meeting_data w = (o, w', l) ->
  exists u,
    users w' = <[phone := u]> (users w)
    /\ User.google_refresh_token u = None /\ User.todoist_token u = None
    /\ User.created_at u = datetime_utcnow env (tick w)
    /\ (forall p u', users w !! p = Some u' -> User.id u' < User.id u)
    /\ (exists e, o = Ret (Failure e))
    /\ meetings w' = meetings w.
Proof.
  intros Hu Hrun.
  assert (Hg : google_token (users w) phone = None)
    by (unfold google_token; rewrite Hu; reflexivity).
  destruct (create_meeting_run _ _ _ _ _ _ _ Hrun) as (-> & _ & U & -> & _).
  destruct (booking_refused env phone meeting_data w Hg) as ((e & -> & _) & -> & _).
  rewrite booking_bk_users in U. unfold users_after, registered in U. rewrite Hu in U.
  eexists. split; [exact U |]. simpl.
  repeat split; eauto using next_user_id_above.
Qed.

Lemma unknown_sender_is_registered_witness :
  let run := create_meeting all_fine carol_phone schedule_intent two_users in
  exists u,
    users (snd (fst run)) = <[carol_phone := u]> (users two_users)
    /\ User.google_refresh_token u = None /\ User.todoist_token u = None
    /\ User.created_at u = datetime_utcnow all_fine (tick two_users)
    /\ (forall p u', users two_users !! p = Some u' -> User.id u' < User.id u)
    /\ (exists e, fst (fst run) = Ret (Failure e))
    /\ meetings (snd (fst run)) = meetings two_users.
Proof.
  intros run.
  apply (unknown_sender_is_registered all_fine carol_phone schedule_intent two_users _ _
           (snd run)).
  - vm_compute. reflexivity.
  - apply run_eta.
Defined.

(** [create_meeting] never alters what is stored: every meeting and every
    user that was there before the run is there after it, unchanged. *)
Theorem create_meeting_keeps_stored_rows env phone meeting_data w o w' l :
  create_meeting env phone meeting_data w = (o, w', l) ->
  (forall id m, meetings w !! id = Some m -> meetings w' !! id = Some m)
  /\ (forall p u, users w !! p = Some u -> users w' !! p = Some u).
Proof.
  intros Hrun.
  destruct (create_meeting_run _ _ _ _ _ _ _ Hrun) as (_ & _ & -> & -> & _).
  rewrite booking_bk_users. split.
  - intros id m Hm. unfold booking.
    destruct (planned_end _ _ _); [| exact Hm].
    destruct (fst (calendar_answer _ _ _ _)); [| exact Hm].
    destruct (bind_kwargs _ _); [| exact Hm]. simpl.
    rewrite lookup_insert_ne; [exact Hm |].
    intros <-. rewrite next_meeting_id_fresh in Hm. discriminate Hm.
  - intros p u Hp. unfold users_after.
    destruct (users w !! phone) eqn:E; [exact Hp |].
    rewrite lookup_insert_ne; [exact Hp |]. intros <-. congruence.
Qed.

Lemma create_meeting_keeps_stored_rows_witness :
  let run := create_meeting all_fine alice_phone schedule_intent bob_has_a_meeting in
  (forall id m, meetings bob_has_a_meeting !! id = Some m
                -> meetings (snd (fst run)) !! id = Some m)
  /\ (forall p u, users bob_has_a_meeting !! p = Some u
                  -> users (snd (fst run)) !! p = Some u).
Proof.
  intros run.
  apply (create_meeting_keeps_stored_rows all_fine alice_phone schedule_intent
           bob_has_a_meeting (fst (fst run)) (snd (fst run)) (snd run)).
  apply run_eta.
Defined.



(** A title that is no text is stored as the column keeps it: [True]
    goes to the calendar as it is and is stored, and named in the
    reminder, as the text [1]. *)
Example boolean_title_is_stored_as_text :
  let run := create_meeting all_fine alice_phone
               (<["title" := PBool true]> schedule_intent) two_users in
  fst (fst run) = Ret (Success (mkMeetingCreated 1 "evt-1"))
  /\ (exists m, meetings (snd (fst run)) = {[ 1 := m ]} /\ Meeting.title m = PStr "1")
  /\ exists td r,
       snd run
       = [EvCreateMeeting alice_phone (<["title" := PBool true]> schedule_intent);
          EvCreateEvent alice_phone
            (mkEventData (PBool true)
               (mkdatetime (mkdate 2025 3 10) (mktime 15 30 0 0))
               (mkdatetime (mkdate 2025 3 10) (mktime 16 0 0 0))
               PNone (PStr "UTC") (PList []))
            (Success (mkCreatedEvent "evt-1" None));
          EvCreateTask alice_phone td r]
       /\ td_content td = "📅 Meeting: 1".
Proof.
  intros run. split; [vm_compute; reflexivity |].
  split; [eexists; split; [vm_compute; reflexivity | reflexivity] |].
  eexists _, _. split; [vm_compute; reflexivity | reflexivity].
Qed.

(** A place given as a list cannot be stored: the calendar has created
    the event by then, the commit raises, and the run ends in a failure
    with no meeting stored and no reminder asked for. *)
Example list_location_is_not_stored :
  let data := <["location" := PList [PStr "Room 4"]]> schedule_intent in
  let run := create_meeting all_fine alice_phone data two_users in
  fst (fst run)
  = Ret (Failure (insert_error (sqlite all_fine) noon_4_march
                    (Meeting.mk_kwargs 1 "evt-1" (PStr "Meeting")
                       (mkdatetime (mkdate 2025 3 10) (mktime 15 30 0 0))
                       (mkdatetime (mkdate 2025 3 10) (mktime 16 0 0 0))
                       (PList [PStr "Room 4"]) (PStr "in-person"))))
  /\ meetings (snd (fst run)) = meetings two_users
  /\ snd run
     = [EvCreateMeeting alice_phone data;
        EvCreateEvent alice_phone
          (mkEventData (PStr "Meeting")
             (mkdatetime (mkdate 2025 3 10) (mktime 15 30 0 0))
             (mkdatetime (mkdate 2025 3 10) (mktime 16 0 0 0))
             (PList [PStr "Room 4"]) (PStr "UTC") (PList []))
          (Success (mkCreatedEvent "evt-1" None))].
Proof. intros data run. repeat split; vm_compute; reflexivity. Qed.

(** What a successful run of [create_meeting] has stored. *)
Lemma booking_success env phone meeting_data w mc :
  bk_result (booking env phone meeting_data w) = Success mc ->
  exists end_time created kept,
    planned_end env (datetime_now env (tick w)) meeting_data = Ret end_time
    /\ fst (calendar_answer env (google_token (users_after env w phone) phone) (tick w)
              (planned_event (planned_start (datetime_now env (tick w)) meeting_data)
                 end_time meeting_data)) = Success created
    /\ bind_kwargs (sqlite env)
         (planned_kwargs (registered env w phone) created
            (planned_start (datetime_now env (tick w)) meeting_data) end_time meeting_data)
       = Some kept
    /\ mc = mkMeetingCreated (next_meeting_id (meetings w)) (event_id created)
    /\ booking env phone meeting_data w
       = let ed := planned_event (planned_start (datetime_now env (tick w)) meeting_data)
                     end_time meeting_data in
         let calendar :=
           calendar_answer env (google_token (users_after env w phone) phone) (tick w) ed in
         let m := Meeting.inserted (datetime_utcnow env (snd calendar)) kept in
         let task := task_answer env (stored_todoist_token (users_after env w phone) phone)
                       (snd calendar) (reminder env m) in
         mkBooking (Success mc) (users_after env w phone)
                   (<[next_meeting_id (meetings w) := m]> (meetings w))
                   [EvCreateMeeting phone meeting_data;
                    EvCreateEvent phone ed (Success created);
                    EvCreateTask phone (reminder env m) (fst task)]
                   (snd task).
Proof.
  unfold booking.
  destruct (planned_end _ _ _) as [end_time|e]; [| discriminate].
  destruct (fst (calendar_answer _ _ _ _)) as [created|err] eqn:Ec; [| discriminate].
  destruct (bind_kwargs _ _) as [kept|] eqn:Ek; [| discriminate].
  simpl. intros [= <-]. exists end_time, created, kept. rewrite Ec. auto.
Qed.

(** The meeting a successful run of [create_meeting] stores is the one
    asked for: it is stored under a key that was free, belongs to the
    sender, starts at the time [_parse_datetime] reads from the request
    and ends the requested duration later. Its title, place and kind are
    what the text columns keep of the values of the request ([Meeting]
    and [in-person] where the request has no title or kind): a text or
    [None] as it is, [True] as the text [1], a number as its text. The
    event the calendar was asked to create has the values of the request
    themselves, with the same start and end, and its id is the one
    stored with the meeting and returned. *)
Theorem stored_meeting_is_the_one_asked_for env phone meeting_data w mc w' l :
  create_meeting env phone meeting_data w = (Ret (Success mc), w', l) ->
  exists m u delta created,
    meetings w !! meeting_id mc = None
    /\ meetings w' !! meeting_id mc = Some m
    /\ users w' !! phone = Some u /\ Meeting.user_id m = User.id u
    /\ Meeting.start_time m
       = _parse_datetime (datetime_now env (tick w)) (dict_get meeting_data "date")
           (dict_get meeting_data "time")
    /\ timedelta_minutes env (dict_get_default meeting_data "duration_minutes" (PInt 30))
       = Ret delta
    /\ datetime_add_us (Meeting.start_time m) delta = Ret (Meeting.end_time m)
    /\ bind_text (sqlite env) (dict_get_default meeting_data "title" (PStr "Meeting"))
       = Some (Meeting.title m)
    /\ bind_text (sqlite env) (dict_get meeting_data "location") = Some (Meeting.location m)
    /\ bind_text (sqlite env)
         (dict_get_default meeting_data "meeting_type" (PStr "in-person"))
       = Some (Meeting.meeting_type m)
    /\ Meeting.google_event_id m = Some (mc_event_id mc)
    /\ Meeting.todoist_task_id m = None
    /\ Meeting.status m = "scheduled"
    /\ In (EvCreateEvent phone
             (mkEventData (dict_get_default meeting_data "title" (PStr "Meeting"))
                (Meeting.start_time m) (Meeting.end_time m)
                (dict_get meeting_data "location")
                (dict_get_default meeting_data "timezone" (PStr "UTC"))
                (dict_get_default meeting_data "participants" (PList [])))
             (Success created)) l
    /\ event_id created = mc_event_id mc.
Proof.
  intros Hrun.
  destruct (create_meeting_run _ _ _ _ _ _ _ Hrun) as (Ho & -> & U & Mt & _).
  injection Ho as Ho. symmetry in Ho.
  destruct (booking_success _ _ _ _ _ Ho)
    as (end_time & created & kept & He & Hc & Hk & -> & Hb).
  rewrite Hb in U, Mt |- *. cbv zeta in U, Mt |- *. simpl in U, Mt |- *.
  destruct (bind_kwargs_keeps _ _ _ Hk) as (Kuser & Kevent & Kstart & Kend & Kt & Kl & Kk).
  simpl in Kuser, Kevent, Kstart, Kend, Kt, Kl, Kk.
  unfold planned_end, planned_start in *.
  destruct (timedelta_minutes env _) as [delta|e]; [| discriminate He]. simpl in He.
  eexists _, (registered env w phone), delta, created.
  split; [apply next_meeting_id_fresh |].
  split; [rewrite Mt; apply lookup_insert_eq |].
  split; [rewrite U; apply registered_after |].
  simpl. rewrite Kuser, Kevent, Kstart, Kend.
  repeat split; auto.
Qed.

Lemma stored_meeting_is_the_one_asked_for_witness :
  let data := <["title" := PBool true]> schedule_intent in
  let run := create_meeting all_fine alice_phone data bob_has_a_meeting in
  exists m u delta created,
    meetings bob_has_a_meeting !! 8 = None
    /\ meetings (snd (fst run)) !! 8 = Some m
    /\ users (snd (fst run)) !! alice_phone = Some u /\ Meeting.user_id m = User.id u
    /\ Meeting.start_time m = mkdatetime (mkdate 2025 3 10) (mktime 15 30 0 0)
    /\ timedelta_minutes all_fine (PInt 30) = Ret delta
    /\ datetime_add_us (Meeting.start_time m) delta = Ret (Meeting.end_time m)
    /\ bind_text (sqlite all_fine) (PBool true) = Some (Meeting.title m)
    /\ bind_text (sqlite all_fine) PNone = Some (Meeting.location m)
    /\ bind_text (sqlite all_fine) (PStr "in-person") = Some (Meeting.meeting_type m)
    /\ Meeting.google_event_id m = Some "evt-1"
    /\ Meeting.todoist_task_id m = None
    /\ Meeting.status m = "scheduled"
    /\ In (EvCreateEvent alice_phone
             (mkEventData (PBool true) (Meeting.start_time m) (Meeting.end_time m)
                PNone (PStr "UTC") (PList []))
             (Success created)) (snd run)
    /\ event_id created = "evt-1".
Proof.
  intros data run.
  apply (stored_meeting_is_the_one_asked_for all_fine alice_phone data
           bob_has_a_meeting (mkMeetingCreated 8 "evt-1") (snd (fst run)) (snd run)).
  vm_compute. reflexivity.
Defined.

(** The stored meeting lasts the whole number of minutes the request
    gives, and 30 minutes when the request has no entry for the
    duration. The number is taken as it is: nothing asks that it be
    positive. *)
Theorem meeting_lasts_the_minutes_asked_for env phone meeting_data w n mc w' l :
  dict_get_default meeting_data "duration_minutes" (PInt 30) = PInt n ->
  create_meeting env phone meeting_data w = (Ret (Success mc), w', l) ->
  exists m,
    meetings w' !! meeting_id mc = Some m
    /\ datetime_add_us (Meeting.start_time m) (n * 60000000) = Ret (Meeting.end_time m).
Proof.
  intros Hn Hrun.
  destruct (create_meeting_run _ _ _ _ _ _ _ Hrun) as (Ho & _ & _ & Mt & _).
  injection Ho as Ho. symmetry in Ho.
  destruct (booking_success _ _ _ _ _ Ho)
    as (end_time & created & kept & He & Hc & Hk & -> & Hb).
  rewrite Hb in Mt. cbv zeta in Mt. simpl in Mt.
  destruct (bind_kwargs_keeps _ _ _ Hk) as (_ & _ & Kstart & Kend & _).
  simpl in Kstart, Kend.
  unfold planned_end in He. rewrite Hn in He. simpl in He.
  destruct (Z.abs _ <=? _); [| destruct (_ && _)%bool; discriminate He]. simpl in He.
  eexists. split; [rewrite Mt; apply lookup_insert_eq |].
  simpl. rewrite Kstart, Kend. exact He.
Qed.

Lemma meeting_lasts_the_minutes_asked_for_witness :
  let run := create_meeting all_fine alice_phone
               (<["duration_minutes" := PInt (-45)]> schedule_intent) two_users in
  exists m,
    meetings (snd (fst run)) !! 1 = Some m
    /\ datetime_add_us (Meeting.start_time m) (-45 * 60000000) = Ret (Meeting.end_time m).
Proof.
  intros run.
  apply (meeting_lasts_the_minutes_asked_for all_fine alice_phone
           (<["duration_minutes" := PInt (-45)]> schedule_intent) two_users (-45)
           (mkMeetingCreated 1 "evt-1") (snd (fst run)) (snd run)).
  - vm_compute. reflexivity.
  - vm_compute. reflexivity.
Defined.

(** After the meeting is stored, [create_meeting] asks the task service,
    once and under the sender's phone number, for a reminder of that
    meeting as it was read back from its row: due on the day the meeting
    starts, with priority 2 and the labels [meeting] and [scheduled],
    its content naming the title (and the place, when there is one) and
    its description the start, the year written as it is. The title,
    the place and the kind named are what the text columns have kept of
    the values of the request; the start is the one [_parse_datetime]
    reads from it. The task follows the calendar event in the trace and
    nothing follows it. *)
Theorem reminder_is_for_the_stored_meeting env phone meeting_data w mc w' l :
  create_meeting env phone meeting_data w = (Ret (Success mc), w', l) ->
  exists m ed created r,
    meetings w' !! meeting_id mc = Some m
    /\ bind_text (sqlite env) (dict_get_default meeting_data "title" (PStr "Meeting"))
       = Some (Meeting.title m)
    /\ bind_text (sqlite env) (dict_get meeting_data "location") = Some (Meeting.location m)
    /\ bind_text (sqlite env)
         (dict_get_default meeting_data "meeting_type" (PStr "in-person"))
       = Some (Meeting.meeting_type m)
    /\ Meeting.start_time m
       = _parse_datetime (datetime_now env (tick w)) (dict_get meeting_data "date")
           (dict_get meeting_data "time")
    /\ l = [EvCreateMeeting phone meeting_data;
            EvCreateEvent phone ed (Success created);
            EvCreateTask phone (reminder env m) r]
    /\ td_due_date (reminder env m) = dt_date (Meeting.start_time m)
    /\ td_priority (reminder env m) = 2
    /\ td_labels (reminder env m) = ["meeting"; "scheduled"]
    /\ td_content (reminder env m)
       = (if truthy (Meeting.location m)
          then ("📅 Meeting: " +:+ py_str env (Meeting.title m))
               +:+ " at " +:+ py_str env (Meeting.location m)
          else "📅 Meeting: " +:+ py_str env (Meeting.title m))
    /\ td_description (reminder env m)
       = (if truthy (Meeting.meeting_type m)
          then ("Meeting scheduled for " +:+ strftime_ymd_hm (Meeting.start_time m))
               +:+ nl +:+ "Type: " +:+ py_str env (Meeting.meeting_type m)
          else "Meeting scheduled for " +:+ strftime_ymd_hm (Meeting.start_time m)).
Proof.
  intros Hrun.
  destruct (create_meeting_run _ _ _ _ _ _ _ Hrun) as (Ho & -> & _ & Mt & _).
  injection Ho as Ho. symmetry in Ho.
  destruct (booking_success _ _ _ _ _ Ho)
    as (end_time & created & kept & He & Hc & Hk & -> & Hb).
  rewrite Hb in Mt |- *. cbv zeta in Mt |- *. simpl in Mt |- *.
  destruct (bind_kwargs_keeps _ _ _ Hk) as (_ & _ & Kstart & _ & Kt & Kl & Kk).
  simpl in Kstart, Kt, Kl, Kk.
  eexists _, _, created, _.
  split; [rewrite Mt; apply lookup_insert_eq |].
  split; [exact Kt |]. split; [exact Kl |]. split; [exact Kk |].
  split; [exact Kstart |].
  split; [reflexivity |].
  repeat split.
Qed.

Lemma reminder_is_for_the_stored_meeting_witness :
  let data := <["title" := PBool true]> (<["location" := PStr "Room 4"]> schedule_intent) in
  let run := create_meeting tasks_down alice_phone data two_users in
  exists m ed created r,
    meetings (snd (fst run)) !! 1 = Some m
    /\ bind_text (sqlite tasks_down) (PBool true) = Some (Meeting.title m)
    /\ bind_text (sqlite tasks_down) (PStr "Room 4") = Some (Meeting.location m)
    /\ bind_text (sqlite tasks_down) (PStr "in-person") = Some (Meeting.meeting_type m)
    /\ Meeting.start_time m = mkdatetime (mkdate 2025 3 10) (mktime 15 30 0 0)
    /\ snd run
       = [EvCreateMeeting alice_phone data;
          EvCreateEvent alice_phone ed (Success created);
          EvCreateTask alice_phone (reminder tasks_down m) r]
    /\ td_due_date (reminder tasks_down m) = dt_date (Meeting.start_time m)
    /\ td_priority (reminder tasks_down m) = 2
    /\ td_labels (reminder tasks_down m) = ["meeting"; "scheduled"]
    /\ td_content (reminder tasks_down m)
       = (if truthy (Meeting.location m)
          then ("📅 Meeting: " +:+ py_str tasks_down (Meeting.title m))
               +:+ " at " +:+ py_str tasks_down (Meeting.location m)
          else "📅 Meeting: " +:+ py_str tasks_down (Meeting.title m))
    /\ td_description (reminder tasks_down m)
       = (if truthy (Meeting.meeting_type m)
          then ("Meeting scheduled for " +:+ strftime_ymd_hm (Meeting.start_time m))
               +:+ nl +:+ "Type: " +:+ py_str tasks_down (Meeting.meeting_type m)
          else "Meeting scheduled for " +:+ strftime_ymd_hm (Meeting.start_time m)).
Proof.
  intros data run.
  apply (reminder_is_for_the_stored_meeting tasks_down alice_phone data two_users
           (mkMeetingCreated 1 "evt-1") (snd (fst run)) (snd run)).
  vm_compute. reflexivity.
Defined.

(** The reminder of a meeting in the year 999 with [True] for a title. *)
Example reminder_of_an_early_year :
  td_content
    (reminder all_fine
       (Meeting.mk 1 (Some "evt-1") None (PStr "1")
          (mkdatetime (mkdate 999 1 1) (mktime 15 30 0 0))
          (mkdatetime (mkdate 999 1 1) (mktime 16 0 0 0))
          PNone PNone "scheduled" noon_4_march))
  = "📅 Meeting: 1"
  /\ td_description
       (reminder all_fine
          (Meeting.mk 1 (Some "evt-1") None (PStr "1")
             (mkdatetime (mkdate 999 1 1) (mktime 15 30 0 0))
             (mkdatetime (mkdate 999 1 1) (mktime 16 0 0 0))
             PNone PNone "scheduled" noon_4_march))
     = "Meeting scheduled for 999-01-01 15:30".
Proof. split; reflexivity. Qed.

(** Booking is not idempotent: a request that succeeds twice stores two
    meetings under two keys, and the second run leaves the meeting of the
    first as it was. *)
Theorem booking_twice_stores_two_meetings
    env phone1 data1 phone2 data2 w mc1 w1 l1 mc2 w2 l2 :
  create_meeting env phone1 data1 w = (Ret (Success mc1), w1, l1) ->
  create_meeting env phone2 data2 w1 = (Ret (Success mc2), w2, l2) ->
  meeting_id mc1 <> meeting_id mc2
  /\ exists m1 m2,
       meetings w1 !! meeting_id mc1 = Some m1
       /\ meetings w2 !! meeting_id mc1 = Some m1
       /\ meetings w2 !! meeting_id mc2 = Some m2.
Proof.
  intros Hrun1 Hrun2.
  destruct (create_meeting_run _ _ _ _ _ _ _ Hrun1) as (Ho1 & _ & _ & Mt1 & _).
  destruct (create_meeting_run _ _ _ _ _ _ _ Hrun2) as (Ho2 & _ & _ & Mt2 & _).
  injection Ho1 as Ho1. symmetry in Ho1. injection Ho2 as Ho2. symmetry in Ho2.
  destruct (booking_success _ _ _ _ _ Ho1) as (e1 & c1 & k1 & _ & _ & _ & -> & Hb1).
  destruct (booking_success _ _ _ _ _ Ho2) as (e2 & c2 & k2 & _ & _ & _ & -> & Hb2).
  rewrite Hb1 in Mt1. rewrite Hb2 in Mt2. cbv zeta in Mt1, Mt2. simpl in Mt1, Mt2 |- *.
  assert (H1 : meetings w1 !! next_meeting_id (meetings w) = Some
                 (Meeting.inserted
                    (datetime_utcnow env
                       (snd (calendar_answer env
                               (google_token (users_after env w phone1) phone1) (tick w)
                               (planned_event
                                  (planned_start (datetime_now env (tick w)) data1) e1 data1))))
                    k1))
    by (rewrite Mt1; apply lookup_insert_eq).
  assert (Hne : next_meeting_id (meetings w) <> next_meeting_id (meetings w1)).
  { intros Heq. rewrite Heq in H1. rewrite next_meeting_id_fresh in H1. discriminate H1. }
  split; [exact Hne |].
  eexists _, _. split; [exact H1 |].
  split; [| rewrite Mt2; apply lookup_insert_eq].
  rewrite Mt2, lookup_insert_ne by auto. exact H1.
Qed.

Lemma booking_twice_stores_two_meetings_witness :
  let run1 := create_meeting all_fine alice_phone schedule_intent two_users in
  let run2 := create_meeting all_fine alice_phone schedule_intent (snd (fst run1)) in
  1 <> 2
  /\ exists m1 m2,
       meetings (snd (fst run1)) !! 1 = Some m1
       /\ meetings (snd (fst run2)) !! 1 = Some m1
       /\ meetings (snd (fst run2)) !! 2 = Some m2.
Proof.
  intros run1 run2.
  apply (booking_twice_stores_two_meetings all_fine alice_phone schedule_intent
           alice_phone schedule_intent two_users
           (mkMeetingCreated 1 "evt-1") (snd (fst run1)) (snd run1)
           (mkMeetingCreated 2 "evt-1") (snd (fst run2)) (snd run2)).
  - vm_compute. reflexivity.
  - vm_compute. reflexivity.
Defined.

(* ===================================================================== *)
(** * Cancelling                                                          *)
(* ===================================================================== *)

Lemma cancel_meeting_run env phone mid w o w' l :
  cancel_meeting env phone mid w = (o, w', l) ->
  o = Ret (cn_result (cancellation env phone mid w))
  /\ l = cn_trace (cancellation env phone mid w)
  /\ users w' = users w
  /\ meetings w' = cn_meetings (cancellation env phone mid w)
  /\ tick w' = cn_tick (cancellation env phone mid w).
Proof. intros E. exact (wp_run _ _ _ _ _ _ E (cancel_meeting_cancels env phone mid w)). Qed.

(** [cancel_meeting] for a key under which no meeting is stored answers
    [Meeting not found]: no deletion is asked of the calendar or of the
    task service, no call is made to the outside, and both tables are as
    they were. *)
Theorem cancel_of_a_missing_meeting_does_nothing env phone meeting_id w o w' l :
  meetings w !! meeting_id = None ->
  cancel_meeting env phone meeting_id w = (o, w', l) ->
  o = Ret (Failure "Meeting not found")
  /\ l = [EvCancelMeeting phone meeting_id]
  /\ users w' = users w /\ meetings w' = meetings w /\ tick w' = tick w.
Proof.
  intros Hm Hrun.
  destruct (cancel_meeting_run _ _ _ _ _ _ _ Hrun) as (-> & -> & U & -> & ->).
  unfold cancellation. rewrite Hm. auto.
Qed.

Lemma cancel_of_a_missing_meeting_does_nothing_witness :
  let run := cancel_meeting all_fine bob_phone 8 bob_has_a_meeting in
  fst (fst run) = Ret (Failure "Meeting not found")
  /\ snd run = [EvCancelMeeting bob_phone 8]
  /\ users (snd (fst run)) = users bob_has_a_meeting
  /\ meetings (snd (fst run)) = meetings bob_has_a_meeting
  /\ tick (snd (fst run)) = tick bob_has_a_meeting.
Proof.
  intros run.
  apply (cancel_of_a_missing_meeting_does_nothing all_fine bob_phone 8 bob_has_a_meeting).
  - vm_compute. reflexivity.
  - apply run_eta.
Defined.

(** [cancel_meeting] changes one thing in the tables: the status of the
    meeting named. Its other columns, every other meeting and all users
    are as they were. *)
Theorem cancel_changes_one_status_only env phone meeting_id w o w' l :
  cancel_meeting env phone meeting_id w = (o, w', l) ->
  users w' = users w
  /\ (forall id, id <> meeting_id -> meetings w' !! id = meetings w !! id)
  /\ (forall m, meetings w !! meeting_id = Some m ->
        exists m', meetings w' !! meeting_id = Some m'
          /\ Meeting.status m' = "cancelled"
          /\ Meeting.user_id m' = Meeting.user_id m
          /\ Meeting.google_event_id m' = Meeting.google_event_id m
          /\ Meeting.todoist_task_id m' = Meeting.todoist_task_id m
          /\ Meeting.title m' = Meeting.title m
          /\ Meeting.start_time m' = Meeting.start_time m
          /\ Meeting.end_time m' = Meeting.end_time m
          /\ Meeting.location m' = Meeting.location m
          /\ Meeting.meeting_type m' = Meeting.meeting_type m
          /\ Meeting.created_at m' = Meeting.created_at m).
Proof.
  intros Hrun.
  destruct (cancel_meeting_run _ _ _ _ _ _ _ Hrun) as (_ & _ & U & -> & _).
  split; [exact U |]. unfold cancellation.
  destruct (meetings w !! meeting_id) as [m|] eqn:Em; simpl.
  - split.
    + intros id Hne. apply lookup_insert_ne. auto.
    + intros m0 [= <-]. eexists. split; [apply lookup_insert_eq |]. repeat split.
  - split; [reflexivity |]. intros m0 [=].
Qed.

Lemma cancel_changes_one_status_only_witness :
  let run := cancel_meeting all_fine bob_phone 7 bob_has_a_meeting in
  users (snd (fst run)) = users bob_has_a_meeting
  /\ (forall id, id <> 7 -> meetings (snd (fst run)) !! id = meetings bob_has_a_meeting !! id)
  /\ (forall m, meetings bob_has_a_meeting !! 7 = Some m ->
        exists m', meetings (snd (fst run)) !! 7 = Some m'
          /\ Meeting.status m' = "cancelled"
          /\ Meeting.user_id m' = Meeting.user_id m
          /\ Meeting.google_event_id m' = Meeting.google_event_id m
          /\ Meeting.todoist_task_id m' = Meeting.todoist_task_id m
          /\ Meeting.title m' = Meeting.title m
          /\ Meeting.start_time m' = Meeting.start_time m
          /\ Meeting.end_time m' = Meeting.end_time m
          /\ Meeting.location m' = Meeting.location m
          /\ Meeting.meeting_type m' = Meeting.meeting_type m
          /\ Meeting.created_at m' = Meeting.created_at m).
Proof.
  intros run.
  apply (cancel_changes_one_status_only all_fine bob_phone 7 bob_has_a_meeting
           (fst (fst run)) (snd (fst run)) (snd run)).
  apply run_eta.
Defined.

(** For a meeting booked in both services, [cancel_meeting] asks Google
    and then Todoist, once each, to delete the event and the task stored
    with the meeting, and it asks with the tokens of the caller, the
    phone number it was given: the trace records the two answers and the
    run ends in success whatever they are. *)
Theorem cancel_asks_with_the_callers_tokens
    env phone meeting_id w m event task google todoist o w' l :
  meetings w !! meeting_id = Some m ->
  Meeting.google_event_id m = Some event -> event <> "" ->
  Meeting.todoist_task_id m = Some task -> task <> "" ->
  google_token (users w) phone = Some google ->
  stored_todoist_token (users w) phone = Some todoist -> todoist <> "" ->
  cancel_meeting env phone meeting_id w = (o, w', l) ->
  o = Ret (Success "Meeting cancelled successfully")
  /\ l = [EvCancelMeeting phone meeting_id;
          EvDeleteEvent phone event
            (match google_events_delete env (tick w) google event with
             | GoogleOk _ => Success tt
             | GoogleHttpError e => Failure ("Google Calendar API error: " +:+ e)
             | GoogleRaised e => Failure ("Calendar service error: " +:+ e)
             end);
          EvDeleteTask phone task
            (match todoist_delete_task env (S (tick w)) todoist task with
             | HttpResponse status_code text _ =>
                 if status_code =? 204 then Success tt
                 else Failure (api_error status_code text)
             | HttpRaised e => Failure ("Todoist service error: " +:+ e)
             end)]
  /\ tick w' = S (S (tick w)).
Proof.
  intros Hm He Hne Ht Hnt Hg Hd Hnd Hrun.
  destruct (cancel_meeting_run _ _ _ _ _ _ _ Hrun) as (-> & -> & _ & _ & ->).
  unfold cancellation, event_deletion, task_deletion, calendar_delete_answer,
    task_delete_answer.
  rewrite Hm, He, Ht, Hg, Hd.
  destruct event as [|c1 event]; [contradiction Hne; reflexivity |].
  destruct task as [|c2 task]; [contradiction Hnt; reflexivity |].
  destruct todoist as [|c3 todoist]; [contradiction Hnd; reflexivity |].
  simpl. auto.
Qed.

Lemma cancel_asks_with_the_callers_tokens_witness :
  let run := cancel_meeting deletions_fail alice_phone 7 bob_has_a_meeting in
  fst (fst run) = Ret (Success "Meeting cancelled successfully")
  /\ snd run
     = [EvCancelMeeting alice_phone 7;
        EvDeleteEvent alice_phone "evt-bob"
          (match google_events_delete deletions_fail (tick bob_has_a_meeting)
                   "refresh-alice" "evt-bob" with
           | GoogleOk _ => Success tt
           | GoogleHttpError e => Failure ("Google Calendar API error: " +:+ e)
           | GoogleRaised e => Failure ("Calendar service error: " +:+ e)
           end);
        EvDeleteTask alice_phone "task-bob"
          (match todoist_delete_task deletions_fail (S (tick bob_has_a_meeting))
                   "token-alice" "task-bob" with
           | HttpResponse status_code text _ =>
               if status_code =? 204 then Success tt
               else Failure (api_error status_code text)
           | HttpRaised e => Failure ("Todoist service error: " +:+ e)
           end)]
  /\ tick (snd (fst run)) = S (S (tick bob_has_a_meeting)).
Proof.
  intros run.
  apply (cancel_asks_with_the_callers_tokens deletions_fail alice_phone 7 bob_has_a_meeting
           bobs_meeting "evt-bob" "task-bob" "refresh-alice" "token-alice").
  - vm_compute. reflexivity.
  - reflexivity.
  - discriminate.
  - reflexivity.
  - discriminate.
  - vm_compute. reflexivity.
  - vm_compute. reflexivity.
  - discriminate.
  - apply run_eta.
Defined.

(** A caller who has connected neither service can still cancel: the
    meeting is marked [cancelled] and success is reported, but no call is
    made to the outside, so the calendar event and the task stay where
    they are. *)
Theorem cancel_without_tokens_deletes_nothing_outside
    env phone meeting_id w m o w' l :
  meetings w !! meeting_id = Some m ->
  google_token (users w) phone = None ->
  opt_truthy (stored_todoist_token (users w) phone) = false ->
  cancel_meeting env phone meeting_id w = (o, w', l) ->
  o = Ret (Success "Meeting cancelled successfully")
  /\ meetings w' = <[meeting_id := Meeting.set_status "cancelled" m]> (meetings w)
  /\ tick w' = tick w
  /\ (forall p e r, In (EvDeleteEvent p e r) l
        -> r = Failure "User not authenticated with Google")
  /\ (forall p t r, In (EvDeleteTask p t r) l
        -> r = Failure "User not authenticated with Todoist").
Proof.
  intros Hm Hg Hd Hrun.
  destruct (cancel_meeting_run _ _ _ _ _ _ _ Hrun) as (-> & -> & _ & -> & ->).
  unfold cancellation, event_deletion, task_deletion, calendar_delete_answer,
    task_delete_answer.
  rewrite Hm, Hg, Hd.
  destruct (opt_truthy (Meeting.google_event_id m)),
           (opt_truthy (Meeting.todoist_task_id m)); simpl;
    (split; [reflexivity |]); (split; [reflexivity |]); (split; [reflexivity |]);
    split; intros p x r H;
    repeat (destruct H as [H | H]; [try discriminate H; injection H as _ _ <-; reflexivity |]);
    destruct H.
Qed.

Lemma cancel_without_tokens_deletes_nothing_outside_witness :
  let run := cancel_meeting all_fine dave_phone 7 with_dave in
  fst (fst run) = Ret (Success "Meeting cancelled successfully")
  /\ meetings (snd (fst run))
     = <[7 := Meeting.set_status "cancelled" bobs_meeting]> (meetings with_dave)
  /\ tick (snd (fst run)) = tick with_dave
  /\ (forall p e r, In (EvDeleteEvent p e r) (snd run)
        -> r = Failure "User not authenticated with Google")
  /\ (forall p t r, In (EvDeleteTask p t r) (snd run)
        -> r = Failure "User not authenticated with Todoist").
Proof.
  intros run.
  apply (cancel_without_tokens_deletes_nothing_outside all_fine dave_phone 7 with_dave
           bobs_meeting).
  - vm_compute. reflexivity.
  - vm_compute. reflexivity.
  - vm_compute. reflexivity.
  - apply run_eta.
Defined.

(** Cancelling again asks again: a second [cancel_meeting] of the same
    meeting by the same caller makes the same requests for deletion as
    the first, in the same order, and as many calls to the outside; the
    references of a cancelled meeting are kept and nothing tells the run
    that the deletions were already asked for. *)
Theorem second_cancel_asks_the_deletions_again
    env phone meeting_id w o1 w1 l1 o2 w2 l2 :
  cancel_meeting env phone meeting_id w = (o1, w1, l1) ->
  cancel_meeting env phone meeting_id w1 = (o2, w2, l2) ->
  Forall2 same_request l1 l2
  /\ (tick w2 - tick w1 = tick w1 - tick w)%nat.
Proof.
  intros Hrun1 Hrun2.
  destruct (cancel_meeting_run _ _ _ _ _ _ _ Hrun1) as (_ & -> & U1 & Mt1 & T1).
  destruct (cancel_meeting_run _ _ _ _ _ _ _ Hrun2) as (_ & -> & _ & _ & ->).
  clear Hrun1 Hrun2.
  unfold cancellation in *. rewrite U1.
  destruct (meetings w !! meeting_id) as [m|] eqn:Em; simpl in Mt1, T1; rewrite Mt1.
  2:{ rewrite Em. simpl. rewrite T1.
      split; [repeat first [apply List.Forall2_nil | apply List.Forall2_cons; [simpl; auto |]] | lia]. }
  rewrite lookup_insert_eq. simpl. revert T1.
  unfold event_deletion, task_deletion, calendar_delete_answer, task_delete_answer. simpl.
  generalize (tick w) (tick w1). intros t t1.
  destruct (opt_truthy (Meeting.google_event_id m)),
           (opt_truthy (Meeting.todoist_task_id m)),
           (google_token (users w) phone),
           (opt_truthy (stored_todoist_token (users w) phone)); simpl; intros ->;
    (split; [repeat first [apply List.Forall2_nil | apply List.Forall2_cons; [simpl; auto |]] | lia]).
Qed.

Lemma second_cancel_asks_the_deletions_again_witness :
  let run1 := cancel_meeting deletions_fail alice_phone 7 bob_has_a_meeting in
  let run2 := cancel_meeting deletions_fail alice_phone 7 (snd (fst run1)) in
  Forall2 same_request (snd run1) (snd run2)
  /\ (tick (snd (fst run2)) - tick (snd (fst run1))
      = tick (snd (fst run1)) - tick bob_has_a_meeting)%nat.
Proof.
  intros run1 run2.
  apply (second_cancel_asks_the_deletions_again deletions_fail alice_phone 7
           bob_has_a_meeting (fst (fst run1)) (snd (fst run1)) (snd run1)
           (fst (fst run2)) (snd (fst run2)) (snd run2)).
  - apply run_eta.
  - apply run_eta.
Defined.

(** What the lost task reference costs: when a meeting that
    [create_meeting] has just stored is cancelled, by whoever asks, the
    run succeeds and marks it [cancelled], asks the calendar to delete
    the event that was created for it, and never asks the task service
    to delete anything: the reminder stays in Todoist. *)
Theorem cancelling_a_new_meeting_leaves_its_reminder
    env phone meeting_data w mc w1 l1 env' phone' o w2 l2 :
  create_meeting env phone meeting_data w = (Ret (Success mc), w1, l1) ->
  cancel_meeting env' phone' (meeting_id mc) w1 = (o, w2, l2) ->
  o = Ret (Success "Meeting cancelled successfully")
  /\ (exists m, meetings w2 !! meeting_id mc = Some m /\ Meeting.status m = "cancelled")
  /\ (forall p t r, ~ In (EvDeleteTask p t r) l2)
  /\ (mc_event_id mc <> "" ->
      exists r, l2 = [EvCancelMeeting phone' (meeting_id mc);
                      EvDeleteEvent phone' (mc_event_id mc) r]).
Proof.
  intros Hrun1 Hrun2.
  destruct (create_meeting_run _ _ _ _ _ _ _ Hrun1) as (Ho & _ & _ & Mt1 & _).
  injection Ho as Ho. symmetry in Ho.
  destruct (booking_success _ _ _ _ _ Ho)
    as (end_time & created & kept & _ & _ & Hk & -> & Hb).
  rewrite Hb in Mt1. cbv zeta in Mt1. simpl in Mt1.
  destruct (bind_kwargs_keeps _ _ _ Hk) as (_ & Kevent & _). simpl in Kevent.
  destruct (cancel_meeting_run _ _ _ _ _ _ _ Hrun2) as (-> & -> & _ & -> & _).
  unfold cancellation. simpl. rewrite Mt1, lookup_insert_eq. simpl.
  unfold event_deletion, task_deletion. simpl. rewrite Kevent.
  split; [reflexivity |].
  split; [eexists; split; [apply lookup_insert_eq | reflexivity] |].
  rewrite app_nil_r.
  split.
  - intros p t r [H | H]; [discriminate H |].
    destruct (event_id created) as [|c s]; simpl in H; [destruct H |].
    destruct H as [H | []]. discriminate H.
  - intros Hne. destruct (event_id created) as [|c s]; [contradiction Hne; reflexivity |].
    simpl. eauto.
Qed.

Lemma cancelling_a_new_meeting_leaves_its_reminder_witness :
  let run1 := create_meeting all_fine alice_phone schedule_intent two_users in
  let run2 := cancel_meeting all_fine alice_phone 1 (snd (fst run1)) in
  fst (fst run2) = Ret (Success "Meeting cancelled successfully")
  /\ (exists m, meetings (snd (fst run2)) !! 1 = Some m /\ Meeting.status m = "cancelled")
  /\ (forall p t r, ~ In (EvDeleteTask p t r) (snd run2))
  /\ ("evt-1" <> "" ->
      exists r, snd run2 = [EvCancelMeeting alice_phone 1;
                            EvDeleteEvent alice_phone "evt-1" r]).
Proof.
  intros run1 run2.
  apply (cancelling_a_new_meeting_leaves_its_reminder all_fine alice_phone schedule_intent
           two_users (mkMeetingCreated 1 "evt-1") (snd (fst run1)) (snd run1)
           all_fine alice_phone).
  - vm_compute. reflexivity.
  - apply run_eta.
Defined.

(* ===================================================================== *)
(** * The conversation memory                                             *)
(* ===================================================================== *)

Lemma get_embedding_run env text w :
  get_embedding env text w
  = (Ret (embedding_of env (tick w) text), set_tick (S (tick w)) w, []).
Proof.
  unfold get_embedding, embedding_of, try_except, bind, oracle, lift. simpl.
  destruct (openai_embedding env (tick w) text); reflexivity.
Qed.

Lemma get_relevant_context_run env phone_number message limit w :
  get_relevant_context env phone_number message limit w
  = if is_nil (embedding_of env (tick w) message)
    then (Ret [], set_tick (S (tick w)) w, [])
    else (Ret (match qdrant_fault env (S (tick w)) with
               | Some _ => []
               | None =>
                   map hit_of
                     (search_hits env (embedding_of env (tick w) message) phone_number
                        limit (points w))
               end),
          set_tick (S (S (tick w))) w, []).
Proof.
  unfold get_relevant_context, try_except, bind. rewrite get_embedding_run.
  destruct (is_nil _); [reflexivity |].
  unfold qdrant_search, bind, oracle, get_world, ret, raise. simpl.
  destruct (qdrant_fault env (S (tick w))); reflexivity.
Qed.

Lemma store_conversation_context_run env phone_number message context w :
  store_conversation_context env phone_number message context w
  = let v := embedding_of env (tick w) (searchable_text env phone_number message context) in
    if is_nil v then (Ret tt, set_tick (S (tick w)) w, [])
    else
      let now := datetime_now env (S (tick w)) in
      let point :=
        mkPoint (py_hash env (phone_number +:+ "_" +:+ datetime_isoformat now)) v
                (mkPayload phone_number message context (datetime_isoformat now)) in
      match qdrant_fault env (S (tick w)) with
      | Some _ => (Ret tt, set_tick (S (S (tick w))) w, [])
      | None =>
          (Ret tt, set_points (upsert_point point) (set_tick (S (S (tick w))) w), [])
      end.
Proof.
  unfold store_conversation_context, try_except, bind. rewrite get_embedding_run.
  fold (searchable_text env phone_number message context).
  cbv zeta. destruct (is_nil _); [reflexivity |].
  unfold clock, qdrant_upsert, bind, oracle, modify, raise. simpl.
  destruct (qdrant_fault env (S (tick w))); reflexivity.
Qed.

Lemma In_insert_by {A} (before : A -> A -> bool) (x y : A) (l : list A) :
  In y (insert_by before x l) <-> y = x \/ In y l.
Proof.
  induction l as [|z l IH]; simpl.
  - intuition congruence.
  - destruct (before x z); simpl; rewrite ?IH; intuition congruence.
Qed.

Lemma In_sort_by {A} (before : A -> A -> bool) (y : A) (l : list A) :
  In y (sort_by before l) <-> In y l.
Proof.
  unfold sort_by. induction l as [|x l IH]; simpl; [tauto |].
  rewrite In_insert_by, IH. intuition congruence.
Qed.

Lemma length_insert_by {A} (before : A -> A -> bool) (x : A) (l : list A) :
  length (insert_by before x l) = S (length l).
Proof.
  induction l as [|z l IH]; simpl; [reflexivity |].
  destruct (before x z); simpl; congruence.
Qed.

Lemma length_sort_by {A} (before : A -> A -> bool) (l : list A) :
  length (sort_by before l) = length l.
Proof.
  unfold sort_by. induction l as [|x l IH]; simpl; [reflexivity |].
  rewrite length_insert_by. congruence.
Qed.

Lemma In_upsert_point p ps : In p (upsert_point p ps).
Proof.
  induction ps as [|q ps IH]; simpl; [auto |].
  destruct (pt_id q =? pt_id p); simpl; auto.
Qed.

(** [get_relevant_context] never raises and returns [limit] entries at
    most. When the message cannot be embedded (the request fails or
    gives an empty vector) it returns the empty list after that one
    call, without searching the collection; it returns the empty list as
    well when the search fails. *)
Theorem context_is_limited_and_degrades env phone_number message limit w :
  exists hits w',
    get_relevant_context env phone_number message limit w = (Ret hits, w', [])
    /\ (length hits <= limit)%nat
    /\ (embedding_of env (tick w) message = [] -> hits = [] /\ tick w' = S (tick w))
    /\ (forall e, qdrant_fault env (S (tick w)) = Some e -> hits = []).
Proof.
  rewrite get_relevant_context_run.
  destruct (embedding_of env (tick w) message) as [|x v]; simpl is_nil; cbv iota.
  { eexists _, _. split; [reflexivity |]. simpl. split; [lia | auto]. }
  eexists _, _. split; [reflexivity |].
  split; [| split; [discriminate | intros e ->; reflexivity]].
  destruct (qdrant_fault env _); [simpl; lia |].
  unfold search_hits. rewrite length_map, length_take. lia.
Qed.

Lemma context_is_limited_and_degrades_witness :
  exists hits w',
    get_relevant_context no_embeddings alice_phone "when is lunch?" 5 both_talked
    = (Ret hits, w', [])
    /\ (length hits <= 5)%nat
    /\ (embedding_of no_embeddings (tick both_talked) "when is lunch?" = []
        -> hits = [] /\ tick w' = S (tick both_talked))
    /\ (forall e, qdrant_fault no_embeddings (S (tick both_talked)) = Some e -> hits = []).
Proof.
  exact (context_is_limited_and_degrades no_embeddings alice_phone "when is lunch?" 5
           both_talked).
Defined.

(** [store_conversation_context] never raises and leaves the two tables
    alone. It changes the collection by one upsert at most, of a point
    that carries the phone number, the message and the context it was
    given; when the text cannot be embedded nothing is stored and the
    collection is not called. *)
Theorem store_writes_one_turn_at_most env phone_number message context w :
  exists w',
    store_conversation_context env phone_number message context w = (Ret tt, w', [])
    /\ users w' = users w /\ meetings w' = meetings w
    /\ (points w' = points w
        \/ exists p, points w' = upsert_point p (points w)
             /\ pt_payload p
                = mkPayload phone_number message context
                    (datetime_isoformat (datetime_now env (S (tick w))))
             /\ pt_vector p
                = embedding_of env (tick w)
                    (searchable_text env phone_number message context)
             /\ pt_vector p <> [])
    /\ (embedding_of env (tick w) (searchable_text env phone_number message context) = []
        -> points w' = points w /\ tick w' = S (tick w)).
Proof.
  rewrite store_conversation_context_run. cbv zeta.
  destruct (embedding_of env (tick w) _) as [|x v] eqn:Ev; simpl.
  { eexists. split; [reflexivity |]. simpl. auto 6. }
  destruct (qdrant_fault env _); eexists; (split; [reflexivity |]); simpl.
  - repeat split; auto. discriminate.
  - split; [reflexivity |]. split; [reflexivity |]. split; [| discriminate].
    right. eexists. split; [reflexivity |]. simpl. repeat split. discriminate.
Qed.

Lemma store_writes_one_turn_at_most_witness :
  exists w',
    store_conversation_context no_embeddings alice_phone "hello" (PDict ∅) both_talked
    = (Ret tt, w', [])
    /\ users w' = users both_talked /\ meetings w' = meetings both_talked
    /\ (points w' = points both_talked
        \/ exists p, points w' = upsert_point p (points both_talked)
             /\ pt_payload p
                = mkPayload alice_phone "hello" (PDict ∅)
                    (datetime_isoformat (datetime_now no_embeddings (S (tick both_talked))))
             /\ pt_vector p
                = embedding_of no_embeddings (tick both_talked)
                    (searchable_text no_embeddings alice_phone "hello" (PDict ∅))
             /\ pt_vector p <> [])
    /\ (embedding_of no_embeddings (tick both_talked)
          (searchable_text no_embeddings alice_phone "hello" (PDict ∅)) = []
        -> points w' = points both_talked /\ tick w' = S (tick both_talked)).
Proof.
  exact (store_writes_one_turn_at_most no_embeddings alice_phone "hello" (PDict ∅)
           both_talked).
Defined.

(** What is stored can be retrieved: when a turn was embedded and stored,
    and a later question of the same user is embedded and searched, the
    turn is among the entries returned, with its message, its context
    and its time, provided the user has no more than [limit] turns in
    the collection. *)
Theorem stored_turn_is_retrieved
    env phone_number message context query limit w o1 w1 l1 :
  embedding_of env (tick w) (searchable_text env phone_number message context) <> [] ->
  qdrant_fault env (S (tick w)) = None ->
  store_conversation_context env phone_number message context w = (o1, w1, l1) ->
  embedding_of env (tick w1) query <> [] ->
  qdrant_fault env (S (tick w1)) = None ->
  (length (turns_of phone_number (points w1)) <= limit)%nat ->
  exists hits w2 score,
    get_relevant_context env phone_number query limit w1 = (Ret hits, w2, [])
    /\ In (mkContextHit message context
             (datetime_isoformat (datetime_now env (S (tick w)))) score) hits.
Proof.
  intros Hv Hq Hstore Hv1 Hq1 Hlimit.
  rewrite store_conversation_context_run in Hstore. cbv zeta in Hstore.
  destruct (embedding_of env (tick w) _) as [|x v] eqn:Ev; [contradiction Hv; reflexivity |].
  simpl in Hstore. rewrite Hq in Hstore. injection Hstore as _ <- _.
  rewrite get_relevant_context_run.
  destruct (embedding_of env _ query) as [|y q] eqn:Eq; [contradiction Hv1; reflexivity |].
  simpl is_nil. cbv iota. rewrite Hq1.
  set (p := mkPoint _ (x :: v) _) in *.
  eexists _, _, (similarity env (y :: q) (pt_vector p)). split; [reflexivity |].
  change (mkContextHit _ _ _ _) with (hit_of (p, similarity env (y :: q) (pt_vector p))).
  apply in_map. unfold search_hits.
  rewrite take_ge by (rewrite length_sort_by, length_map; exact Hlimit).
  apply In_sort_by.
  apply (in_map (fun p0 => (p0, similarity env (y :: q) (pt_vector p0)))).
  apply filter_In. split; [apply In_upsert_point | apply String.eqb_refl].
Qed.

Lemma stored_turn_is_retrieved_witness :
  let run := store_conversation_context all_fine alice_phone "dinner on Sunday" (PDict ∅)
               both_talked in
  exists hits w2 score,
    get_relevant_context all_fine alice_phone "when is dinner?" 5 (snd (fst run))
    = (Ret hits, w2, [])
    /\ In (mkContextHit "dinner on Sunday" (PDict ∅)
             (datetime_isoformat (datetime_now all_fine (S (tick both_talked)))) score) hits.
Proof.
  intros run.
  apply (stored_turn_is_retrieved all_fine alice_phone "dinner on Sunday" (PDict ∅)
           "when is dinner?" 5 both_talked (fst (fst run)) (snd (fst run)) (snd run)).
  - discriminate.
  - reflexivity.
  - apply run_eta.
  - discriminate.
  - reflexivity.
  - vm_compute. lia.
Defined.

Lemma get_user_meeting_history_fails env phone_number days_back w :
  exists e w', get_user_meeting_history env phone_number days_back w = (Raise e, w', []).
Proof.
  unfold get_user_meeting_history, bind, try_finally, SessionLocal, clock, lift,
    session_close, modify. simpl.
  destruct (datetime_add_us _ _); simpl; eauto.
Qed.

Lemma history_short env phone_number message w :
  wp (enhance_ai_context env phone_number message) w
     (fun o _ _ =>
        o = Ret {[ "current_message" := PStr message; "user_phone" := PStr phone_number ]}).
Proof.
  unfold wp, enhance_ai_context, try_except, bind.
  rewrite get_relevant_context_run.
  destruct (is_nil _).
  - destruct (get_user_meeting_history_fails env phone_number 30 (set_tick (S (tick w)) w))
      as (e & w1 & ->). reflexivity.
  - destruct (get_user_meeting_history_fails env phone_number 30
                (set_tick (S (S (tick w))) w)) as (e & w1 & ->). reflexivity.
Qed.

(** The history of meetings never reaches the handlers. The query of
    [get_user_meeting_history] joins [meetings] to [users], and
    [database.py] declares no foreign key between them, so the query
    cannot be built and raises; [enhance_ai_context] then gives up the
    conversation history it had already retrieved as well, and returns
    the context with the message and the sender only. *)
Theorem history_never_reaches_the_handlers env phone_number message w :
  fst (fst (enhance_ai_context env phone_number message w))
  = Ret {[ "current_message" := PStr message; "user_phone" := PStr phone_number ]}.
Proof.
  pose proof (history_short env phone_number message w) as H. unfold wp in H.
  destruct (enhance_ai_context env phone_number message w) as [[o w'] l]. exact H.
Qed.

(* ===================================================================== *)
(** * The message handler                                                 *)
(* ===================================================================== *)

Lemma str_prefix_app (p s : string) : str_prefix p (p +:+ s) = true.
Proof.
  induction p as [|c p IH]; simpl; [reflexivity |].
  rewrite Ascii.eqb_refl. exact IH.
Qed.

Lemma str_replace_from_skip (p old new s : string) :
  str_replace_from (String.length p) old new (p +:+ s) = str_replace_from O old new s.
Proof.
  induction p as [|c p IH]; simpl; [| exact IH].
  destruct s; reflexivity.
Qed.

Lemma str_replace_prefix (old s : string) :
  old <> "" -> str_replace old "" (old +:+ s) = str_replace old "" s.
Proof.
  destruct old as [|c old]; [intros H; contradiction H; reflexivity |]. intros _.
  unfold str_replace.
  change (String c old +:+ s) with (String c (old +:+ s)).
  cbn [str_replace_from].
  change (String c (old +:+ s)) with (String c old +:+ s).
  rewrite str_prefix_app. simpl Nat.pred. simpl String.length.
  simpl. apply str_replace_from_skip.
Qed.

(** The sender is known by the number alone: a message from
    [whatsapp:<number>] is handled exactly as the same message from
    [<number>], with the same reply, the same changes and the same
    calls. *)
Theorem whatsapp_prefix_is_dropped env number message w :
  process_whatsapp_message env ("whatsapp:" +:+ number) message w
  = process_whatsapp_message env number message w.
Proof.
  unfold process_whatsapp_message.
  rewrite str_replace_prefix by discriminate. reflexivity.
Qed.

(** The webhook answers every request with one message. When the form
    can be read, the message is the reply of [process_whatsapp_message]
    to the fields [From] and [Body] (empty when absent), and the changes
    and the calls are those of that run; the apology of the webhook is
    sent only when the form cannot be read. *)
Theorem webhook_answers_with_one_message env form w :
  exists body w' l,
    whatsapp_webhook env form w = (Ret [body], w', l)
    /\ match form with
       | Ret form_data =>
           process_whatsapp_message env (default "" (form_data !! "From"))
             (default "" (form_data !! "Body")) w = (Ret body, w', l)
       | Raise _ =>
           body = "Sorry, I encountered an error. Please try again later."
           /\ w' = w /\ l = []
       end.
Proof.
  unfold whatsapp_webhook, try_except, bind, lift.
  destruct form as [form_data|e]; [| eexists _, _, _; split; [reflexivity | auto]].
  destruct (process_whatsapp_message_returns env (default "" (form_data !! "From"))
              (default "" (form_data !! "Body")) w) as [reply Hr].
  destruct (process_whatsapp_message env _ _ w) as [[o w1] l1]. simpl in Hr. subst o.
  simpl. rewrite app_nil_r. eexists _, _, _. split; reflexivity.
Qed.

Lemma create_meeting_end_books phone data w o w' l :
  create_meeting_end phone data w o w' l ->
  Forall is_booking l
  /\ (forall id m, meetings w !! id = Some m -> meetings w' !! id = Some m).
Proof.
  intros H.
  destruct H as [e w' Hm | ed err w' Hm | ed created e w' Hm
                | ed created td r id m u w' Hfresh Hm].
  - split; [repeat constructor | intros; congruence].
  - split; [repeat constructor | intros; congruence].
  - split; [repeat constructor | intros; congruence].
  - split; [repeat constructor |]. intros id0 m0 Hid. rewrite Hm.
    rewrite lookup_insert_ne; [exact Hid | congruence].
Qed.

(** A message never cancels and never deletes: whatever the sender
    writes and whatever the classifier makes of it, a run of
    [process_whatsapp_message] does not enter [cancel_meeting], asks no
    deletion of the calendar or of the task service, and leaves every
    stored meeting as it was. The handlers of [cancel] and [reschedule]
    only answer with text. *)
Theorem a_message_never_cancels env from_number message w o w' l :
  process_whatsapp_message env from_number message w = (o, w', l) ->
  Forall is_booking l
  /\ (forall id m, meetings w !! id = Some m -> meetings w' !! id = Some m).
Proof.
  intros Hrun.
  refine (wp_run _ _
            (fun _ w' l =>
               Forall is_booking l
               /\ (forall id m, meetings w !! id = Some m -> meetings w' !! id = Some m))
            _ _ _ Hrun _).
  clear Hrun o w' l.
  unfold process_whatsapp_message.
  assert (Hquiet : forall (m : M string) w1,
            meetings w1 = meetings w ->
            wp m w1 (fun o w2 l2 => l2 = [] /\ w2 = w1) ->
            wp m w1 (fun o w2 l2 =>
              match o with
              | Ret a =>
                  Forall is_booking ([] ++ [] ++ [] ++ [] ++ l2)
                  /\ (forall id m0, meetings w !! id = Some m0 -> meetings w2 !! id = Some m0)
              | Raise e =>
                  wp (ret "I'm having trouble understanding that. Could you please rephrase your request?")
                     w2 (fun o2 w3 l3 =>
                           Forall is_booking (([] ++ [] ++ [] ++ [] ++ l2) ++ l3)
                           /\ (forall id m0, meetings w !! id = Some m0
                                             -> meetings w3 !! id = Some m0))
              end)).
  { intros m w1 Hm H. eapply wp_conseq; [exact H |]. cbv beta.
    intros [a|e] w2 l2 (-> & ->); [| wp_step]; simpl;
      (split; [constructor | intros; congruence]). }
  wp_steps. wp_use enhance_ai_context_wp.
  intros o w1 l1 (-> & _ & M1 & context & ->). wp_red.
  wp_step. wp_use classify_intent_wp.
  intros o w2 l2 (-> & _ & M2 & (v & ->) & _). wp_red.
  wp_step. wp_use store_conversation_context_wp.
  intros o w3 l3 (-> & _ & M3 & ->). wp_red.
  assert (Hm3 : meetings w3 = meetings w) by congruence.
  wp_step. destruct (as_dict v) as [d|e]; wp_red.
  2:{ wp_steps. simpl. split; [constructor | intros; congruence]. }
  wp_step.
  destruct (py_eq_str _ "schedule").
  { wp_use handle_schedule_request_wp.
    intros o w4 l4 [(_ & -> & -> & ->) | (_ & r & Hend & ->)]; simpl.
    - split; [constructor | intros; congruence].
    - destruct (create_meeting_end_books _ _ _ _ _ _ Hend) as (Hl & Hk).
      split; [exact Hl |]. intros id m0 Hid. apply Hk. congruence. }
  destruct (py_eq_str _ "cancel").
  { apply Hquiet; [exact Hm3 |]. wp_use handle_cancel_request_wp.
    intros ? ? ? (? & ? & _); auto. }
  destruct (py_eq_str _ "reschedule").
  { apply Hquiet; [exact Hm3 |]. wp_use handle_reschedule_request_wp.
    intros ? ? ? (? & ? & _); auto. }
  destruct (py_eq_str _ "info").
  { apply Hquiet; [exact Hm3 |]. wp_use handle_info_request_wp.
    intros ? ? ? (? & ? & _); auto. }
  wp_use generate_contextual_response_wp.
  intros o w4 l4 (-> & _ & M4 & reply & -> & _). simpl.
  split; [constructor | intros; congruence].
Qed.

Lemma a_message_never_cancels_witness :
  let run := process_whatsapp_message list_answer "whatsapp:+15550002" "cancel my demo"
               bob_has_a_meeting in
  Forall is_booking (snd run)
  /\ (forall id m, meetings bob_has_a_meeting !! id = Some m
                   -> meetings (snd (fst run)) !! id = Some m).
Proof.
  intros run.
  apply (a_message_never_cancels list_answer "whatsapp:+15550002" "cancel my demo"
           bob_has_a_meeting (fst (fst run)) (snd (fst run)) (snd run)).
  apply run_eta.
Defined.

Lemma classify_intent_answer env message content v w :
  (forall t, openai_classify env t message = ChatContent (Some content)) ->
  json_loads env content = Ret v ->
  wp (classify_intent env message) w
     (fun o w' l => o = Ret v /\ l = [] /\ users w' = users w /\ meetings w' = meetings w).
Proof.
  intros Hc Hj. unfold classify_intent. wp_steps. rewrite Hc. wp_red. wp_steps.
  rewrite Hj. wp_red. auto.
Qed.

(** Asking for one's meetings never shows them. As the history of
    meetings never reaches the handlers, a message the classifier reads
    as [cancel], [reschedule] or [info] is always answered with the
    sentence for a user who has no meeting, whatever meetings are
    stored; nothing is changed and no service of the scheduler is
    called. *)
Theorem list_requests_get_the_fixed_answer
    env from_number message content ai_result intent reply w :
  (forall t, openai_classify env t message = ChatContent (Some content)) ->
  json_loads env content = Ret (PDict ai_result) ->
  ai_result !! "intent" = Some (PStr intent) ->
  no_history_reply intent = Some reply ->
  exists w',
    process_whatsapp_message env from_number message w = (Ret reply, w', [])
    /\ users w' = users w /\ meetings w' = meetings w.
Proof.
  intros Hc Hj Hi Hr.
  assert (H : wp (process_whatsapp_message env from_number message) w
                (fun o w' l => o = Ret reply /\ l = []
                               /\ users w' = users w /\ meetings w' = meetings w)).
  { unfold process_whatsapp_message. wp_steps.
    pose proof (history_short env (str_replace "whatsapp:" "" from_number) message w) as Hs.
    eapply wp_conseq; [apply wp_and; [apply enhance_ai_context_wp | exact Hs] |]. cbv beta.
    intros o w1 l1 ((-> & U1 & M1 & _) & ->). wp_red.
    wp_step. wp_use (classify_intent_answer env message content _ w1 Hc Hj).
    intros o w2 l2 (-> & -> & U2 & M2). wp_red.
    wp_step. wp_use store_conversation_context_wp.
    intros o w3 l3 (-> & U3 & M3 & ->). wp_red.
    wp_step. unfold as_dict. wp_red. wp_steps. unfold dict_get. rewrite Hi. simpl default.
    unfold no_history_reply in Hr. unfold py_eq_str.
    destruct (String.eqb intent "cancel") eqn:E1.
    { apply String.eqb_eq in E1. subst intent. injection Hr as <-. simpl.
      repeat split; congruence. }
    destruct (String.eqb intent "reschedule") eqn:E2.
    { apply String.eqb_eq in E2. subst intent. injection Hr as <-. simpl.
      repeat split; congruence. }
    destruct (String.eqb intent "info") eqn:E3; [| discriminate Hr].
    apply String.eqb_eq in E3. subst intent. injection Hr as <-. simpl.
    repeat split; congruence. }
  unfold wp in H. destruct (process_whatsapp_message env from_number message w) as [[o w'] l].
  destruct H as (-> & -> & U & Mt). eauto.
Qed.

Lemma list_requests_get_the_fixed_answer_witness :
  exists w',
    process_whatsapp_message info_model "whatsapp:+15550002" "what is on my calendar?"
      bob_has_a_meeting
    = (Ret "I don't see any meetings in your history yet. Would you like to schedule your first meeting?",
       w', [])
    /\ users w' = users bob_has_a_meeting /\ meetings w' = meetings bob_has_a_meeting.
Proof.
  apply (list_requests_get_the_fixed_answer info_model "whatsapp:+15550002"
           "what is on my calendar?" "{}" {[ "intent" := PStr "info" ]} "info").
  - intros t. reflexivity.
  - reflexivity.
  - reflexivity.
  - reflexivity.
Defined.

(* ===================================================================== *)
(** * Connecting the services                                             *)
(* ===================================================================== *)

Lemma auth_status_run phone w :
  exists w',
    auth_status phone w
    = (Ret (match users w !! phone with
            | None => mkAuthStatus false false "User not found"
            | Some u =>
                mkAuthStatus (opt_truthy (User.google_refresh_token u))
                             (opt_truthy (User.todoist_token u))
                             "Authentication status retrieved"
            end), w', [])
    /\ frame w w' /\ tick w' = tick w.
Proof.
  unfold auth_status, bind, try_finally, SessionLocal, session_query_user, session_close,
    modify, ret. simpl.
  destruct (users w !! phone) as [u|]; simpl;
    eexists; (split; [reflexivity | split; [apply frame_session | reflexivity]]).
Qed.

(** The status endpoint and the services agree on who is connected:
    [auth_status], which writes nothing, reports the calendar as not
    connected exactly for the phone numbers for which [create_event]
    answers that the user is not authenticated with Google, and Todoist
    as not connected exactly for those for which [create_task] answers
    that the user is not authenticated with Todoist. *)
Theorem auth_status_agrees_with_the_services env phone ed td w :
  exists s w',
    auth_status phone w = (Ret s, w', [])
    /\ users w' = users w /\ meetings w' = meetings w
    /\ (google_connected s = false
        <-> fst (fst (create_event env phone ed w))
            = Ret (Failure "User not authenticated with Google"))
    /\ (todoist_connected s = false
        <-> fst (fst (create_task env phone td w))
            = Ret (Failure "User not authenticated with Todoist")).
Proof.
  destruct (auth_status_run phone w) as (w' & E & (U & Mt & _) & _).
  eexists _, w'. split; [exact E |]. split; [exact U |]. split; [exact Mt |].
  destruct (create_event_run env phone ed w) as (w1 & -> & _).
  destruct (create_task_run env phone td w) as (w2 & -> & _).
  unfold calendar_answer, task_answer, google_token, stored_todoist_token. simpl.
  destruct (users w !! phone) as [u|]; simpl; [| tauto].
  split.
  - destruct (opt_truthy (User.google_refresh_token u)) eqn:Eg.
    + destruct (User.google_refresh_token u) as [tok|]; [| discriminate Eg].
      split; [discriminate |].
      destruct (event_body ed); simpl; [| discriminate].
      destruct (google_events_insert env _ _ _); discriminate.
    + tauto.
  - destruct (opt_truthy (User.todoist_token u)) eqn:Et; [| tauto].
    split; [discriminate |]. simpl.
    destruct (todoist_post_task env _ _ _) as [code text json|e]; [| discriminate].
    destruct (code =? 200); [destruct json |]; discriminate.
Qed.

Lemma google_auth_callback_run env auth code state w :
  google_auth_callback env auth code state w
  = match google_fetch_token auth (tick w) code with
    | Ret refresh_token =>
        (Ret (JsonMessage
                "Google Calendar connected successfully! You can now schedule meetings."),
         set_sessions (delete (next_session w))
           (set_users
              (insert state
                 (set_google_refresh_token refresh_token
                    (match users w !! state with
                     | Some u => u
                     | None =>
                         User.mk (next_user_id (users w)) None None (PDict ∅) "UTC"
                                 (datetime_utcnow env (S (tick w)))
                     end)))
              (set_next_session (S (next_session w))
                 (set_sessions (insert (next_session w) []) (set_tick (S (tick w)) w)))),
         [])
    | Raise _ =>
        (Ret (HTTPException 500 "Failed to complete Google authentication"),
         set_tick (S (tick w)) w, [])
    end.
Proof.
  unfold google_auth_callback, try_except, bind, oracle, lift. simpl.
  destruct (google_fetch_token auth (tick w) code) as [refresh_token|e]; [| reflexivity].
  unfold try_finally, SessionLocal, session_query_user, commit_user, session_close, modify,
    ret. simpl.
  destruct (users w !! state); reflexivity.
Qed.

(** [google_auth_callback] stores what the exchange of the code returned
    and says that the calendar is connected, whatever that is. With a
    refresh token the user named by [state], registered on the spot if
    new, is connected; when the exchange succeeds without a refresh
    token the stored one is replaced by [NULL], and the user, told that
    the calendar is connected, is not. Nothing else is changed: the other
    columns of the user, the other users and the meetings are as they
    were. A failed exchange is answered with status 500 and changes
    nothing. *)
Theorem google_callback_stores_what_the_exchange_returned env auth code state w :
  exists r w',
    google_auth_callback env auth code state w = (Ret r, w', [])
    /\ meetings w' = meetings w
    /\ (forall p, p <> state -> users w' !! p = users w !! p)
    /\ match google_fetch_token auth (tick w) code with
       | Ret refresh_token =>
           r = JsonMessage
                 "Google Calendar connected successfully! You can now schedule meetings."
           /\ google_token (users w') state
              = (if opt_truthy refresh_token then refresh_token else None)
           /\ exists u, users w' !! state = Some u
                /\ User.google_refresh_token u = refresh_token
                /\ match users w !! state with
                   | Some u0 =>
                       User.id u = User.id u0 /\ User.todoist_token u = User.todoist_token u0
                   | None =>
                       User.id u = next_user_id (users w) /\ User.todoist_token u = None
                   end
       | Raise _ =>
           r = HTTPException 500 "Failed to complete Google authentication"
           /\ users w' = users w
       end.
Proof.
  rewrite google_auth_callback_run.
  destruct (google_fetch_token auth (tick w) code) as [refresh_token|e].
  2:{ eexists _, _. split; [reflexivity |]. simpl. auto. }
  eexists _, _. split; [reflexivity |]. simpl.
  split; [reflexivity |].
  split; [intros p Hp; apply lookup_insert_ne; auto |].
  split; [reflexivity |].
  split.
  - unfold google_token. rewrite lookup_insert_eq. simpl. reflexivity.
  - eexists. split; [apply lookup_insert_eq |]. simpl. split; [reflexivity |].
    destruct (users w !! state); auto.
Qed.

(** Connecting works end to end: once [google_auth_callback] has stored a
    refresh token for a phone number, [auth_status] reports the calendar
    as connected, and [create_event] for that number no longer stops at
    the credentials: it asks Google, with that token. *)
Theorem connected_user_reaches_google env auth code state ed event w token o w1 l :
  google_fetch_token auth (tick w) code = Ret (Some token) -> token <> "" ->
  event_body ed = Ret event ->
  google_auth_callback env auth code state w = (o, w1, l) ->
  (exists s w2, auth_status state w1 = (Ret s, w2, []) /\ google_connected s = true)
  /\ exists w2,
       create_event env state ed w1
       = (Ret (match google_events_insert env (tick w1) token event with
               | GoogleOk c => Success c
               | GoogleHttpError e => Failure ("Google Calendar API error: " +:+ e)
               | GoogleRaised e => Failure ("Calendar service error: " +:+ e)
               end), w2,
          [EvCreateEvent state ed
             (match google_events_insert env (tick w1) token event with
              | GoogleOk c => Success c
              | GoogleHttpError e => Failure ("Google Calendar API error: " +:+ e)
              | GoogleRaised e => Failure ("Calendar service error: " +:+ e)
              end)]).
Proof.
  intros Hf Hne Hb Hrun. rewrite google_auth_callback_run, Hf in Hrun.
  injection Hrun as _ <- _.
  set (w1 := set_sessions _ _).
  assert (Hg : google_token (users w1) state = Some token).
  { unfold google_token, w1. simpl. rewrite lookup_insert_eq. simpl.
    destruct token; [contradiction Hne; reflexivity | reflexivity]. }
  split.
  - destruct (auth_status_run state w1) as (w2 & E & _).
    eexists _, w2. split; [exact E |].
    unfold google_token in Hg. destruct (users w1 !! state) as [u|]; [| discriminate Hg].
    simpl. destruct (opt_truthy (User.google_refresh_token u)); [reflexivity | discriminate Hg].
  - destruct (create_event_run env state ed w1) as (w2 & E & _).
    rewrite Hg in E. unfold calendar_answer in E. rewrite Hb in E.
    exists w2. exact E.
Qed.

Lemma connected_user_reaches_google_witness :
  let ed := mkEventData (PStr "Demo") noon_4_march noon_4_march PNone (PStr "UTC") (PList []) in
  let w1 := snd (fst (google_auth_callback all_fine tokens_granted "code-1" dave_phone
                        with_dave)) in
  (exists s w2, auth_status dave_phone w1 = (Ret s, w2, []) /\ google_connected s = true)
  /\ exists w2,
       create_event all_fine dave_phone ed w1
       = (Ret (Success (mkCreatedEvent "evt-1" None)), w2,
          [EvCreateEvent dave_phone ed (Success (mkCreatedEvent "evt-1" None))]).
Proof.
  intros ed w1.
  refine (connected_user_reaches_google all_fine tokens_granted "code-1" dave_phone ed
            (mkGoogleEvent (PStr "Demo") "" ("2025-03-04T12:00:00", PStr "UTC")
               ("2025-03-04T12:00:00", PStr "UTC") None None)
            with_dave "refresh-new" _ w1 _ _ _ _ (run_eta _ _)).
  - reflexivity.
  - discriminate.
  - vm_compute. reflexivity.
Defined.

Lemma todoist_auth_callback_run env auth code state w :
  todoist_auth_callback env auth code state w
  = match todoist_access_token auth (tick w) code with
    | HttpResponse status_code text (Ret access_token) =>
        if status_code =? 200 then
          (Ret (JsonMessage
                  "Todoist connected successfully! You'll now get task reminders for your meetings."),
           set_sessions (delete (next_session w))
             (set_users
                (insert state
                   (set_todoist_token (Some access_token)
                      (match users w !! state with
                       | Some u => u
                       | None =>
                           User.mk (next_user_id (users w)) None None (PDict ∅) "UTC"
                                   (datetime_utcnow env (S (tick w)))
                       end)))
                (set_next_session (S (next_session w))
                   (set_sessions (insert (next_session w) []) (set_tick (S (tick w)) w)))),
           [])
        else
          (Ret (HTTPException 500 "Failed to complete Todoist authentication"),
           set_tick (S (tick w)) w, [])
    | _ =>
        (Ret (HTTPException 500 "Failed to complete Todoist authentication"),
         set_tick (S (tick w)) w, [])
    end.
Proof.
  unfold todoist_auth_callback, try_except, bind, oracle, lift, raise. simpl.
  destruct (todoist_access_token auth (tick w) code) as [status_code text json|e];
    [| reflexivity].
  destruct (status_code =? 200); [| destruct json; reflexivity].
  simpl. destruct json as [access_token|e]; [| reflexivity].
  unfold try_finally, SessionLocal, session_query_user, commit_user, session_close, modify,
    ret. simpl.
  destruct (users w !! state); reflexivity.
Qed.

(** [todoist_auth_callback] either stores the access token and says that
    Todoist is connected, or answers with status 500 and changes nothing.
    It stores the token exactly when Todoist answered the exchange with
    status 200 and a body that has an access token; the user named by
    [state], registered on the spot if new, then has that token, and the
    calendar token, the other users and the meetings are as they were.
    The status 400 written for a refused code never leaves the function:
    the exception that carries it is caught with all others and replaced
    by the one with status 500. *)
Theorem todoist_callback_stores_or_answers_500 env auth code state w :
  exists r w',
    todoist_auth_callback env auth code state w = (Ret r, w', [])
    /\ meetings w' = meetings w
    /\ (forall p, p <> state -> users w' !! p = users w !! p)
    /\ ((exists text access_token,
           todoist_access_token auth (tick w) code
           = HttpResponse 200 text (Ret access_token)
           /\ r = JsonMessage
                    "Todoist connected successfully! You'll now get task reminders for your meetings."
           /\ stored_todoist_token (users w') state = Some access_token
           /\ google_token (users w') state = google_token (users w) state)
        \/ ((forall text access_token,
                todoist_access_token auth (tick w) code
                <> HttpResponse 200 text (Ret access_token))
            /\ r = HTTPException 500 "Failed to complete Todoist authentication"
            /\ users w' = users w)).
Proof.
  rewrite todoist_auth_callback_run.
  destruct (todoist_access_token auth (tick w) code) as [status_code text json|e].
  2:{ eexists _, _. split; [reflexivity |]. simpl. split; [reflexivity |].
      split; [reflexivity |]. right. split; [discriminate | auto]. }
  destruct json as [access_token|e].
  2:{ eexists _, _. split; [reflexivity |]. simpl. split; [reflexivity |].
      split; [reflexivity |]. right. split; [discriminate | auto]. }
  destruct (status_code =? 200) eqn:Es.
  2:{ eexists _, _. split; [reflexivity |]. simpl. split; [reflexivity |].
      split; [reflexivity |]. right. split; [| auto].
      intros t a [= -> _ _]. discriminate Es. }
  apply Z.eqb_eq in Es. subst status_code.
  eexists _, _. split; [reflexivity |]. simpl. split; [reflexivity |].
  split; [intros p Hp; apply lookup_insert_ne; auto |].
  left. exists text, access_token. split; [reflexivity |]. split; [reflexivity |].
  unfold stored_todoist_token, google_token. rewrite lookup_insert_eq. simpl.
  split; [reflexivity |]. destruct (users w !! state); reflexivity.
Qed.
